(** * create_gbl: metadata resolution for GBL images

    A shallow embedding of [tools/create_gbl.py]: the three text parsers
    ([parse_simple_config], [parse_c_header_defines],
    [parse_properties_file]), the file locator
    ([find_file_in_parent_dirs]), the construction of the metadata record
    and of the [commander] argument list.

    Python strings are modelled as [string]; a character is a code point
    in 0..255.  Dictionaries are [gmap]s keyed by strings.  An exception
    is a value of [exn] carried by [Raise]. *)

From Stdlib Require Import String Ascii List ZArith Lia Bool DecimalString.
From stdpp Require Import base option list strings gmap.

Local Open Scope string_scope.
Local Open Scope list_scope.

(** ** Python primitives used by the tool *)

Module Py.

(** The exception classes the tool can meet. *)
Inductive exn : Type :=
| ValueError
| SyntaxError
| TypeError
| KeyError
| IndexError
| FileNotFoundError
| OtherError (name : string).

Inductive result (A : Type) : Type :=
| Ok (a : A)
| Raise (e : exn).
Arguments Ok {A} a.
Arguments Raise {A} e.

Definition bind {A B} (m : result A) (f : A -> result B) : result B :=
  match m with
  | Ok a => f a
  | Raise e => Raise e
  end.

(** [for x in l: acc = f acc x], stopping at the first exception. *)
Fixpoint for_each {A S} (f : S -> A -> result S) (l : list A) (acc : S)
  : result S :=
  match l with
  | [] => Ok acc
  | x :: l' => bind (f acc x) (for_each f l')
  end.

(** [a, b = xs]: unpacking into exactly two targets. *)
Definition unpack2 {A} (xs : list A) : result (A * A) :=
  match xs with
  | [a; b] => Ok (a, b)
  | _ => Raise ValueError
  end.

(** [str.isspace] on one character, for code points below 256:
    TAB..CR, FS..US, SPACE, NEL and NBSP. *)
Definition isspace (c : ascii) : bool :=
  let n := N_of_ascii c in
  ((9 <=? n) && (n <=? 13) || (28 <=? n) && (n <=? 32)
   || (n =? 133) || (n =? 160))%N.

Fixpoint lstrip (s : string) : string :=
  match s with
  | EmptyString => EmptyString
  | String c r => if isspace c then lstrip r else s
  end.

Fixpoint rstrip (s : string) : string :=
  match s with
  | EmptyString => EmptyString
  | String c r =>
      match rstrip r with
      | EmptyString => if isspace c then EmptyString else String c EmptyString
      | r' => String c r'
      end
  end.

(** [s.strip()] *)
Definition strip (s : string) : string := rstrip (lstrip s).

(** [s.startswith(p)] *)
Definition startswith (p s : string) : bool := String.prefix p s.

(** [c in s] for a one-character [c]. *)
Fixpoint contains (c : ascii) (s : string) : bool :=
  match s with
  | EmptyString => false
  | String d r => Ascii.eqb d c || contains c r
  end.

Definition cons_head (c : ascii) (l : list string) : list string :=
  match l with
  | [] => [String c EmptyString]
  | h :: t => String c h :: t
  end.

(** [s.split(sep)] for a one-character separator. *)
Fixpoint split (sep : ascii) (s : string) : list string :=
  match s with
  | EmptyString => [EmptyString]
  | String c r =>
      if Ascii.eqb c sep then EmptyString :: split sep r
      else cons_head c (split sep r)
  end.

(** [s.split(sep, 1)] for a one-character separator. *)
Fixpoint split1 (sep : ascii) (s : string) : list string :=
  match s with
  | EmptyString => [EmptyString]
  | String c r =>
      if Ascii.eqb c sep then [EmptyString; r]
      else cons_head c (split1 sep r)
  end.

(** The maximal run of non-space characters at the front of [s], and
    what follows it. *)
Fixpoint take_word (s : string) : string * string :=
  match s with
  | EmptyString => (EmptyString, EmptyString)
  | String c r =>
      if isspace c then (EmptyString, s)
      else let (w, rest) := take_word r in (String c w, rest)
  end.

(** [s.split(None, maxsplit)]: at most [maxsplit] words are cut off the
    front; what is left, without its leading white space, is the last
    item when it is not empty. *)
Fixpoint split_ws (maxsplit : nat) (s : string) : list string :=
  match lstrip s with
  | EmptyString => []
  | r =>
      match maxsplit with
      | O => [r]
      | S m => let (w, rest) := take_word r in w :: split_ws m rest
      end
  end.

End Py.

Import Py.

Global Instance result_ret : MRet result := @Ok.
Global Instance result_bind : MBind result := fun A B f m => Py.bind m f.

Definition NL : ascii := "010"%char.
Definition EQ : ascii := "="%char.

(** ** The text parsers *)

(** One iteration of the loop of [parse_simple_config]. *)
Definition simple_config_line (config : gmap string string) (line : string)
  : result (gmap string string) :=
  let line := strip line in
  if String.eqb line "" || startswith "#" line || negb (contains EQ line)
  then Ok config
  else
    '(key, value) ← unpack2 (split1 EQ line);
    Ok (<[strip key := strip value]> config).

Definition parse_simple_config (file_content : string)
  : result (gmap string string) :=
  for_each simple_config_line (split NL file_content) ∅.

(** Python values that end up in the metadata record: the results of
    [ast.literal_eval] and the scalars of the YAML files.  [PyOther] is an
    object of any other type, kept by the text [str()] gives for it. *)
Inductive pyval : Type :=
| PyNone
| PyBool (b : bool)
| PyInt (n : Z)
| PyStr (s : string)
| PyOther (text : string).

(** [ast.literal_eval] belongs to the Python library, not to the tool: it
    is an interface here.  Its argument is a [str] or [None]. *)
Class LiteralEval := literal_eval : option string -> result pyval.

(** One iteration of the loop of [parse_c_header_defines].  [key_value]
    holds what follows the first item of [line.split(None, 2)]: with two
    items they are the key and the value; otherwise [key_value + [None]]
    is unpacked into two targets, which works for one item only. *)
Definition c_header_line `{LiteralEval} (config : gmap string pyval)
    (line : string) : result (gmap string pyval) :=
  if negb (startswith "#define" line) then Ok config
  else
    match split_ws 2 line with
    | [] => Raise ValueError
    | _ :: key_value =>
        '(key, value) ←
          match key_value with
          | [key; value] => Ok (key, Some value)
          | [key] => Ok (key, None)
          | _ => Raise ValueError
          end;
        match literal_eval value with
        | Ok v => Ok (<[key := v]> config)
        | Raise ValueError | Raise SyntaxError => Ok config
        | Raise e => Raise e
        end
    end.

Definition parse_c_header_defines `{LiteralEval} (file_content : string)
  : result (gmap string pyval) :=
  for_each c_header_line (split NL file_content) ∅.

Definition SP : ascii := " "%char.

(** The [while i < len(value)] loop of [parse_properties_file].  The
    state is the index [i], the list [properties[key]] and
    [current_value]; every turn advances [i], so [fuel = len(value)]
    turns are enough. *)
Fixpoint tokenize_loop (fuel : nat) (value : string) (i : nat)
    (tokens : list string) (current_value : string)
  : list string * string :=
  match fuel with
  | O => (tokens, current_value)
  | S fuel' =>
      if (i <? String.length value)%nat then
        if String.eqb (substring i 2 value) "\\" then
          tokenize_loop fuel' value (i + 2) tokens (current_value +:+ " ")
        else
          match String.get i value with
          | Some c =>
              if Ascii.eqb c SP then
                tokenize_loop fuel' value (i + 1) (tokens ++ [current_value]) ""
              else
                tokenize_loop fuel' value (i + 1) tokens
                  (current_value +:+ String c "")
          | None => (tokens, current_value)
          end
      else (tokens, current_value)
  end.

(** The tokens of one value: the loop, then the trailing token. *)
Definition tokenize (value : string) : list string :=
  let '(tokens, current_value) :=
    tokenize_loop (String.length value) value 0 [] "" in
  if String.eqb current_value "" then tokens
  else tokens ++ [current_value].

(** One iteration of the outer loop of [parse_properties_file]. *)
Definition properties_line (properties : gmap string (list string))
    (line : string) : result (gmap string (list string)) :=
  let line := strip line in
  if String.eqb line "" || startswith "#" line then Ok properties
  else
    '(key, value) ← unpack2 (split1 EQ line);
    Ok (<[strip key := tokenize value]> properties).

Definition parse_properties_file (file_content : string)
  : result (gmap string (list string)) :=
  for_each properties_line (split NL file_content) ∅.

(** An instance of the interface for running the parsers on concrete
    texts.  It agrees with [ast.literal_eval] on [None] (a [ValueError]),
    on decimal integers without sign and on double-quoted strings without
    escapes; every other text is refused with [SyntaxError], which the
    library does not always do. *)
Module Sample.

Definition DQ : ascii := "034"%char.

Definition digit (c : ascii) : option Z :=
  let n := N_of_ascii c in
  if ((48 <=? n) && (n <=? 57))%N then Some (Z.of_N n - 48)%Z else None.

Fixpoint decimal (acc : Z) (s : string) : option Z :=
  match s with
  | EmptyString => Some acc
  | String c r =>
      match digit c with
      | Some d => decimal (10 * acc + d)%Z r
      | None => None
      end
  end.

Fixpoint quoted_body (s : string) : option string :=
  match s with
  | EmptyString => None
  | String c r =>
      if Ascii.eqb c DQ then
        match r with EmptyString => Some EmptyString | _ => None end
      else if Ascii.eqb c "\"%char then None
      else option_map (String c) (quoted_body r)
  end.

Definition eval (v : option string) : result pyval :=
  match v with
  | None => Raise ValueError
  | Some EmptyString => Raise SyntaxError
  | Some (String c r as s) =>
      if Ascii.eqb c DQ then
        match quoted_body r with
        | Some body => Ok (PyStr body)
        | None => Raise SyntaxError
        end
      else if Ascii.eqb c "0"%char && negb (String.eqb r "") then
        Raise SyntaxError
      else
        match decimal 0 s with
        | Some n => Ok (PyInt n)
        | None => Raise SyntaxError
        end
  end.

Definition literal_eval_sample : LiteralEval := eval.

End Sample.


(** ** Paths and the file system *)

(** A [pathlib.Path] is the list of its components below the anchor; the
    anchor itself is the empty list. *)
Definition path : Type := list string.

(** [p.parent]: the anchor is its own parent. *)
Definition parent (p : path) : path := removelast p.

(** What the tool observes of the file system: [Path.resolve] (it depends
    on the working directory and on links), [Path.exists] and
    [Path.read_text]. *)
Record filesystem : Type := Filesystem {
  fs_resolve : path -> path;
  fs_exists : path -> bool;
  fs_read_text : path -> result string
}.

(** The [while True] loop of [find_file_in_parent_dirs] on the resolved
    [root]; [filename] is one component.  Every turn that goes on
    shortens [root]; [None] is a loop that used up its fuel. *)
Fixpoint find_file_loop (fuel : nat) (fs : filesystem) (root : path)
    (filename : string) : option (result path) :=
  match fuel with
  | O => None
  | S fuel' =>
      if fs_exists fs (root ++ [filename]) then Some (Ok (root ++ [filename]))
      else if bool_decide (parent root = root) then
        Some (Raise FileNotFoundError)
      else find_file_loop fuel' fs (parent root) filename
  end.

Definition find_file_in_parent_dirs (fs : filesystem) (root : path)
    (filename : string) : option (result path) :=
  let root := fs_resolve fs root in
  find_file_loop (S (length root)) fs root filename.

(** ** The run of the script: file reads are logged *)

Record run (A : Type) : Type := Run {
  run_reads : list path;
  run_result : result A
}.
Arguments Run {A} _ _.
Arguments run_reads {A} _.
Arguments run_result {A} _.

Global Instance run_ret : MRet run := fun A a => Run [] (Ok a).
Global Instance run_bind : MBind run := fun A B f m =>
  match run_result m with
  | Ok a => Run (run_reads m ++ run_reads (f a)) (run_result (f a))
  | Raise e => Run (run_reads m) (Raise e)
  end.

(** A step that reads no file. *)
Definition pure_step {A} (r : result A) : run A := Run [] r.

(** [p.read_text()] *)
Definition read_text (fs : filesystem) (p : path) : run string :=
  Run [p] (fs_read_text fs p).

(** [try: body / except FileNotFoundError: handler] *)
Definition except_FileNotFoundError {A} (body : run A) (handler : run A)
  : run A :=
  match run_result body with
  | Raise FileNotFoundError =>
      Run (run_reads body ++ run_reads handler) (run_result handler)
  | _ => body
  end.

(** [d[k]] *)
Definition getitem {V} (d : gmap string V) (k : string) : result V :=
  match d !! k with
  | Some v => Ok v
  | None => Raise KeyError
  end.

(** [l[0]] *)
Definition first_item {A} (l : list A) : result A :=
  match l with
  | x :: _ => Ok x
  | [] => Raise IndexError
  end.

(** [str(n)] for an [int]. *)
Definition str_of_int (n : Z) : string :=
  NilZero.string_of_int (Z.to_int n).

(** [str(v)] *)
Definition py_str (v : pyval) : string :=
  match v with
  | PyNone => "None"
  | PyBool true => "True"
  | PyBool false => "False"
  | PyInt n => str_of_int n
  | PyStr s => s
  | PyOther text => text
  end.

(** [s + v] for a [str] on the left. *)
Definition str_add (s : string) (v : pyval) : result string :=
  match v with
  | PyStr t => Ok (s +:+ t)
  | _ => Raise TypeError
  end.

(** [name in gbl_dynamic] for a list: only an equal [str] matches. *)
Definition declared (name : string) (gbl_dynamic : list pyval) : bool :=
  existsb (fun v => match v with PyStr s => String.eqb s name | _ => false end)
    gbl_dynamic.

(** ** The inputs of the run

    [gbl_fields] holds the scalar entries of [gbl_metadata.yaml]
    ([fw_type], [baudrate], [compression], [sign_key], [encrypt_key]);
    [gbl_dynamic_entry] is its [dynamic] entry, a sequence when present.
    [sdk_version] is [slcp["sdk"]["version"]].  [sys_platform] is
    [sys.platform] and [environ] is [os.environ] when the script
    starts. *)
Record inputs : Type := Inputs {
  sdk_version : pyval;
  gbl_fields : gmap string pyval;
  gbl_dynamic_entry : option (list pyval);
  gsdk_path : path;
  project_root : path;
  sys_platform : string;
  environ : gmap string string
}.

(** [gbl_metadata.get("dynamic", [])] *)
Definition gbl_dynamic (i : inputs) : list pyval :=
  default [] (gbl_dynamic_entry i).

Definition zigbee_esf : list string := ["protocol"; "zigbee"; "esf.properties"].
Definition zwave_esf : list string := ["protocol"; "z-wave"; "esf.properties"].
Definition gsdk_version_h : list string :=
  ["platform"; "common"; "inc"; "sl_gsdk_version.h"].
Definition internal_app_config : list string :=
  ["config"; "internal_app_config.h"].
Definition openthread_config : list string :=
  ["config"; "sl_openthread_generic_config.h"].
Definition btl_config : list string :=
  ["platform"; "bootloader"; "config"; "btl_config.h"].

Section Resolver.
Context `{LiteralEval}.
Variable fs : filesystem.
Variable i : inputs.

(** The initial [metadata] dictionary. *)
Definition base_metadata : run (gmap string pyval) :=
  fw_type ← pure_step (getitem (gbl_fields i) "fw_type");
  baudrate ← pure_step (getitem (gbl_fields i) "baudrate");
  mret (<["baudrate" := baudrate]>
         (<["fw_type" := fw_type]>
           (<["sdk_version" := sdk_version i]>
             (<["metadata_version" := PyInt 1]> ∅)))).

(** [parse_properties_file(p.read_text())["version"][0]] *)
Definition esf_version (p : path) : run string :=
  text ← read_text fs p;
  props ← pure_step (parse_properties_file text);
  version ← pure_step (getitem props "version");
  pure_step (first_item version).

(** [".".join([str(h[a]), str(h[b]), str(h[c])])] *)
Definition dotted (h : gmap string pyval) (a b c : string) : result string :=
  x ← getitem h a;
  y ← getitem h b;
  z ← getitem h c;
  Ok (String.concat "." [py_str x; py_str y; py_str z]).

Definition ezsp_step (metadata : gmap string pyval)
  : run (gmap string pyval) :=
  if declared "ezsp_version" (gbl_dynamic i) then
    v ← esf_version (gsdk_path i ++ zigbee_esf);
    mret (<["ezsp_version" := PyStr v]> metadata)
  else mret metadata.

Definition cpc_step (metadata : gmap string pyval)
  : run (gmap string pyval) :=
  if declared "cpc_version" (gbl_dynamic i) then
    text ← read_text fs (gsdk_path i ++ gsdk_version_h);
    sl_gsdk_version_h ← pure_step (parse_c_header_defines text);
    cpc ← pure_step (dotted sl_gsdk_version_h "SL_GSDK_MAJOR_VERSION"
                       "SL_GSDK_MINOR_VERSION" "SL_GSDK_PATCH_VERSION");
    internal_app_config_h ←
      except_FileNotFoundError
        (text ← read_text fs (project_root i ++ internal_app_config);
         pure_step (parse_c_header_defines text))
        (mret ∅);
    match internal_app_config_h !! "CPC_SECONDARY_APP_VERSION_SUFFIX" with
    | Some suffix =>
        cpc' ← pure_step (str_add cpc suffix);
        mret (<["cpc_version" := PyStr cpc']> metadata)
    | None => mret (<["cpc_version" := PyStr cpc]> metadata)
    end
  else mret metadata.

Definition zwave_step (metadata : gmap string pyval)
  : run (gmap string pyval) :=
  if declared "zwave_version" (gbl_dynamic i) then
    v ← esf_version (gsdk_path i ++ zwave_esf);
    mret (<["zwave_version" := PyStr v]> metadata)
  else mret metadata.

Definition ot_rcp_step (metadata : gmap string pyval)
  : run (gmap string pyval) :=
  if declared "ot_rcp_version" (gbl_dynamic i) then
    text ← read_text fs (project_root i ++ openthread_config);
    openthread_config_h ← pure_step (parse_c_header_defines text);
    v ← pure_step (getitem openthread_config_h "PACKAGE_STRING");
    mret (<["ot_rcp_version" := v]> metadata)
  else mret metadata.

Definition gecko_bootloader_step (metadata : gmap string pyval)
  : run (gmap string pyval) :=
  if declared "gecko_bootloader_version" (gbl_dynamic i) then
    text ← read_text fs (gsdk_path i ++ btl_config);
    btl_config_h ← pure_step (parse_c_header_defines text);
    v ← pure_step (dotted btl_config_h "BOOTLOADER_VERSION_MAIN_MAJOR"
                     "BOOTLOADER_VERSION_MAIN_MINOR"
                     "BOOTLOADER_VERSION_MAIN_CUSTOMER");
    mret (<["gecko_bootloader_version" := PyStr v]> metadata)
  else mret metadata.

(** The metadata stage of the script, in the order of the source. *)
Definition resolve_metadata : run (gmap string pyval) :=
  metadata ← base_metadata;
  metadata ← ezsp_step metadata;
  metadata ← cpc_step metadata;
  metadata ← zwave_step metadata;
  metadata ← ot_rcp_step metadata;
  gecko_bootloader_step metadata.

End Resolver.

(** ** The invocation of [commander] *)

(** An element of [commander_args]: a Python value or a [Path]. *)
Inductive arg : Type :=
| ArgVal (v : pyval)
| ArgPath (p : path).

Definition lit (s : string) : arg := ArgVal (PyStr s).

(** [v != s] for a [str] [s]. *)
Definition ne_str (v : pyval) (s : string) : bool :=
  match v with
  | PyStr t => negb (String.eqb t s)
  | _ => true
  end.

(** [if gbl_metadata.get(setting, None) is not None:
      commander_args += [flag, gbl_metadata[setting]]] *)
Definition optional_flag (fields : gmap string pyval) (setting flag : string)
    (commander_args : list arg) : list arg :=
  match fields !! setting with
  | None | Some PyNone => commander_args
  | Some v => commander_args ++ [lit flag; ArgVal v]
  end.

(** The list [commander_args].  [gbl_file] is [out_file.with_suffix(".gbl")]
    and [metadata_json] is [artifact_root / "gbl_metadata.json"]. *)
Definition commander_args (fields : gmap string pyval)
    (gbl_file out_file : path) (device_part_id : string)
    (metadata_json : path) : result (list arg) :=
  fw_type ← getitem fields "fw_type";
  let commander_args :=
    [ lit "commander"; lit "gbl"; lit "create"; ArgPath gbl_file;
      lit (if ne_str fw_type "gecko-bootloader" then "--app"
           else "--bootloader");
      ArgPath out_file; lit "--device"; lit device_part_id;
      lit "--metadata"; ArgPath metadata_json ] in
  let commander_args :=
    optional_flag fields "compression" "--compress" commander_args in
  let commander_args :=
    optional_flag fields "sign_key" "--sign" commander_args in
  let commander_args :=
    optional_flag fields "encrypt_key" "--encrypt" commander_args in
  Ok commander_args.

(** ** The script from the metadata on *)

(** [json.dumps] belongs to the Python library, not to the tool: it is an
    interface here, applied to the metadata record.  It raises
    [TypeError] on a value it cannot serialise. *)
Class JsonDumps := json_dumps : gmap string pyval -> result string.

(** The directory of the Commander binary on macOS. *)
Definition commander_dir : string :=
  "/Applications/Simplicity Studio.app/Contents/Eclipse/developer/adapter_packs/commander/Commander.app/Contents/MacOS".

(** [if sys.platform == "darwin":
      os.environ["PATH"] += os.pathsep + commander_dir]
    where [os.pathsep] is [:] on that platform.  The augmented
    assignment reads [os.environ["PATH"]] first. *)
Definition extend_path (platform : string) (environ : gmap string string)
  : result (gmap string string) :=
  if String.eqb platform "darwin" then
    old ← getitem environ "PATH";
    Ok (<["PATH" := old +:+ ":" +:+ commander_dir]> environ)
  else Ok environ.

(** What the script holds when it hands the command to [subprocess.run]:
    the metadata record, the text written to [gbl_metadata.json], the
    environment and [commander_args]. *)
Record outcome : Type := Outcome {
  out_metadata : gmap string pyval;
  out_json : string;
  out_environ : gmap string string;
  out_args : list arg
}.

(** The script from the metadata on: the record is serialised and
    written to [gbl_metadata.json], the search path is extended on
    macOS, and the command is assembled. *)
Definition create_gbl `{LiteralEval} `{JsonDumps} (fs : filesystem)
    (i : inputs) (gbl_file out_file : path) (device_part_id : string)
    (metadata_json : path) : run outcome :=
  metadata ← resolve_metadata fs i;
  text ← pure_step (json_dumps metadata);
  environ ← pure_step (extend_path (sys_platform i) (environ i));
  args ← pure_step (commander_args (gbl_fields i) gbl_file out_file
                      device_part_id metadata_json);
  mret (Outcome metadata text environ args).

(** ** Notions the properties are stated with *)

(** [line] is an entry [k = v] of a simple configuration file: trimmed,
    it is not empty, does not start with [#], and its first [=] has [a]
    before it and [b] after it, with [k] and [v] the trimmed [a] and
    [b]. *)
Definition is_entry (line k v : string) : Prop :=
  strip line ≠ "" ∧ startswith "#" (strip line) = false ∧
  ∃ a b, strip line = a +:+ String EQ b ∧ contains EQ a = false ∧
         k = strip a ∧ v = strip b.

(** The last of the lines [ls] that is an entry for [k] gives it [v]. *)
Definition last_entry (ls : list string) (k v : string) : Prop :=
  ∃ pre line post, ls = pre ++ line :: post ∧ is_entry line k v ∧
    ∀ l' v', l' ∈ post -> ¬ is_entry l' k v'.

Definition BS : ascii := "\"%char.

(** The tokens of a value of the properties format, as the format is
    described: two backslashes in a row add one space to the current
    token, a space ends the current token, any other character is added
    to it, and what is left at the end is a token when it is not
    empty. *)
Fixpoint tokens_of (current value : string) : list string :=
  match value with
  | EmptyString => if String.eqb current "" then [] else [current]
  | String c r =>
      match r with
      | String c2 r2 =>
          if Ascii.eqb c BS && Ascii.eqb c2 BS then
            tokens_of (current +:+ " ") r2
          else if Ascii.eqb c SP then current :: tokens_of "" r
          else tokens_of (current +:+ String c "") r
      | EmptyString =>
          if Ascii.eqb c SP then current :: tokens_of "" r
          else tokens_of (current +:+ String c "") r
      end
  end.

(** The [k]-th parent of [p]: [p], [p.parent], [p.parent.parent], ... *)
Fixpoint ancestor (k : nat) (p : path) : path :=
  match k with
  | O => p
  | S k' => ancestor k' (parent p)
  end.

(** [part] is what a setting adds to the command: the flag and the
    setting's value when the setting is there and not null, nothing when
    it is missing or null. *)
Definition flag_pair (fields : gmap string pyval) (setting flag : string)
    (part : list arg) : Prop :=
  (∀ v, part = [lit flag; ArgVal v] ↔
        fields !! setting = Some v ∧ v ≠ PyNone) ∧
  (part = [] ↔ fields !! setting = None ∨ fields !! setting = Some PyNone).

(** What a step of the metadata stage computes, without the log of
    reads: the first token of [version] in a properties file, a header
    read and parsed, and the optional header, for which a missing file
    is an empty mapping. *)
Definition esf_version_of (fs : filesystem) (p : path) : result string :=
  text ← fs_read_text fs p;
  props ← parse_properties_file text;
  version ← getitem props "version";
  first_item version.

Definition header_of `{LiteralEval} (fs : filesystem) (p : path)
  : result (gmap string pyval) :=
  text ← fs_read_text fs p;
  parse_c_header_defines text.

Definition optional_header_of `{LiteralEval} (fs : filesystem) (p : path)
  : result (gmap string pyval) :=
  match header_of fs p with
  | Raise FileNotFoundError => Ok ∅
  | r => r
  end.

(** The names of the dynamic fields the tool knows. *)
Definition recognized_names : list string :=
  ["ezsp_version"; "cpc_version"; "zwave_version"; "ot_rcp_version";
   "gecko_bootloader_version"].

(** The four fields every record has. *)
Definition base_names : gset string :=
  {["metadata_version"; "sdk_version"; "fw_type"; "baudrate"]}.

(** The inputs [i] with [l] as the declared list. *)
Definition with_dynamic (i : inputs) (l : list pyval) : inputs :=
  {| sdk_version := sdk_version i;
     gbl_fields := gbl_fields i;
     gbl_dynamic_entry := Some l;
     gsdk_path := gsdk_path i;
     project_root := project_root i;
     sys_platform := sys_platform i;
     environ := environ i |}.

(** The table of the dynamic fields: the file a field is taken from and
    the keys it needs there. *)
Definition source_file (i : inputs) (name : string) : option path :=
  if String.eqb name "ezsp_version" then Some (gsdk_path i ++ zigbee_esf)
  else if String.eqb name "cpc_version" then
    Some (gsdk_path i ++ gsdk_version_h)
  else if String.eqb name "zwave_version" then Some (gsdk_path i ++ zwave_esf)
  else if String.eqb name "ot_rcp_version" then
    Some (project_root i ++ openthread_config)
  else if String.eqb name "gecko_bootloader_version" then
    Some (gsdk_path i ++ btl_config)
  else None.

Definition required_keys (name : string) : list string :=
  if String.eqb name "ezsp_version" then ["version"]
  else if String.eqb name "cpc_version" then
    ["SL_GSDK_MAJOR_VERSION"; "SL_GSDK_MINOR_VERSION"; "SL_GSDK_PATCH_VERSION"]
  else if String.eqb name "zwave_version" then ["version"]
  else if String.eqb name "ot_rcp_version" then ["PACKAGE_STRING"]
  else if String.eqb name "gecko_bootloader_version" then
    ["BOOTLOADER_VERSION_MAIN_MAJOR"; "BOOTLOADER_VERSION_MAIN_MINOR";
     "BOOTLOADER_VERSION_MAIN_CUSTOMER"]
  else [].

(** The keys of the mapping the field's parser makes of [text]: the
    properties parser for the two [esf.properties] fields, the header
    parser for the others. *)
Definition parsed_keys `{LiteralEval} (name text : string)
  : result (gset string) :=
  if String.eqb name "ezsp_version" || String.eqb name "zwave_version" then
    props ← parse_properties_file text; Ok (dom props)
  else
    h ← parse_c_header_defines text; Ok (dom h).

(** The extraction of the field [name] fails: its file cannot be read, or
    the parsed mapping lacks a key the field needs. *)
Inductive extraction_failure `{LiteralEval} (fs : filesystem) (i : inputs)
    (name : string) : Prop :=
| missing_file p e :
    source_file i name = Some p ->
    fs_read_text fs p = Raise e ->
    extraction_failure fs i name
| missing_key p text keys k :
    source_file i name = Some p ->
    fs_read_text fs p = Ok text ->
    parsed_keys name text = Ok keys ->
    k ∈ required_keys name ->
    k ∉ keys ->
    extraction_failure fs i name.

(** What a step for the field [name] that goes through has done to the
    record [md]: set [name] when the field is declared, nothing
    otherwise. *)
Definition step_shape (i : inputs) (name : string)
    (md md' : gmap string pyval) : Prop :=
  if declared name (gbl_dynamic i) then ∃ v, md' = <[name := v]> md
  else md' = md.

(** The text of a token in a properties file: a space of the token is
    written as two backslashes. *)
Fixpoint escape_token (t : string) : string :=
  match t with
  | EmptyString => EmptyString
  | String c r =>
      if Ascii.eqb c SP then String BS (String BS (escape_token r))
      else String c (escape_token r)
  end.

(** The value of a properties line that lists the tokens [ts]: the
    escaped tokens with one space between them. *)
Definition write_tokens (ts : list string) : string :=
  String.concat " " (map escape_token ts).

(** [l] without its last item when that item is the empty string. *)
Fixpoint drop_trailing_empty (l : list string) : list string :=
  match l with
  | [] => []
  | x :: l' =>
      match l' with
      | [] => if String.eqb x "" then [] else [x]
      | _ => x :: drop_trailing_empty l'
      end
  end.

(** ** Sample inputs *)

(** A makefile in the [key = value] form, with a comment, a blank line,
    a key given twice, a line without [=] and a comment that is
    indented. *)
Definition sample_makefile : string :=
  "# generated" +:+ String NL (
  String NL (
  "BASE_SDK_PATH = /tmp" +:+ String NL (
  "no separator" +:+ String NL (
  "  BASE_SDK_PATH =  /opt/gsdk=4.4 " +:+ String NL
  "  # BASE_SDK_PATH = x")))).

(** The header [#define FOO 42], [#define BAR "x"], [#define BAZ]. *)
Definition sample_header : string :=
  "#define FOO 42" +:+ String NL (
  "#define BAR " +:+ String Sample.DQ ("x" +:+ String Sample.DQ (String NL
  "#define BAZ"))).

(** The text ["x"], quotes included. *)
Definition quoted_x : string :=
  String Sample.DQ ("x" +:+ String Sample.DQ "").

(** A tree [a/b/c] with [proj.slcp] in [a] only; paths are resolved
    already. *)
Definition sample_tree : filesystem :=
  {| fs_resolve := id;
     fs_exists := fun p => bool_decide (p = ["a"; "proj.slcp"]);
     fs_read_text := fun _ => Raise FileNotFoundError |}.

(** The settings of a bootloader image that is compressed, with a null
    signing key and no encryption key. *)
Definition sample_fields : gmap string pyval :=
  <["fw_type" := PyStr "gecko-bootloader"]>
    (<["baudrate" := PyInt 115200]>
      (<["compression" := PyStr "lzma"]>
        (<["sign_key" := PyNone]> ∅))).

Definition lines (ls : list string) : string := String.concat (String NL "") ls.

(** An SDK tree at [sdk] with the version header of 4.2.0 and a Zigbee
    properties file, and a project at [proj]; [suffix_header] is the
    content of [proj/config/internal_app_config.h] when the file is
    there. *)
Definition sample_files (suffix_header : option string) (p : path)
  : result string :=
  if bool_decide (p = ["sdk"; "platform"; "common"; "inc"; "sl_gsdk_version.h"])
  then Ok (lines ["#ifndef SL_GSDK_VERSION_H";
                  "#define SL_GSDK_MAJOR_VERSION 4";
                  "#define SL_GSDK_MINOR_VERSION 2";
                  "#define SL_GSDK_PATCH_VERSION 0";
                  "#endif"])
  else if bool_decide (p = ["sdk"; "protocol"; "zigbee"; "esf.properties"])
  then Ok (lines ["# Zigbee"; "id=zigbee"; "version=7.4.0.0 GA"])
  else if bool_decide (p = ["sdk"; "protocol"; "z-wave"; "esf.properties"])
  then Ok (lines ["id=zwave"; "no version here"])
  else if bool_decide (p = ["proj"; "config"; "internal_app_config.h"])
  then match suffix_header with
       | Some text => Ok text
       | None => Raise FileNotFoundError
       end
  else Raise FileNotFoundError.

Definition sample_fs (suffix_header : option string) : filesystem :=
  {| fs_resolve := id;
     fs_exists := fun _ => false;
     fs_read_text := sample_files suffix_header |}.

(** The header that sets the suffix to the string [-beta]. *)
Definition beta_header : string :=
  "#define CPC_SECONDARY_APP_VERSION_SUFFIX "
  +:+ String Sample.DQ ("-beta" +:+ String Sample.DQ "").

Definition sample_inputs (dynamic : list pyval) : inputs :=
  {| sdk_version := PyStr "4.4.0";
     gbl_fields := sample_fields;
     gbl_dynamic_entry := Some dynamic;
     gsdk_path := ["sdk"];
     project_root := ["proj"];
     sys_platform := "darwin";
     environ := <["PATH" := "/usr/bin:/bin"]> ∅ |}.

(** A serialiser for the examples.  It gives the text [json.dumps] gives
    for a record of the script (the keys in the order the script inserts
    them) whose values are [None], booleans, integers and strings of
    printable ASCII characters other than the double quote and the
    backslash; every other value is refused with [TypeError], which the
    library does not always do. *)
Definition json_plain_char (c : ascii) : bool :=
  let n := N_of_ascii c in
  ((32 <=? n) && (n <=? 126))%N
  && negb (Ascii.eqb c Sample.DQ) && negb (Ascii.eqb c BS).

Fixpoint json_plain (s : string) : bool :=
  match s with
  | EmptyString => true
  | String c r => json_plain_char c && json_plain r
  end.

Definition json_quote (s : string) : string :=
  String Sample.DQ (s +:+ String Sample.DQ "").

Definition sample_json_value (v : pyval) : result string :=
  match v with
  | PyNone => Ok "null"
  | PyBool true => Ok "true"
  | PyBool false => Ok "false"
  | PyInt n => Ok (str_of_int n)
  | PyStr s => if json_plain s then Ok (json_quote s) else Raise TypeError
  | PyOther _ => Raise TypeError
  end.

(** The keys of a record in the order the script inserts them. *)
Definition metadata_keys : list string :=
  ["metadata_version"; "sdk_version"; "fw_type"; "baudrate";
   "ezsp_version"; "cpc_version"; "zwave_version"; "ot_rcp_version";
   "gecko_bootloader_version"].

Definition sample_json_item (metadata : gmap string pyval)
    (items : list string) (key : string) : result (list string) :=
  match metadata !! key with
  | Some v =>
      text ← sample_json_value v;
      Ok (items ++ [json_quote key +:+ ": " +:+ text])
  | None => Ok items
  end.

Definition sample_json_dumps : JsonDumps := fun metadata =>
  items ← for_each (sample_json_item metadata) metadata_keys [];
  Ok ("{" +:+ String.concat ", " items +:+ "}").


(** With [sets l k v] read as: the line [l] sets the key [k] to [v], the
    last of the lines [ls] that sets [k] sets it to [v]. *)
Definition last_sets {L V} (sets : L -> string -> V -> Prop) (ls : list L)
    (k : string) (v : V) : Prop :=
  ∃ pre l post, ls = pre ++ l :: post ∧ sets l k v ∧
    ∀ l' v', l' ∈ post -> ¬ sets l' k v'.

(** [line] is a line [k = ...] of a properties file: trimmed, it is not
    empty, does not start with [#], and its first [=] has [a] before it
    and [b] after it, with [k] the trimmed [a] and [toks] the tokens of
    [b]. *)
Definition is_property (line k : string) (toks : list string) : Prop :=
  strip line ≠ "" ∧ startswith "#" (strip line) = false ∧
  ∃ a b, strip line = a +:+ String EQ b ∧ contains EQ a = false ∧
         k = strip a ∧ toks = tokenize b.

(** The key and the value text of a [#define] line: the second item of
    [line.split(None, 2)] and the third one, when it is there. *)
Definition define_of (line : string) : option (string * option string) :=
  if startswith "#define" line then
    match split_ws 2 line with
    | [_; key] => Some (key, None)
    | [_; key; value] => Some (key, Some value)
    | _ => None
    end
  else None.

(** [line] defines [key] as [v]: it is a [#define] of [key] whose value
    text evaluates to [v]. *)
Definition defines `{LiteralEval} (line key : string) (v : pyval) : Prop :=
  ∃ value, define_of line = Some (key, value) ∧ literal_eval value = Ok v.

(** [line] makes the header parser raise [e]: it starts with [#define],
    and either nothing follows its first item, so that the unpacking
    fails with [ValueError], or [ast.literal_eval] raises [e] on its
    value and [e] is neither [ValueError] nor [SyntaxError]. *)
Definition define_raises `{LiteralEval} (line : string) (e : exn) : Prop :=
  startswith "#define" line = true ∧
  ((e = ValueError ∧ ∃ first, split_ws 2 line = [first]) ∨
   ∃ key value, define_of line = Some (key, value) ∧
                literal_eval value = Raise e ∧
                e ≠ ValueError ∧ e ≠ SyntaxError).

(** The files the metadata stage reads when every step goes through, in
    the order of the reads: those of the declared fields. *)
Definition files_read (i : inputs) : list path :=
  (if declared "ezsp_version" (gbl_dynamic i)
   then [gsdk_path i ++ zigbee_esf] else [])
  ++ (if declared "cpc_version" (gbl_dynamic i)
      then [gsdk_path i ++ gsdk_version_h;
            project_root i ++ internal_app_config] else [])
  ++ (if declared "zwave_version" (gbl_dynamic i)
      then [gsdk_path i ++ zwave_esf] else [])
  ++ (if declared "ot_rcp_version" (gbl_dynamic i)
      then [project_root i ++ openthread_config] else [])
  ++ (if declared "gecko_bootloader_version" (gbl_dynamic i)
      then [gsdk_path i ++ btl_config] else []).

(** The reads of [m] are the first of [files], and all of them when [m]
    goes through. *)
Definition reads_within {A} (m : run A) (files : list path) : Prop :=
  run_reads m `prefix_of` files ∧
  ∀ a, run_result m = Ok a -> run_reads m = files.

(** The text of a configuration file with the entries [kvs]: one line
    [k=v] for each, in the order of the list. *)
Definition write_config (kvs : list (string * string)) : string :=
  lines (map (fun kv => kv.1 +:+ String EQ kv.2) kvs).

(** A key and a value as [parse_simple_config] returns them: no white
    space at either end and no line break; a key, moreover, has no [=]
    and does not start with [#]. *)
Definition plain_value (v : string) : Prop :=
  strip v = v ∧ contains NL v = false.

Definition plain_key (k : string) : Prop :=
  strip k = k ∧ contains NL k = false ∧ contains EQ k = false ∧
  startswith "#" k = false.

(** ** The path of the SDK *)

(** [s[n:]] *)
Fixpoint drop_chars (n : nat) (s : string) : string :=
  match n, s with
  | O, _ => s
  | S n', String _ r => drop_chars n' r
  | S _, EmptyString => EmptyString
  end.

(** [s.split(sep, 1)] for a separator of one character or more: [s] is
    cut at the first place where [sep] stands. *)
Fixpoint split_str1 (sep s : string) : list string :=
  if String.prefix sep s then
    [EmptyString; drop_chars (String.length sep) s]
  else
    match s with
    | EmptyString => [EmptyString]
    | String c r => cons_head c (split_str1 sep r)
    end.

(** [l[n]] *)
Definition getindex {A} (l : list A) (n : nat) : result A :=
  match l !! n with
  | Some x => Ok x
  | None => Raise IndexError
  end.

Definition DQUOTE : ascii := "034"%char.

(** The text [set(SDK_PATH ] followed by a double quote. *)
Definition sdk_path_marker : string :=
  "set(SDK_PATH " +:+ String DQUOTE "".

(** The SDK path of a post-build run, from the text of the project's
    [.cmake] file:
    [text.split('set(SDK_PATH "', 1)[1].split('"', 1)[0]]. *)
Definition cmake_sdk_path (text : string) : result string :=
  after ← getindex (split_str1 sdk_path_marker text) 1;
  getindex (split1 DQUOTE after) 0.

(** The SDK path of a manual run, from the text of the generated
    makefile: [parse_simple_config(text)["BASE_SDK_PATH"]]. *)
Definition makefile_sdk_path (text : string) : result string :=
  config ← parse_simple_config text;
  getitem config "BASE_SDK_PATH".

(** What the step of the field [name] puts into the record, from the
    files alone. *)
Definition field_value `{LiteralEval} (fs : filesystem) (i : inputs)
    (name : string) : result pyval :=
  if String.eqb name "ezsp_version" then
    v ← esf_version_of fs (gsdk_path i ++ zigbee_esf); Ok (PyStr v)
  else if String.eqb name "cpc_version" then
    h ← header_of fs (gsdk_path i ++ gsdk_version_h);
    cpc ← dotted h "SL_GSDK_MAJOR_VERSION" "SL_GSDK_MINOR_VERSION"
            "SL_GSDK_PATCH_VERSION";
    internal ← optional_header_of fs (project_root i ++ internal_app_config);
    match internal !! "CPC_SECONDARY_APP_VERSION_SUFFIX" with
    | Some suffix => cpc' ← str_add cpc suffix; Ok (PyStr cpc')
    | None => Ok (PyStr cpc)
    end
  else if String.eqb name "zwave_version" then
    v ← esf_version_of fs (gsdk_path i ++ zwave_esf); Ok (PyStr v)
  else if String.eqb name "ot_rcp_version" then
    h ← header_of fs (project_root i ++ openthread_config);
    getitem h "PACKAGE_STRING"
  else if String.eqb name "gecko_bootloader_version" then
    h ← header_of fs (gsdk_path i ++ btl_config);
    v ← dotted h "BOOTLOADER_VERSION_MAIN_MAJOR"
          "BOOTLOADER_VERSION_MAIN_MINOR" "BOOTLOADER_VERSION_MAIN_CUSTOMER";
    Ok (PyStr v)
  else Raise KeyError.

(** * Properties *)

(** Unfolds the monadic notation on [result]. *)
Ltac result_simpl :=
  unfold mbind, result_bind, mret, result_ret; cbn [Py.bind].

Lemma append_cons c a b : String c a +:+ b = String c (a +:+ b).
Proof. reflexivity. Qed.

Lemma append_nil_l b : "" +:+ b = b.
Proof. reflexivity. Qed.

Lemma split1_app c a b :
  contains c a = false -> split1 c (a +:+ String c b) = [a; b].
Proof.
  induction a as [|d a IH]; intros Ha.
  - rewrite append_nil_l. simpl. by rewrite Ascii.eqb_refl.
  - simpl in Ha. apply orb_false_iff in Ha as [Hd Ha].
    rewrite append_cons. simpl. rewrite Hd, (IH Ha). reflexivity.
Qed.

Lemma split1_no_sep c s : contains c s = false -> split1 c s = [s].
Proof.
  induction s as [|d s IH]; intros Hs; [done|].
  simpl in Hs. apply orb_false_iff in Hs as [Hd Hs].
  simpl. by rewrite Hd, (IH Hs).
Qed.

Lemma contains_split c s :
  contains c s = true ->
  ∃ a b, s = a +:+ String c b ∧ contains c a = false.
Proof.
  induction s as [|d s IH]; intros Hs; [done|].
  simpl in Hs. destruct (Ascii.eqb d c) eqn:Hd.
  - apply Ascii.eqb_eq in Hd as ->. by exists "", s.
  - destruct (IH Hs) as (a & b & -> & Ha).
    exists (String d a), b. split; [done|]. simpl. by rewrite Hd.
Qed.

Lemma contains_app c a b : contains c (a +:+ String c b) = true.
Proof.
  induction a as [|d a IH].
  - rewrite append_nil_l. simpl. by rewrite Ascii.eqb_refl.
  - rewrite append_cons. simpl. rewrite IH. apply orb_true_r.
Qed.

Lemma is_entry_fun line k v k' v' :
  is_entry line k v -> is_entry line k' v' -> k = k' ∧ v = v'.
Proof.
  intros (_ & _ & a & b & E & Ha & -> & ->) (_ & _ & a' & b' & E' & Ha' & -> & ->).
  pose proof (split1_app EQ a b Ha) as S1.
  pose proof (split1_app EQ a' b' Ha') as S2.
  rewrite <- E in S1. rewrite <- E' in S2. rewrite S1 in S2.
  by injection S2 as -> ->.
Qed.

Lemma simple_config_line_entry config line k v :
  is_entry line k v ->
  simple_config_line config line = Ok (<[k := v]> config).
Proof.
  intros (Hne & Hc & a & b & E & Ha & -> & ->).
  unfold simple_config_line.
  apply String.eqb_neq in Hne. rewrite Hne, Hc. simpl.
  rewrite E, contains_app. simpl. by rewrite (split1_app _ _ _ Ha).
Qed.

Lemma simple_config_line_skip config line :
  (∀ k v, ¬ is_entry line k v) ->
  simple_config_line config line = Ok config.
Proof.
  intros Hno. unfold simple_config_line.
  destruct (String.eqb (strip line) "") eqn:He; [done|].
  destruct (startswith "#" (strip line)) eqn:Hc; [done|].
  destruct (contains EQ (strip line)) eqn:Hq; [|done].
  exfalso. destruct (contains_split _ _ Hq) as (a & b & E & Ha).
  apply (Hno (strip a) (strip b)). apply String.eqb_neq in He.
  repeat split; try done. by exists a, b.
Qed.

Lemma is_entry_dec line : (∃ k v, is_entry line k v) ∨ (∀ k v, ¬ is_entry line k v).
Proof.
  destruct (String.eqb (strip line) "") eqn:He.
  { right. intros k v (Hne & _). by apply String.eqb_eq in He. }
  destruct (startswith "#" (strip line)) eqn:Hc.
  { right. intros k v (_ & Hc' & _). congruence. }
  destruct (contains EQ (strip line)) eqn:Hq.
  - left. destruct (contains_split _ _ Hq) as (a & b & E & Ha).
    exists (strip a), (strip b). apply String.eqb_neq in He.
    repeat split; try done. by exists a, b.
  - right. intros k v (_ & _ & a & b & E & _). by rewrite E, contains_app in Hq.
Qed.

Lemma simple_config_lines ls : ∀ acc,
  ∃ config, for_each simple_config_line ls acc = Ok config ∧
    ∀ k v, config !! k = Some v ↔
      last_entry ls k v ∨
      (acc !! k = Some v ∧ ∀ l' v', l' ∈ ls -> ¬ is_entry l' k v').
Proof.
  induction ls as [|line ls IH]; intros acc.
  - exists acc. split; [done|]. intros k v. split.
    + intros Hk. right. split; [done|]. intros l' v' Hin. by apply elem_of_nil in Hin.
    + intros [(pre & l & post & E & _)|[Hk _]]; [|done]. by destruct pre.
  - destruct (is_entry_dec line) as [(k0 & v0 & He)|Hno].
    + destruct (IH (<[k0 := v0]> acc)) as (config & Hrun & Hspec).
      exists config. split.
      { simpl. rewrite (simple_config_line_entry _ _ _ _ He). exact Hrun. }
      intros k v. rewrite Hspec. split.
      * intros [(pre & l & post & -> & Hl & Hlater)|[Hk Hnone]].
        -- left. exists (line :: pre), l, post. done.
        -- destruct (decide (k0 = k)) as [->|Hne].
           ++ rewrite lookup_insert_eq in Hk. injection Hk as ->.
              left. exists [], line, ls. done.
           ++ rewrite lookup_insert_ne in Hk by done.
              right. split; [done|]. intros l' v' Hin Hl'.
              apply elem_of_cons in Hin as [->|Hin]; [|by eapply Hnone].
              destruct (is_entry_fun _ _ _ _ _ He Hl'). done.
      * intros [(pre & l & post & E & Hl & Hlater)|[Hk Hnone]].
        -- destruct pre as [|p pre]; simpl in E; injection E as -> ->.
           ++ destruct (is_entry_fun _ _ _ _ _ He Hl) as [-> ->].
              right. split; [by rewrite lookup_insert_eq|done].
           ++ left. by exists pre, l, post.
        -- right. destruct (decide (k0 = k)) as [->|Hne].
           ++ exfalso. eapply (Hnone line); [apply list_elem_of_here|exact He].
           ++ rewrite lookup_insert_ne by done. split; [done|].
              intros l' v' Hin. apply Hnone. by apply list_elem_of_further.
    + destruct (IH acc) as (config & Hrun & Hspec).
      exists config. split.
      { simpl. rewrite (simple_config_line_skip _ _ Hno). exact Hrun. }
      intros k v. rewrite Hspec. split.
      * intros [(pre & l & post & -> & Hl & Hlater)|[Hk Hnone]].
        -- left. by exists (line :: pre), l, post.
        -- right. split; [done|]. intros l' v' Hin.
           apply elem_of_cons in Hin as [->|Hin]; [apply Hno|by apply Hnone].
      * intros [(pre & l & post & E & Hl & Hlater)|[Hk Hnone]].
        -- destruct pre as [|p pre]; simpl in E; injection E as -> ->.
           ++ by destruct (Hno _ _ Hl).
           ++ left. by exists pre, l, post.
        -- right. split; [done|]. intros l' v' Hin. apply Hnone.
           by apply list_elem_of_further.
Qed.

Lemma simple_config_line_not_entry config line :
  strip line = "" ∨ startswith "#" (strip line) = true
    ∨ contains EQ (strip line) = false ->
  simple_config_line config line = Ok config.
Proof.
  intros Hcase. apply simple_config_line_skip.
  intros k v (Hne & Hc & a & b & E & _).
  destruct Hcase as [?|[?|Hq]]; [done|congruence|].
  by rewrite E, contains_app in Hq.
Qed.

(** C9: [parse_simple_config] never raises; its result maps [k] to [v]
    exactly when the last line that is an entry for [k] (a line that,
    trimmed, is not blank, does not start with [#] and contains [=]) has
    the trimmed text before its first [=] equal to [k] and the trimmed
    text after it equal to [v]; blank lines, comment lines and lines
    without [=] leave the mapping as it is. *)
Theorem parse_simple_config_entries (file_content : string) :
  (∃ config, parse_simple_config file_content = Ok config ∧
     ∀ k v, config !! k = Some v ↔ last_entry (split NL file_content) k v) ∧
  (∀ config line,
     strip line = "" ∨ startswith "#" (strip line) = true
       ∨ contains EQ (strip line) = false ->
     simple_config_line config line = Ok config).
Proof.
  split; [|intros; by apply simple_config_line_not_entry].
  destruct (simple_config_lines (split NL file_content) ∅)
    as (config & Hrun & Hspec).
  exists config. split; [exact Hrun|].
  intros k v. rewrite Hspec. split; [|by left].
  intros [?|[Hk _]]; [done|]. by rewrite lookup_empty in Hk.
Qed.

Lemma parse_simple_config_entries_witness :
  ∃ config, parse_simple_config sample_makefile = Ok config ∧
    config !! "BASE_SDK_PATH" = Some "/opt/gsdk=4.4" ∧
    simple_config_line config "# generated" = Ok config.
Proof.
  destruct (parse_simple_config_entries sample_makefile)
    as [(config & Hrun & Hspec) Hskip].
  exists config. split; [exact Hrun|]. split; [|apply Hskip; by right; left].
  apply Hspec.
  exists ["# generated"; ""; "BASE_SDK_PATH = /tmp"; "no separator"],
    "  BASE_SDK_PATH =  /opt/gsdk=4.4 ", ["  # BASE_SDK_PATH = x"].
  split; [reflexivity|]. split.
  - split; [done|]. split; [done|].
    by exists "BASE_SDK_PATH ", "  /opt/gsdk=4.4".
  - intros l' v' [->|[]%elem_of_nil]%elem_of_cons (_ & Hc & _). done.
Defined.

Lemma length_append a b :
  String.length (a +:+ b) = String.length a + String.length b.
Proof. induction a as [|c a IH]; [done|]. rewrite append_cons. simpl. by rewrite IH. Qed.

Lemma append_assoc a b c : (a +:+ b) +:+ c = a +:+ (b +:+ c).
Proof. induction a as [|d a IH]; [done|]. rewrite !append_cons. by rewrite IH. Qed.

Lemma substring_skip pre rest m :
  substring (String.length pre) m (pre +:+ rest) = substring 0 m rest.
Proof. induction pre as [|c pre IH]; [done|]. rewrite append_cons. simpl. exact IH. Qed.

Lemma get_skip pre rest :
  String.get (String.length pre) (pre +:+ rest) = String.get 0 rest.
Proof. induction pre as [|c pre IH]; [done|]. rewrite append_cons. simpl. exact IH. Qed.

Lemma substring_0_0 s : substring 0 0 s = "".
Proof. by destruct s. Qed.

Lemma escape_test c r :
  String.eqb (substring 0 2 (String c r)) "\\" =
  match r with
  | String c2 _ => Ascii.eqb c BS && Ascii.eqb c2 BS
  | EmptyString => false
  end.
Proof.
  destruct r as [|c2 r2]; simpl.
  - by destruct (Ascii.eqb c "\").
  - rewrite substring_0_0. simpl. unfold BS.
    destruct (Ascii.eqb c "\"); [|done]. simpl.
    by destruct (Ascii.eqb c2 "\").
Qed.

Lemma tokenize_loop_tokens_of fuel : ∀ pre rest toks cur,
  String.length rest <= fuel ->
  (let '(t, c) := tokenize_loop fuel (pre +:+ rest) (String.length pre) toks cur in
   if String.eqb c "" then t else t ++ [c]) = toks ++ tokens_of cur rest.
Proof.
  induction fuel as [|fuel IH]; intros pre rest toks cur Hlen.
  - destruct rest; [|simpl in Hlen; lia]. simpl.
    destruct (String.eqb cur ""); by rewrite ?app_nil_r.
  - simpl tokenize_loop. rewrite length_append.
    destruct rest as [|c r].
    { simpl. replace (_ <? _)%nat with false by (symmetry; apply Nat.ltb_ge; lia).
      destruct (String.eqb cur ""); by rewrite ?app_nil_r. }
    replace (_ <? _)%nat with true by (symmetry; apply Nat.ltb_lt; simpl; lia).
    rewrite substring_skip, get_skip, escape_test. simpl in Hlen.
    assert (Hnext : ∀ toks' cur',
      (let '(t, c0) := tokenize_loop fuel (pre +:+ String c r) (String.length pre + 1) toks' cur' in
       if String.eqb c0 "" then t else t ++ [c0]) = toks' ++ tokens_of cur' r).
    { intros toks' cur'.
      specialize (IH (pre +:+ String c "") r toks' cur').
      rewrite append_assoc, length_append, append_cons, append_nil_l in IH.
      apply IH. lia. }
    assert (Hone : (let '(t, c0) :=
        match String.get 0 (String c r) with
        | Some c1 =>
            if Ascii.eqb c1 SP
            then tokenize_loop fuel (pre +:+ String c r) (String.length pre + 1) (toks ++ [cur]) ""
            else tokenize_loop fuel (pre +:+ String c r) (String.length pre + 1) toks (cur +:+ String c1 "")
        | None => (toks, cur)
        end in if String.eqb c0 "" then t else t ++ [c0]) =
      toks ++ (if Ascii.eqb c SP then cur :: tokens_of "" r
               else tokens_of (cur +:+ String c "") r)).
    { change (String.get 0 (String c r)) with (Some c). cbv beta iota.
      destruct (Ascii.eqb c SP).
      - rewrite Hnext. by rewrite <- app_assoc.
      - by rewrite Hnext. }
    destruct r as [|c2 r2].
    + rewrite Hone. reflexivity.
    + destruct (Ascii.eqb c BS && Ascii.eqb c2 BS) eqn:Hesc.
      * apply andb_true_iff in Hesc as [->%Ascii.eqb_eq ->%Ascii.eqb_eq].
        specialize (IH (pre +:+ String BS (String BS "")) r2 toks (cur +:+ " ")).
        rewrite append_assoc, length_append, !append_cons, append_nil_l in IH.
        simpl String.length in IH, Hlen.
        rewrite IH by lia. reflexivity.
      * rewrite Hone. simpl tokens_of. by rewrite Hesc.
Qed.

Lemma tokenize_tokens_of value : tokenize value = tokens_of "" value.
Proof.
  unfold tokenize.
  pose proof (tokenize_loop_tokens_of (String.length value) "" value [] ""
                (le_n _)) as Hl.
  rewrite append_nil_l in Hl. simpl String.length in Hl.
  destruct (tokenize_loop _ _ _ _ _) as [t c]. exact Hl.
Qed.

(** *** Loops over lines *)

Lemma for_each_app {A S} (f : S -> A -> result S) l1 l2 acc :
  for_each f (l1 ++ l2) acc = Py.bind (for_each f l1 acc) (for_each f l2).
Proof.
  revert acc. induction l1 as [|x l1 IH]; intros acc; [done|].
  simpl. destruct (f acc x) as [acc'|e]; simpl; [apply IH|done].
Qed.

Lemma for_each_raises_only {A S} (f : S -> A -> result S) (P : exn -> Prop) l :
  (∀ acc x e, f acc x = Raise e -> P e) ->
  ∀ acc e, for_each f l acc = Raise e -> P e.
Proof.
  intros Hf. induction l as [|x l IH]; intros acc e; [done|].
  simpl. destruct (f acc x) as [acc'|e'] eqn:Hx; simpl.
  - apply IH.
  - intros [= <-]. eapply Hf, Hx.
Qed.

Lemma split_no_sep c s : contains c s = false -> split c s = [s].
Proof.
  induction s as [|d s IH]; intros Hs; [done|].
  simpl in Hs. apply orb_false_iff in Hs as [Hd Hs].
  simpl. by rewrite Hd, (IH Hs).
Qed.

(** *** The properties parser *)


Lemma properties_line_no_eq props line :
  strip line ≠ "" -> startswith "#" (strip line) = false ->
  contains EQ (strip line) = false ->
  properties_line props line = Raise ValueError.
Proof.
  intros Hne Hc Hq. unfold properties_line.
  apply String.eqb_neq in Hne. rewrite Hne, Hc. simpl.
  by rewrite (split1_no_sep _ _ Hq).
Qed.

Lemma properties_line_raises props line e :
  properties_line props line = Raise e -> e = ValueError.
Proof.
  unfold properties_line.
  destruct (_ || _); [done|].
  destruct (split1 EQ (strip line)) as [|x [|y [|z l]]]; simpl; congruence.
Qed.

Lemma parse_properties_file_no_eq file_content pre line post :
  split NL file_content = pre ++ line :: post ->
  strip line ≠ "" -> startswith "#" (strip line) = false ->
  contains EQ (strip line) = false ->
  parse_properties_file file_content = Raise ValueError.
Proof.
  intros Hs Hne Hc Hq. unfold parse_properties_file.
  rewrite Hs, for_each_app.
  destruct (for_each properties_line pre ∅) as [props|e] eqn:Hpre; simpl.
  - by rewrite (properties_line_no_eq _ _ Hne Hc Hq).
  - f_equal. eapply (for_each_raises_only _ (λ e, e = ValueError)), Hpre.
    intros ???. apply properties_line_raises.
Qed.



(** *** The header parser *)

Section HeaderParser.
Context `{LiteralEval}.

Lemma c_header_line_other config line :
  startswith "#define" line = false -> c_header_line config line = Ok config.
Proof. intros Hs. unfold c_header_line. by rewrite Hs. Qed.

Lemma c_header_line_value config line first key value :
  startswith "#define" line = true ->
  split_ws 2 line = [first; key; value] ->
  c_header_line config line =
    match literal_eval (Some value) with
    | Ok v => Ok (<[key := v]> config)
    | Raise ValueError | Raise SyntaxError => Ok config
    | Raise e => Raise e
    end.
Proof. intros Hs Hw. unfold c_header_line. by rewrite Hs, Hw. Qed.

Lemma c_header_line_bare config line first key :
  startswith "#define" line = true ->
  split_ws 2 line = [first; key] ->
  c_header_line config line =
    match literal_eval None with
    | Ok v => Ok (<[key := v]> config)
    | Raise ValueError | Raise SyntaxError => Ok config
    | Raise e => Raise e
    end.
Proof. intros Hs Hw. unfold c_header_line. by rewrite Hs, Hw. Qed.

Lemma c_header_line_alone config line first :
  startswith "#define" line = true ->
  split_ws 2 line = [first] ->
  c_header_line config line = Raise ValueError.
Proof. intros Hs Hw. unfold c_header_line. by rewrite Hs, Hw. Qed.

(** What a line that goes through can have done to the mapping. *)
Lemma c_header_line_ok config line config' :
  c_header_line config line = Ok config' ->
  config' = config ∨
  ∃ first key value v,
    startswith "#define" line = true ∧
    (split_ws 2 line = [first; key] ∧ value = None
     ∨ ∃ t, split_ws 2 line = [first; key; t] ∧ value = Some t) ∧
    literal_eval value = Ok v ∧ config' = <[key := v]> config.
Proof.
  unfold c_header_line.
  destruct (startswith "#define" line) eqn:Hs; cbn [negb];
    [|intros [= ->]; by left].
  destruct (split_ws 2 line) as [|first [|key [|value [|x l]]]] eqn:Hw;
    result_simpl; try done.
  - destruct (literal_eval None) as [v|e] eqn:Hv.
    + intros [= <-]. right. exists first, key, None, v. naive_solver.
    + destruct e; intros [= <-]; by left.
  - destruct (literal_eval (Some value)) as [v|e] eqn:Hv.
    + intros [= <-]. right. exists first, key, (Some value), v. naive_solver.
    + destruct e; intros [= <-]; by left.
Qed.

(** What an exception of a line can be. *)
Lemma c_header_line_raise config line e :
  c_header_line config line = Raise e ->
  e = ValueError ∨ ∃ value, literal_eval value = Raise e.
Proof.
  unfold c_header_line.
  destruct (startswith "#define" line); cbn [negb]; [|done].
  destruct (split_ws 2 line) as [|first [|key [|value [|x l]]]];
    result_simpl; try (intros [= <-]; by left).
  - destruct (literal_eval None) as [v|e'] eqn:Hv; [done|].
    destruct e'; intros [= <-]; eauto.
  - destruct (literal_eval (Some value)) as [v|e'] eqn:Hv; [done|].
    destruct e'; intros [= <-]; eauto.
Qed.

Lemma c_header_lines_entry ls : ∀ acc config key v,
  for_each c_header_line ls acc = Ok config ->
  config !! key = Some v ->
  acc !! key = Some v ∨
  ∃ line first value,
    line ∈ ls ∧ startswith "#define" line = true ∧
    (split_ws 2 line = [first; key] ∧ value = None
     ∨ ∃ t, split_ws 2 line = [first; key; t] ∧ value = Some t) ∧
    literal_eval value = Ok v.
Proof.
  induction ls as [|line ls IH]; intros acc config key v Hrun Hk.
  - injection Hrun as <-. by left.
  - simpl in Hrun.
    destruct (c_header_line acc line) as [acc'|e] eqn:Hline; [|done].
    simpl in Hrun.
    destruct (IH _ _ _ _ Hrun Hk) as [Hacc|(l & first & value & Hin & ?)].
    2:{ right. exists l, first, value. split; [by apply list_elem_of_further|done]. }
    apply c_header_line_ok in Hline
      as [->|(first & key' & value & v' & Hs & Hw & Hv & ->)]; [by left|].
    destruct (decide (key' = key)) as [->|Hne].
    + rewrite lookup_insert_eq in Hacc. injection Hacc as ->.
      right. exists line, first, value.
      split; [apply list_elem_of_here|done].
    + rewrite lookup_insert_ne in Hacc by done. by left.
Qed.

(** C6, as the code has it: with [ast.literal_eval(None)] a
    [ValueError], every entry of the result comes from a line that
    starts with [#define], has [key] as its second item and a value
    text that evaluates to the entry's value; a line that does not
    start with [#define], a line whose value raises [ValueError] or
    [SyntaxError], and a bare definition leave the mapping as it is and
    raise nothing, while a line whose value raises any other exception
    raises that exception; and the three-line header gives
    [{"FOO": 42, "BAR": "x"}]. *)
Theorem parse_c_header_defines_entries
    (Hnone : literal_eval None = Raise ValueError) :
  (∀ file_content config key v,
     parse_c_header_defines file_content = Ok config ->
     config !! key = Some v ->
     ∃ line first value,
       line ∈ split NL file_content ∧ startswith "#define" line = true ∧
       split_ws 2 line = [first; key; value] ∧
       literal_eval (Some value) = Ok v) ∧
  (∀ config line,
     startswith "#define" line = false ->
     c_header_line config line = Ok config) ∧
  (∀ config line first key value,
     startswith "#define" line = true ->
     split_ws 2 line = [first; key; value] ->
     literal_eval (Some value) = Raise ValueError
       ∨ literal_eval (Some value) = Raise SyntaxError ->
     c_header_line config line = Ok config) ∧
  (∀ config line first key value e,
     startswith "#define" line = true ->
     split_ws 2 line = [first; key; value] ->
     literal_eval (Some value) = Raise e ->
     e ≠ ValueError -> e ≠ SyntaxError ->
     c_header_line config line = Raise e) ∧
  (∀ config line first key,
     startswith "#define" line = true ->
     split_ws 2 line = [first; key] ->
     c_header_line config line = Ok config) ∧
  (literal_eval (Some "42") = Ok (PyInt 42) ->
   literal_eval (Some quoted_x) = Ok (PyStr "x") ->
   parse_c_header_defines sample_header
   = Ok (<["BAR" := PyStr "x"]> (<["FOO" := PyInt 42]> ∅))).
Proof.
  repeat split.
  - intros file_content config key v Hrun Hk.
    destruct (c_header_lines_entry _ _ _ _ _ Hrun Hk)
      as [Hacc|(line & first & value & Hin & Hs & Hw & Hv)].
    { by rewrite lookup_empty in Hacc. }
    destruct Hw as [[_ ->]|(t & Hw & ->)]; [congruence|].
    by exists line, first, t.
  - apply c_header_line_other.
  - intros config line first key value Hs Hw Hv.
    rewrite (c_header_line_value _ _ _ _ _ Hs Hw).
    by destruct Hv as [-> | ->].
  - intros config line first key value e Hs Hw Hv Hne1 Hne2.
    rewrite (c_header_line_value _ _ _ _ _ Hs Hw), Hv.
    by destruct e.
  - intros config line first key Hs Hw.
    by rewrite (c_header_line_bare _ _ _ _ Hs Hw), Hnone.
  - intros H42 Hx. unfold parse_c_header_defines.
    change (split NL sample_header)
      with ["#define FOO 42"; "#define BAR " +:+ quoted_x; "#define BAZ"].
    cbn [for_each].
    rewrite (c_header_line_value _ _ "#define" "FOO" "42"), H42 by done.
    cbn [Py.bind].
    rewrite (c_header_line_value _ _ "#define" "BAR" quoted_x), Hx by done.
    cbn [Py.bind].
    by rewrite (c_header_line_bare _ _ "#define" "BAZ"), Hnone.
Qed.

(** C10, as the code has it: a line that starts with [#define] in its
    first column and has no second item makes the unpacking fail with
    [ValueError] whatever the mapping is; the parse of a text with such
    a line raises, and what it raises is that [ValueError] or an
    exception [ast.literal_eval] raised on a line before it; the text
    [#define] alone raises [ValueError]. *)
Theorem c_header_define_alone_raises file_content pre line post first :
  split NL file_content = pre ++ line :: post ->
  startswith "#define" line = true ->
  split_ws 2 line = [first] ->
  (∀ config, c_header_line config line = Raise ValueError) ∧
  (∃ e, parse_c_header_defines file_content = Raise e ∧
        (e = ValueError ∨ ∃ value, literal_eval value = Raise e)) ∧
  parse_c_header_defines "#define" = Raise ValueError.
Proof.
  intros Hsplit Hs Hw. split; [|split; [|done]].
  - intros config. by apply (c_header_line_alone _ _ first).
  - unfold parse_c_header_defines. rewrite Hsplit, for_each_app.
    destruct (for_each c_header_line pre ∅) as [config|e] eqn:Hpre.
    + exists ValueError. split; [|by left]. cbn [Py.bind for_each].
      by rewrite (c_header_line_alone _ _ first).
    + exists e. split; [done|].
      eapply (for_each_raises_only c_header_line
                (λ e, e = ValueError ∨ ∃ value, literal_eval value = Raise e)),
        Hpre.
      intros ???. apply c_header_line_raise.
Qed.

End HeaderParser.

Lemma parse_c_header_defines_entries_witness :
  @parse_c_header_defines Sample.literal_eval_sample sample_header
  = Ok (<["BAR" := PyStr "x"]> (<["FOO" := PyInt 42]> ∅)).
Proof.
  destruct (@parse_c_header_defines_entries Sample.literal_eval_sample eq_refl)
    as (_ & _ & _ & _ & _ & Hex).
  exact (Hex eq_refl eq_refl).
Defined.

Lemma c_header_define_alone_raises_witness :
  @parse_c_header_defines Sample.literal_eval_sample
    ("#define A 1" +:+ String NL "#defineB  ") = Raise ValueError.
Proof.
  destruct (@c_header_define_alone_raises Sample.literal_eval_sample
              ("#define A 1" +:+ String NL "#defineB  ")
              ["#define A 1"] "#defineB  " [] "#defineB"
              eq_refl eq_refl eq_refl) as (_ & (e & He & Hwhich) & _).
  rewrite He. f_equal.
  destruct Hwhich as [->|_]; [done|].
  by injection He as <-.
Defined.

(** C10 as stated fails: the first item of [ #define] (a space before
    [#define]) starts with [#define] and nothing follows it, yet the line
    does not start with [#define], so it is skipped and nothing is
    raised. *)
Lemma c_header_indented_define_skipped :
  ∃ line first,
    split_ws 2 line = [first] ∧ startswith "#define" first = true ∧
    ∀ E : LiteralEval, @parse_c_header_defines E line = Ok ∅.
Proof. exists " #define", "#define". by repeat split. Qed.

(** C6 as stated fails: the value text [{{1,2},{3,4}}] is a set of
    sets, on which [ast.literal_eval] fails with [TypeError]; the
    [except] clause names [ValueError] and [SyntaxError] only, so the
    line is not skipped and the parse raises.  The second part is the
    header [#define FOO 42], [#define MATRIX {{1,2},{3,4}}] with an
    evaluator that fails in this way. *)
Lemma c_header_unhashable_value_raises :
  (∃ line first key value,
     startswith "#define" line = true ∧
     split_ws 2 line = [first; key; value] ∧
     ∀ E : LiteralEval,
       @literal_eval E (Some value) = Raise TypeError ->
       @parse_c_header_defines E line = Raise TypeError) ∧
  @parse_c_header_defines
    (fun value => if decide (value = Some "{{1,2},{3,4}}")
                  then Raise TypeError else Sample.eval value)
    (lines ["#define FOO 42"; "#define MATRIX {{1,2},{3,4}}"])
  = Raise TypeError.
Proof.
  split; [|reflexivity].
  exists "#define MATRIX {{1,2},{3,4}}", "#define", "MATRIX", "{{1,2},{3,4}}".
  split; [done|]. split; [done|]. intros E Hv.
  unfold parse_c_header_defines.
  change (split NL "#define MATRIX {{1,2},{3,4}}")
    with ["#define MATRIX {{1,2},{3,4}}"].
  cbn [for_each].
  by rewrite (c_header_line_value _ _ "#define" "MATRIX" "{{1,2},{3,4}}"), Hv.
Qed.

(** *** The file locator *)

Lemma length_parent (p : path) : length (parent p) = pred (length p).
Proof.
  unfold parent. induction p as [|x [|y p] IH]; [done..|].
  change (removelast (x :: y :: p)) with (x :: removelast (y :: p)).
  cbn [length]. by rewrite IH.
Qed.

Lemma parent_fixed (p : path) : parent p = p ↔ p = [].
Proof.
  split; [|by intros ->].
  intros Hp. pose proof (length_parent p) as Hl. rewrite Hp in Hl.
  destruct p; [done|simpl in Hl; lia].
Qed.

Lemma ancestor_anchor k : ancestor k [] = [].
Proof. induction k; [done|]. exact IHk. Qed.

Lemma find_file_loop_nearest fs filename fuel : ∀ root,
  (length root < fuel)%nat ->
  (∃ k, (k <= length root)%nat ∧
     fs_exists fs (ancestor k root ++ [filename]) = true ∧
     (∀ j, (j < k)%nat -> fs_exists fs (ancestor j root ++ [filename]) = false) ∧
     find_file_loop fuel fs root filename
     = Some (Ok (ancestor k root ++ [filename])))
  ∨ ((∀ k, fs_exists fs (ancestor k root ++ [filename]) = false) ∧
     find_file_loop fuel fs root filename = Some (Raise FileNotFoundError)).
Proof.
  induction fuel as [|fuel IH]; intros root Hfuel; [lia|].
  simpl. destruct (fs_exists fs (root ++ [filename])) eqn:Hhere.
  { left. exists 0. repeat split; [lia|done|lia]. }
  case_bool_decide as Htop.
  { right. apply parent_fixed in Htop as ->. split; [|done].
    intros k. by rewrite ancestor_anchor. }
  assert (length (parent root) < fuel)%nat as Hlt.
  { rewrite length_parent. destruct root; simpl in *; [done|lia]. }
  destruct (IH (parent root) Hlt) as [(k & Hk & Hex & Hmin & Hrun)|[Hnone Hrun]].
  - left. exists (S k). rewrite length_parent in Hk.
    split; [destruct root; simpl in *; [done|lia]|]. split; [done|].
    split; [|done]. intros [|j] Hj; [done|]. apply Hmin. lia.
  - right. split; [|done]. intros [|k]; [done|]. apply Hnone.
Qed.

(** C3: from the resolved starting directory, the locator returns the
    file's path in the nearest directory of the chain (the directory,
    its parent, ... up to the anchor) that has it; when no directory of
    the chain has it, it raises [FileNotFoundError].  The loop always
    ends. *)
Theorem find_file_in_parent_dirs_nearest fs root filename :
  (∃ k, (k <= length (fs_resolve fs root))%nat ∧
     fs_exists fs (ancestor k (fs_resolve fs root) ++ [filename]) = true ∧
     (∀ j, (j < k)%nat ->
        fs_exists fs (ancestor j (fs_resolve fs root) ++ [filename]) = false) ∧
     find_file_in_parent_dirs fs root filename
     = Some (Ok (ancestor k (fs_resolve fs root) ++ [filename])))
  ∨ ((∀ k, fs_exists fs (ancestor k (fs_resolve fs root) ++ [filename])
          = false) ∧
     find_file_in_parent_dirs fs root filename
     = Some (Raise FileNotFoundError)).
Proof. apply find_file_loop_nearest. lia. Qed.

Lemma find_file_in_parent_dirs_nearest_witness :
  find_file_in_parent_dirs sample_tree ["a"; "b"; "c"] "proj.slcp"
  = Some (Ok ["a"; "proj.slcp"]) ∧
  find_file_in_parent_dirs sample_tree ["a"; "b"; "c"] "other.slcp"
  = Some (Raise FileNotFoundError).
Proof.
  split.
  - destruct (find_file_in_parent_dirs_nearest sample_tree ["a"; "b"; "c"]
                "proj.slcp") as [(k & _ & Hex & _ & ->)|[Hnone _]].
    + apply bool_decide_eq_true in Hex. by rewrite Hex.
    + by specialize (Hnone 2).
  - destruct (find_file_in_parent_dirs_nearest sample_tree ["a"; "b"; "c"]
                "other.slcp") as [(k & _ & Hex & _)|[_ ->]]; [|done].
    apply bool_decide_eq_true, (f_equal last) in Hex.
    by rewrite last_snoc in Hex.
Defined.

(** *** The command line *)

Lemma pyval_none_dec (v : pyval) : v = PyNone ∨ v ≠ PyNone.
Proof. destruct v; (by left) || (by right). Qed.

Lemma optional_flag_pair fields setting flag args :
  ∃ part, optional_flag fields setting flag args = args ++ part ∧
          flag_pair fields setting flag part.
Proof.
  unfold optional_flag, flag_pair.
  destruct (fields !! setting) as [v|] eqn:Hv.
  - destruct (pyval_none_dec v) as [Hn|Hne].
    + subst v. exists []. rewrite app_nil_r. split; [done|].
      split; [|naive_solver].
      intros v. split; [done|]. by intros [[= <-] ?].
    + exists [lit flag; ArgVal v]. split; [by destruct v|]. split.
      * intros v'. split; [by intros [= <-]|]. by intros [[= <-] _].
      * split; [done|]. intros [?|[= ?]]; done.
  - exists []. rewrite app_nil_r. split; [done|]. split; [|naive_solver].
    intros v. split; [done|]. by intros [? _].
Qed.

Lemma ne_str_spec v s : ne_str v s = false ↔ v = PyStr s.
Proof.
  destruct v as [| | |t|]; simpl; try by split.
  rewrite negb_false_iff, String.eqb_eq. split; [by intros ->|by intros [= ->]].
Qed.

(** C5: with [fw_type] given, the command is the ten fixed items, the
    fifth being [--bootloader] exactly when [fw_type] is the string
    [gecko-bootloader] and [--app] otherwise, followed by the pairs of
    [compression], [sign_key] and [encrypt_key] in this order, each pair
    present exactly when its setting is there and not null. *)
Theorem commander_args_flags fields fw_type gbl_file out_file
    device_part_id metadata_json :
  fields !! "fw_type" = Some fw_type ->
  ∃ mode compress sign encrypt,
    commander_args fields gbl_file out_file device_part_id metadata_json
    = Ok ([ lit "commander"; lit "gbl"; lit "create"; ArgPath gbl_file;
            lit mode; ArgPath out_file; lit "--device"; lit device_part_id;
            lit "--metadata"; ArgPath metadata_json ]
          ++ compress ++ sign ++ encrypt) ∧
    (mode = "--bootloader" ↔ fw_type = PyStr "gecko-bootloader") ∧
    (mode = "--app" ↔ fw_type ≠ PyStr "gecko-bootloader") ∧
    flag_pair fields "compression" "--compress" compress ∧
    flag_pair fields "sign_key" "--sign" sign ∧
    flag_pair fields "encrypt_key" "--encrypt" encrypt.
Proof.
  intros Hfw. unfold commander_args, getitem. rewrite Hfw. result_simpl.
  set (head := [_; _; _; _; _; _; _; _; _; _]).
  destruct (optional_flag_pair fields "compression" "--compress" head)
    as (compress & -> & Hc).
  destruct (optional_flag_pair fields "sign_key" "--sign" (head ++ compress))
    as (sign & -> & Hs).
  destruct (optional_flag_pair fields "encrypt_key" "--encrypt"
              ((head ++ compress) ++ sign)) as (encrypt & -> & He).
  exists (if ne_str fw_type "gecko-bootloader" then "--app" else "--bootloader"),
    compress, sign, encrypt.
  split; [by rewrite <- !app_assoc|].
  pose proof (ne_str_spec fw_type "gecko-bootloader") as Hne.
  destruct (ne_str fw_type "gecko-bootloader").
  - assert (fw_type ≠ PyStr "gecko-bootloader") as Hfw'
      by (intros E; by apply Hne in E).
    split_and!; try done; split; done.
  - assert (fw_type = PyStr "gecko-bootloader") as Hfw' by by apply Hne.
    split_and!; try done; split; done.
Qed.

Lemma commander_args_flags_witness :
  commander_args sample_fields ["out"; "fw.gbl"] ["out"; "fw.out"]
    "EFR32MG21A020F768IM32" ["out"; "gbl_metadata.json"]
  = Ok [ lit "commander"; lit "gbl"; lit "create"; ArgPath ["out"; "fw.gbl"];
         lit "--bootloader"; ArgPath ["out"; "fw.out"]; lit "--device";
         lit "EFR32MG21A020F768IM32"; lit "--metadata";
         ArgPath ["out"; "gbl_metadata.json"];
         lit "--compress"; ArgVal (PyStr "lzma") ].
Proof.
  destruct (commander_args_flags sample_fields (PyStr "gecko-bootloader")
              ["out"; "fw.gbl"] ["out"; "fw.out"] "EFR32MG21A020F768IM32"
              ["out"; "gbl_metadata.json"] eq_refl)
    as (mode & compress & sign & encrypt & -> & [_ Hm] & _ & [Hc _] & [_ Hs]
        & [_ He]).
  rewrite (Hm eq_refl).
  rewrite (proj2 (Hc (PyStr "lzma"))) by done.
  rewrite (proj2 Hs) by (by right).
  rewrite (proj2 He) by (by left).
  reflexivity.
Defined.

(** *** The run monad *)

Lemma run_bind_result {A B} (m : run A) (f : A -> run B) :
  run_result (m ≫= f) =
  match run_result m with
  | Ok a => run_result (f a)
  | Raise e => Raise e
  end.
Proof. unfold mbind, run_bind. by destruct (run_result m). Qed.

Lemma except_result {A} (body handler : run A) :
  run_result (except_FileNotFoundError body handler) =
  match run_result body with
  | Raise FileNotFoundError => run_result handler
  | r => r
  end.
Proof.
  unfold except_FileNotFoundError.
  destruct (run_result body) as [a|e] eqn:Hb; [done|]. by destruct e.
Qed.

(** Rewrites the result of a run into nested matches on the results of
    its steps. *)
Ltac run_simpl :=
  repeat first
    [ rewrite run_bind_result
    | rewrite except_result
    | progress cbn [run_result read_text pure_step mret run_ret] ].

(** Case analysis on every intermediate result of a run. *)
Ltac run_cases :=
  repeat (run_simpl; result_simpl; try done; case_match).

Lemma bind_ok {A B} (m : result A) (f : A -> result B) b :
  (m ≫= f) = Ok b -> ∃ a, m = Ok a ∧ f a = Ok b.
Proof. result_simpl. destruct m as [a|e]; [|done]. cbn [Py.bind]. eauto. Qed.

Lemma bind_raise {A B} (m : result A) (f : A -> result B) e :
  m = Raise e -> (m ≫= f) = Raise e.
Proof. intros ->. done. Qed.

Section ResolverFacts.
Context `{LiteralEval}.
Variable fs : filesystem.
Variable i : inputs.

Lemma esf_version_result p :
  run_result (esf_version fs p) = esf_version_of fs p.
Proof.
  unfold esf_version, esf_version_of. by run_cases.
Qed.

Lemma base_metadata_result :
  run_result (base_metadata i) =
  (fw_type ← getitem (gbl_fields i) "fw_type";
   baudrate ← getitem (gbl_fields i) "baudrate";
   Ok (<["baudrate" := baudrate]>
         (<["fw_type" := fw_type]>
           (<["sdk_version" := sdk_version i]>
             (<["metadata_version" := PyInt 1]> ∅))))).
Proof.
  unfold base_metadata. by run_cases.
Qed.

Lemma ezsp_step_result md :
  run_result (ezsp_step fs i md) =
  if declared "ezsp_version" (gbl_dynamic i) then
    v ← esf_version_of fs (gsdk_path i ++ zigbee_esf);
    Ok (<["ezsp_version" := PyStr v]> md)
  else Ok md.
Proof.
  unfold ezsp_step. destruct (declared _ _); [|done].
  run_simpl. rewrite esf_version_result. by run_cases.
Qed.

Lemma zwave_step_result md :
  run_result (zwave_step fs i md) =
  if declared "zwave_version" (gbl_dynamic i) then
    v ← esf_version_of fs (gsdk_path i ++ zwave_esf);
    Ok (<["zwave_version" := PyStr v]> md)
  else Ok md.
Proof.
  unfold zwave_step. destruct (declared _ _); [|done].
  run_simpl. rewrite esf_version_result. by run_cases.
Qed.

Lemma cpc_step_result md :
  run_result (cpc_step fs i md) =
  if declared "cpc_version" (gbl_dynamic i) then
    h ← header_of fs (gsdk_path i ++ gsdk_version_h);
    cpc ← dotted h "SL_GSDK_MAJOR_VERSION" "SL_GSDK_MINOR_VERSION"
            "SL_GSDK_PATCH_VERSION";
    internal ← optional_header_of fs (project_root i ++ internal_app_config);
    match internal !! "CPC_SECONDARY_APP_VERSION_SUFFIX" with
    | Some suffix =>
        cpc' ← str_add cpc suffix;
        Ok (<["cpc_version" := PyStr cpc']> md)
    | None => Ok (<["cpc_version" := PyStr cpc]> md)
    end
  else Ok md.
Proof.
  unfold cpc_step, optional_header_of, header_of.
  destruct (declared _ _); [|done].
  run_cases; simplify_eq; try done;
    repeat (match goal with Heq : ?x = _ |- context [?x] => rewrite Heq end;
            cbn [Py.bind]);
    by rewrite ?lookup_empty in *.
Qed.

Lemma ot_rcp_step_result md :
  run_result (ot_rcp_step fs i md) =
  if declared "ot_rcp_version" (gbl_dynamic i) then
    h ← header_of fs (project_root i ++ openthread_config);
    v ← getitem h "PACKAGE_STRING";
    Ok (<["ot_rcp_version" := v]> md)
  else Ok md.
Proof.
  unfold ot_rcp_step, header_of. destruct (declared _ _); [|done].
  by run_cases.
Qed.

Lemma gecko_bootloader_step_result md :
  run_result (gecko_bootloader_step fs i md) =
  if declared "gecko_bootloader_version" (gbl_dynamic i) then
    h ← header_of fs (gsdk_path i ++ btl_config);
    v ← dotted h "BOOTLOADER_VERSION_MAIN_MAJOR"
          "BOOTLOADER_VERSION_MAIN_MINOR" "BOOTLOADER_VERSION_MAIN_CUSTOMER";
    Ok (<["gecko_bootloader_version" := PyStr v]> md)
  else Ok md.
Proof.
  unfold gecko_bootloader_step, header_of. destruct (declared _ _); [|done].
  by run_cases.
Qed.

Lemma resolve_metadata_result :
  run_result (resolve_metadata fs i) =
  (md ← run_result (base_metadata i);
   md ← run_result (ezsp_step fs i md);
   md ← run_result (cpc_step fs i md);
   md ← run_result (zwave_step fs i md);
   md ← run_result (ot_rcp_step fs i md);
   run_result (gecko_bootloader_step fs i md)).
Proof.
  unfold resolve_metadata. by run_cases.
Qed.

Lemma ezsp_step_shape md md' :
  run_result (ezsp_step fs i md) = Ok md' -> step_shape i "ezsp_version" md md'.
Proof.
  rewrite ezsp_step_result. unfold step_shape.
  destruct (declared _ _); [|by intros [= <-]].
  intros (v & _ & [= <-])%bind_ok. eauto.
Qed.

Lemma cpc_step_shape md md' :
  run_result (cpc_step fs i md) = Ok md' -> step_shape i "cpc_version" md md'.
Proof.
  rewrite cpc_step_result. unfold step_shape.
  destruct (declared _ _); [|by intros [= <-]].
  intros (h & _ & (cpc & _ & (internal & _ & Hm)%bind_ok)%bind_ok)%bind_ok.
  destruct (internal !! _).
  - apply bind_ok in Hm as (c & _ & [= <-]). eauto.
  - injection Hm as <-. eauto.
Qed.

Lemma zwave_step_shape md md' :
  run_result (zwave_step fs i md) = Ok md' ->
  step_shape i "zwave_version" md md'.
Proof.
  rewrite zwave_step_result. unfold step_shape.
  destruct (declared _ _); [|by intros [= <-]].
  intros (v & _ & [= <-])%bind_ok. eauto.
Qed.

Lemma ot_rcp_step_shape md md' :
  run_result (ot_rcp_step fs i md) = Ok md' ->
  step_shape i "ot_rcp_version" md md'.
Proof.
  rewrite ot_rcp_step_result. unfold step_shape.
  destruct (declared _ _); [|by intros [= <-]].
  intros (h & _ & (v & _ & [= <-])%bind_ok)%bind_ok. eauto.
Qed.

Lemma gecko_bootloader_step_shape md md' :
  run_result (gecko_bootloader_step fs i md) = Ok md' ->
  step_shape i "gecko_bootloader_version" md md'.
Proof.
  rewrite gecko_bootloader_step_result. unfold step_shape.
  destruct (declared _ _); [|by intros [= <-]].
  intros (h & _ & (v & _ & [= <-])%bind_ok)%bind_ok. eauto.
Qed.

Lemma step_shape_dom name md md' :
  step_shape i name md md' ->
  dom md' = dom md ∪ (if declared name (gbl_dynamic i) then {[name]} else ∅).
Proof.
  unfold step_shape. destruct (declared _ _).
  - intros [v ->]. by rewrite dom_insert_L, (comm_L (∪)).
  - intros ->. by rewrite (right_id_L ∅ (∪)).
Qed.

Lemma step_shape_lookup name md md' :
  step_shape i name md md' -> ∀ k, k ≠ name -> md' !! k = md !! k.
Proof.
  unfold step_shape. destruct (declared _ _).
  - intros [v ->] k Hk. by rewrite lookup_insert_ne.
  - by intros ->.
Qed.

(** A run that succeeds went through every step. *)
Lemma resolve_metadata_ok md :
  run_result (resolve_metadata fs i) = Ok md ->
  ∃ md0 md1 md2 md3 md4,
    run_result (base_metadata i) = Ok md0 ∧
    run_result (ezsp_step fs i md0) = Ok md1 ∧
    run_result (cpc_step fs i md1) = Ok md2 ∧
    run_result (zwave_step fs i md2) = Ok md3 ∧
    run_result (ot_rcp_step fs i md3) = Ok md4 ∧
    run_result (gecko_bootloader_step fs i md4) = Ok md.
Proof.
  rewrite resolve_metadata_result.
  intros (md0 & ? & (md1 & ? & (md2 & ? & (md3 & ? & (md4 & ? & ?)
    %bind_ok)%bind_ok)%bind_ok)%bind_ok)%bind_ok.
  by exists md0, md1, md2, md3, md4.
Qed.

Lemma base_metadata_ok md0 :
  run_result (base_metadata i) = Ok md0 ->
  dom md0 = base_names ∧
  md0 !! "metadata_version" = Some (PyInt 1) ∧
  md0 !! "sdk_version" = Some (sdk_version i) ∧
  md0 !! "fw_type" = gbl_fields i !! "fw_type" ∧
  md0 !! "baudrate" = gbl_fields i !! "baudrate".
Proof.
  rewrite base_metadata_result. unfold getitem. result_simpl.
  destruct (gbl_fields i !! "fw_type") as [fw|]; [|done]. cbn [Py.bind].
  destruct (gbl_fields i !! "baudrate") as [bd|]; [|done]. cbn [Py.bind].
  intros [= <-]. split; [|done].
  rewrite !dom_insert_L, dom_empty_L. unfold base_names. set_solver.
Qed.

Lemma resolve_metadata_dom md :
  run_result (resolve_metadata fs i) = Ok md ->
  dom md = base_names ∪
    list_to_set (List.filter (fun n => declared n (gbl_dynamic i))
                   recognized_names).
Proof.
  intros (md0 & md1 & md2 & md3 & md4 & H0 & H1 & H2 & H3 & H4 & H5)
    %resolve_metadata_ok.
  apply base_metadata_ok in H0 as [Hdom _].
  apply ezsp_step_shape, step_shape_dom in H1.
  apply cpc_step_shape, step_shape_dom in H2.
  apply zwave_step_shape, step_shape_dom in H3.
  apply ot_rcp_step_shape, step_shape_dom in H4.
  apply gecko_bootloader_step_shape, step_shape_dom in H5.
  rewrite H5, H4, H3, H2, H1, Hdom.
  unfold recognized_names. cbn [List.filter].
  destruct (declared "ezsp_version" _), (declared "cpc_version" _),
    (declared "zwave_version" _), (declared "ot_rcp_version" _),
    (declared "gecko_bootloader_version" _); cbn [list_to_set]; set_solver.
Qed.

Lemma resolve_metadata_base md :
  run_result (resolve_metadata fs i) = Ok md ->
  md !! "metadata_version" = Some (PyInt 1) ∧
  md !! "sdk_version" = Some (sdk_version i) ∧
  md !! "fw_type" = gbl_fields i !! "fw_type" ∧
  md !! "baudrate" = gbl_fields i !! "baudrate".
Proof.
  intros (md0 & md1 & md2 & md3 & md4 & H0 & H1 & H2 & H3 & H4 & H5)
    %resolve_metadata_ok.
  apply base_metadata_ok in H0 as (_ & Hv & Hs & Hf & Hb).
  apply ezsp_step_shape in H1. apply cpc_step_shape in H2.
  apply zwave_step_shape in H3. apply ot_rcp_step_shape in H4.
  apply gecko_bootloader_step_shape in H5.
  rewrite <- Hv, <- Hs, <- Hf, <- Hb.
  repeat split;
    rewrite (step_shape_lookup _ _ _ H5), (step_shape_lookup _ _ _ H4),
      (step_shape_lookup _ _ _ H3), (step_shape_lookup _ _ _ H2),
      (step_shape_lookup _ _ _ H1) by done; done.
Qed.
End ResolverFacts.

(** The run sees the declared list only through the five names. *)
Lemma resolve_metadata_names `{LiteralEval} fs i l :
  (∀ n, n ∈ recognized_names ->
        declared n l = declared n (gbl_dynamic i)) ->
  resolve_metadata fs (with_dynamic i l) = resolve_metadata fs i.
Proof.
  intros Hl.
  assert (∀ n, n ∈ recognized_names ->
            declared n (gbl_dynamic (with_dynamic i l))
            = declared n (gbl_dynamic i)) as Hd by exact Hl.
  unfold resolve_metadata, ezsp_step, cpc_step, zwave_step, ot_rcp_step,
    gecko_bootloader_step.
  rewrite !Hd by (unfold recognized_names; set_solver).
  reflexivity.
Qed.

(** C4: a record that is produced has the four base fields, with
    [metadata_version] the integer 1 and the other three as given, and
    one field for each of the five known names that is declared, and no
    other field; a declared list that agrees with the given one on the
    five known names gives the same run: the same reads, the same record
    or the same exception. *)
Theorem resolve_metadata_fields `{LiteralEval} fs i md :
  run_result (resolve_metadata fs i) = Ok md ->
  dom md = base_names ∪
    list_to_set (List.filter (fun n => declared n (gbl_dynamic i))
                   recognized_names) ∧
  md !! "metadata_version" = Some (PyInt 1) ∧
  md !! "sdk_version" = Some (sdk_version i) ∧
  md !! "fw_type" = gbl_fields i !! "fw_type" ∧
  md !! "baudrate" = gbl_fields i !! "baudrate" ∧
  ∀ l, (∀ n, n ∈ recognized_names ->
             declared n l = declared n (gbl_dynamic i)) ->
       resolve_metadata fs (with_dynamic i l) = resolve_metadata fs i.
Proof.
  intros Hrun. split; [by apply (resolve_metadata_dom fs i)|].
  destruct (resolve_metadata_base fs i md Hrun) as (? & ? & ? & ?).
  repeat split; try done. intros l Hl. by apply resolve_metadata_names.
Qed.

(** *** The CPC version *)

Section CpcVersion.
Context `{LiteralEval}.
Variable fs : filesystem.
Variable i : inputs.

(** The later steps leave [cpc_version] as the CPC step has set it. *)
Lemma resolve_metadata_cpc v md :
  (∀ md1, run_result (cpc_step fs i md1)
          = Ok (<["cpc_version" := PyStr v]> md1)) ->
  run_result (resolve_metadata fs i) = Ok md ->
  md !! "cpc_version" = Some (PyStr v).
Proof.
  intros Hcpc (md0 & md1 & md2 & md3 & md4 & _ & _ & H2 & H3 & H4 & H5)
    %resolve_metadata_ok.
  rewrite Hcpc in H2. injection H2 as <-.
  apply zwave_step_shape in H3. apply ot_rcp_step_shape in H4.
  apply gecko_bootloader_step_shape in H5.
  rewrite (step_shape_lookup _ _ _ _ H5), (step_shape_lookup _ _ _ _ H4),
    (step_shape_lookup _ _ _ _ H3) by done.
  apply lookup_insert_eq.
Qed.

Lemma dotted_ints h a b c x y z :
  h !! a = Some (PyInt x) -> h !! b = Some (PyInt y) ->
  h !! c = Some (PyInt z) ->
  dotted h a b c
  = Ok (str_of_int x +:+ "." +:+ str_of_int y +:+ "." +:+ str_of_int z).
Proof.
  intros Ha Hb Hc. unfold dotted, getitem. rewrite Ha, Hb, Hc.
  result_simpl. reflexivity.
Qed.
End CpcVersion.

(** C2: with [cpc_version] declared and a version header that defines
    major 4, minor 2 and patch 0, the CPC step sets [cpc_version] to
    [4.2.0] when the secondary header is not there, and to [4.2.0-beta]
    when that header defines the suffix as the string [-beta]; a record
    that is produced has that value. *)
Theorem cpc_version_value `{LiteralEval} fs i h :
  declared "cpc_version" (gbl_dynamic i) = true ->
  header_of fs (gsdk_path i ++ gsdk_version_h) = Ok h ->
  h !! "SL_GSDK_MAJOR_VERSION" = Some (PyInt 4) ->
  h !! "SL_GSDK_MINOR_VERSION" = Some (PyInt 2) ->
  h !! "SL_GSDK_PATCH_VERSION" = Some (PyInt 0) ->
  (fs_read_text fs (project_root i ++ internal_app_config)
   = Raise FileNotFoundError ->
   (∀ md, run_result (cpc_step fs i md)
          = Ok (<["cpc_version" := PyStr "4.2.0"]> md)) ∧
   (∀ md, run_result (resolve_metadata fs i) = Ok md ->
          md !! "cpc_version" = Some (PyStr "4.2.0"))) ∧
  (∀ h', header_of fs (project_root i ++ internal_app_config) = Ok h' ->
         h' !! "CPC_SECONDARY_APP_VERSION_SUFFIX" = Some (PyStr "-beta") ->
   (∀ md, run_result (cpc_step fs i md)
          = Ok (<["cpc_version" := PyStr "4.2.0-beta"]> md)) ∧
   (∀ md, run_result (resolve_metadata fs i) = Ok md ->
          md !! "cpc_version" = Some (PyStr "4.2.0-beta"))).
Proof.
  intros Hdecl Hh Hmajor Hminor Hpatch.
  pose proof (dotted_ints h _ _ _ _ _ _ Hmajor Hminor Hpatch) as Hdot.
  split.
  - intros Habsent.
    assert (∀ md, run_result (cpc_step fs i md)
                  = Ok (<["cpc_version" := PyStr "4.2.0"]> md)) as Hstep.
    { intros md. rewrite cpc_step_result, Hdecl, Hh. result_simpl.
      rewrite Hdot. cbn [Py.bind].
      unfold optional_header_of, header_of. rewrite Habsent. result_simpl.
      by rewrite lookup_empty. }
    split; [done|]. intros md. by apply resolve_metadata_cpc.
  - intros h' Hh' Hsuffix.
    assert (∀ md, run_result (cpc_step fs i md)
                  = Ok (<["cpc_version" := PyStr "4.2.0-beta"]> md)) as Hstep.
    { intros md. rewrite cpc_step_result, Hdecl, Hh. result_simpl.
      rewrite Hdot. cbn [Py.bind].
      unfold optional_header_of. rewrite Hh'. cbn [Py.bind].
      by rewrite Hsuffix. }
    split; [done|]. intros md. by apply resolve_metadata_cpc.
Qed.

Lemma cpc_version_value_witness :
  (∃ md, run_result (@resolve_metadata Sample.literal_eval_sample
                       (sample_fs None) (sample_inputs [PyStr "cpc_version"]))
         = Ok md ∧ md !! "cpc_version" = Some (PyStr "4.2.0")) ∧
  (∃ md, run_result (@resolve_metadata Sample.literal_eval_sample
                       (sample_fs (Some beta_header))
                       (sample_inputs [PyStr "cpc_version"]))
         = Ok md ∧ md !! "cpc_version" = Some (PyStr "4.2.0-beta")).
Proof.
  pose (h := <["SL_GSDK_PATCH_VERSION" := PyInt 0]>
               (<["SL_GSDK_MINOR_VERSION" := PyInt 2]>
                 (<["SL_GSDK_MAJOR_VERSION" := PyInt 4]>
                   (∅ : gmap string pyval)))).
  split.
  - destruct (@cpc_version_value Sample.literal_eval_sample (sample_fs None)
                (sample_inputs [PyStr "cpc_version"]) h
                eq_refl eq_refl eq_refl eq_refl eq_refl) as [Habsent _].
    destruct (Habsent eq_refl) as [_ Hrecord].
    assert (∃ md, run_result (@resolve_metadata Sample.literal_eval_sample
                (sample_fs None) (sample_inputs [PyStr "cpc_version"])) = Ok md) as [md Hrun].
  { destruct (run_result (@resolve_metadata Sample.literal_eval_sample
                (sample_fs None) (sample_inputs [PyStr "cpc_version"]))) as [md0|e] eqn:Hr;
      [by exists md0|by hnf in Hr]. }
    exists md. split; [done|]. by apply Hrecord.
  - destruct (@cpc_version_value Sample.literal_eval_sample
                (sample_fs (Some beta_header))
                (sample_inputs [PyStr "cpc_version"]) h
                eq_refl eq_refl eq_refl eq_refl eq_refl) as [_ Hsuffix].
    destruct (Hsuffix (<["CPC_SECONDARY_APP_VERSION_SUFFIX" := PyStr "-beta"]> ∅)
                eq_refl eq_refl) as [_ Hrecord].
    assert (∃ md, run_result (@resolve_metadata Sample.literal_eval_sample
                (sample_fs (Some beta_header))
                (sample_inputs [PyStr "cpc_version"])) = Ok md) as [md Hrun].
  { destruct (run_result (@resolve_metadata Sample.literal_eval_sample
                (sample_fs (Some beta_header))
                (sample_inputs [PyStr "cpc_version"]))) as [md0|e] eqn:Hr;
      [by exists md0|by hnf in Hr]. }
    exists md. split; [done|]. by apply Hrecord.
Defined.

Lemma resolve_metadata_fields_witness :
  ∃ md,
    run_result (@resolve_metadata Sample.literal_eval_sample
                  (sample_fs (Some beta_header))
                  (sample_inputs [PyStr "cpc_version"; PyStr "ezsp_version";
                                  PyStr "bogus"; PyInt 3])) = Ok md ∧
    dom md = base_names ∪ {["ezsp_version"; "cpc_version"]} ∧
    md !! "metadata_version" = Some (PyInt 1) ∧
    @resolve_metadata Sample.literal_eval_sample (sample_fs (Some beta_header))
      (with_dynamic
         (sample_inputs [PyStr "cpc_version"; PyStr "ezsp_version";
                         PyStr "bogus"; PyInt 3])
         [PyStr "ezsp_version"; PyStr "cpc_version"])
    = @resolve_metadata Sample.literal_eval_sample (sample_fs (Some beta_header))
        (sample_inputs [PyStr "cpc_version"; PyStr "ezsp_version";
                        PyStr "bogus"; PyInt 3]).
Proof.
  assert (∃ md, run_result (@resolve_metadata Sample.literal_eval_sample
              (sample_fs (Some beta_header))
              (sample_inputs [PyStr "cpc_version"; PyStr "ezsp_version";
                              PyStr "bogus"; PyInt 3])) = Ok md) as [md Hrun].
  { destruct (run_result (@resolve_metadata Sample.literal_eval_sample
              (sample_fs (Some beta_header))
              (sample_inputs [PyStr "cpc_version"; PyStr "ezsp_version";
                              PyStr "bogus"; PyInt 3]))) as [md0|e] eqn:Hr;
      [by exists md0|by hnf in Hr]. }
  exists md. split; [done|].
  destruct (@resolve_metadata_fields Sample.literal_eval_sample _ _ _ Hrun)
    as (Hdom & Hversion & _ & _ & _ & Hsame).
  split; [|split; [done|]].
  - rewrite Hdom. f_equal.
  - apply Hsame. intros n Hn. unfold recognized_names in Hn.
    repeat (apply elem_of_cons in Hn as [->|Hn]; [done|]).
    by apply elem_of_nil in Hn.
Defined.

(** *** Failures of the extraction *)

Lemma raises_or_ok {A} (r : result A) :
  (∀ a, r ≠ Ok a) -> ∃ e, r = Raise e.
Proof. destruct r as [a|e]; [intros Hr; by destruct (Hr a)|eauto]. Qed.

Section Failures.
Context `{LiteralEval}.
Variable fs : filesystem.
Variable i : inputs.

Lemma dotted_missing h a b c k :
  k ∈ [a; b; c] -> h !! k = None -> dotted h a b c = Raise KeyError.
Proof.
  intros Hk Hnone. unfold dotted, getitem. result_simpl.
  apply elem_of_cons in Hk as [->|Hk]; [by rewrite Hnone|].
  destruct (h !! a); [cbn [Py.bind]|done].
  apply elem_of_cons in Hk as [->|Hk]; [by rewrite Hnone|].
  destruct (h !! b); [cbn [Py.bind]|done].
  apply elem_of_cons in Hk as [->|Hk]; [by rewrite Hnone|].
  by apply elem_of_nil in Hk.
Qed.

Lemma esf_version_missing_file p e :
  fs_read_text fs p = Raise e -> esf_version_of fs p = Raise e.
Proof. intros Hread. unfold esf_version_of. by rewrite Hread. Qed.

Lemma esf_version_missing_key p text keys k :
  fs_read_text fs p = Ok text ->
  (props ← parse_properties_file text; Ok (dom props)) = Ok keys ->
  k ∈ ["version"] -> k ∉ keys ->
  esf_version_of fs p = Raise KeyError.
Proof.
  intros Hread (props & Hprops & [= <-])%bind_ok Hk Hnone.
  apply list_elem_of_singleton in Hk as ->.
  apply not_elem_of_dom in Hnone.
  unfold esf_version_of, getitem. rewrite Hread. result_simpl.
  rewrite Hprops. cbn [Py.bind]. by rewrite Hnone.
Qed.

Lemma header_missing_file p e :
  fs_read_text fs p = Raise e -> header_of fs p = Raise e.
Proof. intros Hread. unfold header_of. by rewrite Hread. Qed.

Lemma header_missing_key p text keys k :
  fs_read_text fs p = Ok text ->
  (h ← parse_c_header_defines text; Ok (dom h)) = Ok keys ->
  k ∉ keys ->
  ∃ h, header_of fs p = Ok h ∧ h !! k = None.
Proof.
  intros Hread (h & Hh & [= <-])%bind_ok Hnone.
  apply not_elem_of_dom in Hnone. exists h. split; [|done].
  unfold header_of. by rewrite Hread.
Qed.

Lemma ezsp_failure md md' :
  declared "ezsp_version" (gbl_dynamic i) = true ->
  extraction_failure fs i "ezsp_version" ->
  run_result (ezsp_step fs i md) ≠ Ok md'.
Proof.
  intros Hdecl Hfail. rewrite ezsp_step_result, Hdecl.
  destruct Hfail as [p e Hsrc Hread|p text keys k Hsrc Hread Hkeys Hk Hnone];
    change (Some (gsdk_path i ++ zigbee_esf) = Some p) in Hsrc;
    injection Hsrc as <-.
  - by rewrite (esf_version_missing_file _ _ Hread).
  - by rewrite (esf_version_missing_key _ _ _ _ Hread Hkeys Hk Hnone).
Qed.

Lemma zwave_failure md md' :
  declared "zwave_version" (gbl_dynamic i) = true ->
  extraction_failure fs i "zwave_version" ->
  run_result (zwave_step fs i md) ≠ Ok md'.
Proof.
  intros Hdecl Hfail. rewrite zwave_step_result, Hdecl.
  destruct Hfail as [p e Hsrc Hread|p text keys k Hsrc Hread Hkeys Hk Hnone];
    change (Some (gsdk_path i ++ zwave_esf) = Some p) in Hsrc;
    injection Hsrc as <-.
  - by rewrite (esf_version_missing_file _ _ Hread).
  - by rewrite (esf_version_missing_key _ _ _ _ Hread Hkeys Hk Hnone).
Qed.

Lemma cpc_failure md md' :
  declared "cpc_version" (gbl_dynamic i) = true ->
  extraction_failure fs i "cpc_version" ->
  run_result (cpc_step fs i md) ≠ Ok md'.
Proof.
  intros Hdecl Hfail. rewrite cpc_step_result, Hdecl.
  destruct Hfail as [p e Hsrc Hread|p text keys k Hsrc Hread Hkeys Hk Hnone];
    change (Some (gsdk_path i ++ gsdk_version_h) = Some p) in Hsrc;
    injection Hsrc as <-.
  - by rewrite (header_missing_file _ _ Hread).
  - destruct (header_missing_key _ _ _ _ Hread Hkeys Hnone) as (h & Hh & Hn).
    rewrite Hh. result_simpl.
    by rewrite (dotted_missing _ _ _ _ _ Hk Hn).
Qed.

Lemma ot_rcp_failure md md' :
  declared "ot_rcp_version" (gbl_dynamic i) = true ->
  extraction_failure fs i "ot_rcp_version" ->
  run_result (ot_rcp_step fs i md) ≠ Ok md'.
Proof.
  intros Hdecl Hfail. rewrite ot_rcp_step_result, Hdecl.
  destruct Hfail as [p e Hsrc Hread|p text keys k Hsrc Hread Hkeys Hk Hnone];
    change (Some (project_root i ++ openthread_config) = Some p) in Hsrc;
    injection Hsrc as <-.
  - by rewrite (header_missing_file _ _ Hread).
  - destruct (header_missing_key _ _ _ _ Hread Hkeys Hnone) as (h & Hh & Hn).
    apply list_elem_of_singleton in Hk as ->.
    rewrite Hh. result_simpl. unfold getitem. by rewrite Hn.
Qed.

Lemma gecko_bootloader_failure md md' :
  declared "gecko_bootloader_version" (gbl_dynamic i) = true ->
  extraction_failure fs i "gecko_bootloader_version" ->
  run_result (gecko_bootloader_step fs i md) ≠ Ok md'.
Proof.
  intros Hdecl Hfail. rewrite gecko_bootloader_step_result, Hdecl.
  destruct Hfail as [p e Hsrc Hread|p text keys k Hsrc Hread Hkeys Hk Hnone];
    change (Some (gsdk_path i ++ btl_config) = Some p) in Hsrc;
    injection Hsrc as <-.
  - by rewrite (header_missing_file _ _ Hread).
  - destruct (header_missing_key _ _ _ _ Hread Hkeys Hnone) as (h & Hh & Hn).
    rewrite Hh. result_simpl.
    by rewrite (dotted_missing _ _ _ _ _ Hk Hn).
Qed.

(** Only the five known fields have a source file. *)
Lemma extraction_failure_name name :
  extraction_failure fs i name -> name ∈ recognized_names.
Proof.
  assert (∀ p, source_file i name = Some p -> name ∈ recognized_names)
    as Hsome.
  { intros p. unfold source_file, recognized_names.
    repeat match goal with
           | |- context [String.eqb name ?s] =>
               destruct (String.eqb_spec name s) as [->|_];
               [intros _;
                repeat first
                  [apply list_elem_of_here|apply list_elem_of_further]|]
           end.
    done. }
  intros [p e Hsrc _|p text keys k Hsrc _ _ _ _]; by apply (Hsome p).
Qed.

(** A field that is declared and whose extraction fails leaves no
    record. *)
Lemma extraction_failure_no_record name md :
  declared name (gbl_dynamic i) = true ->
  extraction_failure fs i name ->
  run_result (resolve_metadata fs i) ≠ Ok md.
Proof.
  intros Hdecl Hfail
    (md0 & md1 & md2 & md3 & md4 & _ & H1 & H2 & H3 & H4 & H5)
    %resolve_metadata_ok.
  pose proof (extraction_failure_name _ Hfail) as Hname.
  unfold recognized_names in Hname.
  repeat (apply elem_of_cons in Hname as [->|Hname]).
  - by apply (ezsp_failure md0 md1).
  - by apply (cpc_failure md1 md2).
  - by apply (zwave_failure md2 md3).
  - by apply (ot_rcp_failure md3 md4).
  - by apply (gecko_bootloader_failure md4 md).
  - by apply elem_of_nil in Hname.
Qed.

Lemma create_gbl_raises `{JsonDumps} gbl_file out_file device_part_id metadata_json e :
  run_result (resolve_metadata fs i) = Raise e ->
  run_result (create_gbl fs i gbl_file out_file device_part_id metadata_json)
  = Raise e.
Proof.
  intros Hrun. unfold create_gbl. by rewrite run_bind_result, Hrun.
Qed.

(** The CPC step with the two headers given by their results. *)
Lemma cpc_step_suffix_header h v md :
  declared "cpc_version" (gbl_dynamic i) = true ->
  header_of fs (gsdk_path i ++ gsdk_version_h) = Ok h ->
  dotted h "SL_GSDK_MAJOR_VERSION" "SL_GSDK_MINOR_VERSION"
    "SL_GSDK_PATCH_VERSION" = Ok v ->
  run_result (cpc_step fs i md) =
  match header_of fs (project_root i ++ internal_app_config) with
  | Raise FileNotFoundError => Ok (<["cpc_version" := PyStr v]> md)
  | Raise e => Raise e
  | Ok internal =>
      match internal !! "CPC_SECONDARY_APP_VERSION_SUFFIX" with
      | Some suffix =>
          cpc' ← str_add v suffix; Ok (<["cpc_version" := PyStr cpc']> md)
      | None => Ok (<["cpc_version" := PyStr v]> md)
      end
  end.
Proof.
  intros Hdecl Hh Hv. rewrite cpc_step_result, Hdecl, Hh. result_simpl.
  rewrite Hv. cbn [Py.bind]. unfold optional_header_of.
  destruct (header_of fs (project_root i ++ internal_app_config)) as [h'|e];
    [done|]. by destruct e.
Qed.
End Failures.

(** C7: a declared field whose file cannot be read, or whose parsed
    mapping lacks a key the field needs, makes the metadata stage and the
    whole run raise; the one tolerated case is the secondary header of
    [cpc_version], whose absence gives the version without suffix, while
    any other exception from that header leaves the step as it is raised;
    and a record that is produced has every declared known field, none of
    which has failed. *)
Theorem extraction_failure_aborts `{LiteralEval} `{JsonDumps} fs i :
  (∀ name, declared name (gbl_dynamic i) = true ->
           extraction_failure fs i name ->
     ∃ e, run_result (resolve_metadata fs i) = Raise e ∧
          ∀ gbl_file out_file device_part_id metadata_json,
            run_result (create_gbl fs i gbl_file out_file device_part_id
                          metadata_json) = Raise e) ∧
  (∀ h v md, declared "cpc_version" (gbl_dynamic i) = true ->
             header_of fs (gsdk_path i ++ gsdk_version_h) = Ok h ->
             dotted h "SL_GSDK_MAJOR_VERSION" "SL_GSDK_MINOR_VERSION"
               "SL_GSDK_PATCH_VERSION" = Ok v ->
     (fs_read_text fs (project_root i ++ internal_app_config)
      = Raise FileNotFoundError ->
      run_result (cpc_step fs i md) = Ok (<["cpc_version" := PyStr v]> md)) ∧
     (∀ e, header_of fs (project_root i ++ internal_app_config) = Raise e ->
           e ≠ FileNotFoundError ->
      run_result (cpc_step fs i md) = Raise e ∧
      ∃ e', run_result (resolve_metadata fs i) = Raise e')) ∧
  (∀ md, run_result (resolve_metadata fs i) = Ok md ->
         ∀ name, name ∈ recognized_names ->
                 declared name (gbl_dynamic i) = true ->
           is_Some (md !! name) ∧ ¬ extraction_failure fs i name).
Proof.
  split; [|split].
  - intros name Hdecl Hfail.
    destruct (raises_or_ok (run_result (resolve_metadata fs i))) as [e He].
    { intros md. by apply extraction_failure_no_record with name. }
    exists e. split; [done|]. intros. by apply create_gbl_raises.
  - intros h v md Hdecl Hh Hv.
    pose proof (cpc_step_suffix_header fs i h v) as Hstep.
    split.
    + intros Habsent. rewrite (Hstep md) by done.
      by rewrite (header_missing_file _ _ _ Habsent).
    + intros e He Hne.
      assert (∀ md1, run_result (cpc_step fs i md1) = Raise e) as Hraise.
      { intros md1. rewrite (Hstep md1), He by done. by destruct e. }
      split; [done|]. apply raises_or_ok.
      intros md' (md0 & md1 & md2 & md3 & md4 & _ & _ & H2 & _)
        %resolve_metadata_ok.
      by rewrite Hraise in H2.
  - intros md Hrun name Hname Hdecl. split.
    + apply elem_of_dom. rewrite (resolve_metadata_dom fs i md Hrun).
      apply elem_of_union_r, elem_of_list_to_set, list_elem_of_In, filter_In.
      split; [by apply list_elem_of_In|done].
    + intros Hfail. by apply (extraction_failure_no_record fs i name md).
Qed.

Lemma extraction_failure_aborts_witness :
  (∃ e, run_result (@resolve_metadata Sample.literal_eval_sample
                      (sample_fs None)
                      (sample_inputs [PyStr "ot_rcp_version";
                                      PyStr "cpc_version"])) = Raise e) ∧
  run_result (@cpc_step Sample.literal_eval_sample (sample_fs None)
                (sample_inputs [PyStr "ot_rcp_version"; PyStr "cpc_version"])
                ∅)
  = Ok (<["cpc_version" := PyStr "4.2.0"]> ∅).
Proof.
  destruct (@extraction_failure_aborts Sample.literal_eval_sample
              sample_json_dumps
              (sample_fs None)
              (sample_inputs [PyStr "ot_rcp_version"; PyStr "cpc_version"]))
    as (Hfatal & Hsuffix & _).
  split.
  - destruct (Hfatal "ot_rcp_version" eq_refl) as (e & He & _); [|by exists e].
    by apply (missing_file _ _ _ ["proj"; "config";
                                  "sl_openthread_generic_config.h"]
                FileNotFoundError).
  - pose (h := <["SL_GSDK_PATCH_VERSION" := PyInt 0]>
                 (<["SL_GSDK_MINOR_VERSION" := PyInt 2]>
                   (<["SL_GSDK_MAJOR_VERSION" := PyInt 4]>
                     (∅ : gmap string pyval)))).
    destruct (Hsuffix h "4.2.0" ∅ eq_refl eq_refl eq_refl) as [Habsent _].
    exact (Habsent eq_refl).
Defined.

(** *** Lines without [=] *)

Lemma esf_version_no_eq fs p file_content pre line post :
  fs_read_text fs p = Ok file_content ->
  split NL file_content = pre ++ line :: post ->
  strip line ≠ "" -> startswith "#" (strip line) = false ->
  contains EQ (strip line) = false ->
  esf_version_of fs p = Raise ValueError.
Proof.
  intros Hread Hs Hne Hc Hq. unfold esf_version_of. rewrite Hread.
  result_simpl.
  by rewrite (parse_properties_file_no_eq _ _ _ _ Hs Hne Hc Hq).
Qed.

(** C8: on a line that is not blank, is no comment and has no [=], the
    two parsers part: [parse_simple_config] steps over the line, with the
    result the text has without it and no exception, while
    [parse_properties_file] raises [ValueError] at the unpacking; that
    exception is not handled where the properties files are read, so the
    metadata stage and the run raise when such a file is the Zigbee or
    Z-Wave properties file of a declared field. *)
Theorem eq_free_line_policies `{LiteralEval} `{JsonDumps} file_content pre
    line post :
  split NL file_content = pre ++ line :: post ->
  strip line ≠ "" ->
  startswith "#" (strip line) = false ->
  contains EQ (strip line) = false ->
  (∀ config, simple_config_line config line = Ok config) ∧
  (∃ config, parse_simple_config file_content = Ok config ∧
             for_each simple_config_line (pre ++ post) ∅ = Ok config) ∧
  (∀ props, properties_line props line = Raise ValueError) ∧
  parse_properties_file file_content = Raise ValueError ∧
  (∀ fs i,
     (declared "ezsp_version" (gbl_dynamic i) = true ∧
      fs_read_text fs (gsdk_path i ++ zigbee_esf) = Ok file_content) ∨
     (declared "zwave_version" (gbl_dynamic i) = true ∧
      fs_read_text fs (gsdk_path i ++ zwave_esf) = Ok file_content) ->
     ∃ e, run_result (resolve_metadata fs i) = Raise e ∧
          ∀ gbl_file out_file device_part_id metadata_json,
            run_result (create_gbl fs i gbl_file out_file device_part_id
                          metadata_json) = Raise e) ∧
  (∀ fs i md,
     declared "ezsp_version" (gbl_dynamic i) = true ->
     fs_read_text fs (gsdk_path i ++ zigbee_esf) = Ok file_content ->
     run_result (ezsp_step fs i md) = Raise ValueError).
Proof.
  intros Hs Hne Hc Hq.
  assert (∀ config, simple_config_line config line = Ok config) as Hskip.
  { intros config. apply simple_config_line_not_entry. by right; right. }
  assert (∀ fs i md,
            declared "ezsp_version" (gbl_dynamic i) = true ->
            fs_read_text fs (gsdk_path i ++ zigbee_esf) = Ok file_content ->
            run_result (ezsp_step fs i md) = Raise ValueError) as Hezsp.
  { intros fs i md Hdecl Hread. rewrite ezsp_step_result, Hdecl.
    by rewrite (esf_version_no_eq _ _ _ _ _ _ Hread Hs Hne Hc Hq). }
  assert (∀ fs i md,
            declared "zwave_version" (gbl_dynamic i) = true ->
            fs_read_text fs (gsdk_path i ++ zwave_esf) = Ok file_content ->
            run_result (zwave_step fs i md) = Raise ValueError) as Hzwave.
  { intros fs i md Hdecl Hread. rewrite zwave_step_result, Hdecl.
    by rewrite (esf_version_no_eq _ _ _ _ _ _ Hread Hs Hne Hc Hq). }
  split_and!; try done.
  - destruct (simple_config_lines (pre ++ post) ∅) as (config & Hrun & _).
    exists config. split; [|done].
    unfold parse_simple_config. rewrite Hs, for_each_app.
    rewrite for_each_app in Hrun.
    destruct (for_each simple_config_line pre ∅) as [acc|e]; [|done].
    cbn [Py.bind for_each] in *. by rewrite Hskip.
  - intros props. by apply properties_line_no_eq.
  - by apply parse_properties_file_no_eq with pre line post.
  - intros fs i Hfile.
    destruct (raises_or_ok (run_result (resolve_metadata fs i))) as [e He].
    { intros md (md0 & md1 & md2 & md3 & md4 & _ & H1 & _ & H3 & _)
        %resolve_metadata_ok.
      destruct Hfile as [[Hdecl Hread]|[Hdecl Hread]].
      - by rewrite Hezsp in H1.
      - by rewrite Hzwave in H3. }
    exists e. split; [done|]. intros. by apply create_gbl_raises.
Qed.

Lemma eq_free_line_policies_witness :
  parse_simple_config sample_makefile
  = Ok (<["BASE_SDK_PATH" := "/opt/gsdk=4.4"]> ∅) ∧
  parse_properties_file sample_makefile = Raise ValueError ∧
  ∃ e, run_result (@resolve_metadata Sample.literal_eval_sample
                     (sample_fs None)
                     (sample_inputs [PyStr "zwave_version"])) = Raise e.
Proof.
  destruct (@eq_free_line_policies Sample.literal_eval_sample
              sample_json_dumps sample_makefile
              ["# generated"; ""; "BASE_SDK_PATH = /tmp"] "no separator"
              ["  BASE_SDK_PATH =  /opt/gsdk=4.4 "; "  # BASE_SDK_PATH = x"]
              eq_refl ltac:(done) eq_refl eq_refl)
    as (_ & (config & -> & Hconfig) & _ & Hprops & _).
  split; [|split; [done|]].
  - by rewrite <- Hconfig.
  - destruct (@eq_free_line_policies Sample.literal_eval_sample
                sample_json_dumps
                (lines ["id=zwave"; "no version here"])
                ["id=zwave"] "no version here" []
                eq_refl ltac:(done) eq_refl eq_refl)
      as (_ & _ & _ & _ & Hrun & _).
    destruct (Hrun (sample_fs None) (sample_inputs [PyStr "zwave_version"]))
      as (e & He & _); [by right|by exists e].
Defined.

(** ** Further properties of the parsers *)

(** *** The tokens of a properties value *)

Lemma tokens_of_end current :
  tokens_of current "" = if String.eqb current "" then [] else [current].
Proof. done. Qed.

Lemma tokens_of_space current rest :
  tokens_of current (String SP rest) = current :: tokens_of "" rest.
Proof. by destruct rest. Qed.

Lemma tokens_of_plain current c rest :
  Ascii.eqb c BS = false -> Ascii.eqb c SP = false ->
  tokens_of current (String c rest) = tokens_of (current +:+ String c "") rest.
Proof. intros Hb Hs. cbn [tokens_of]. rewrite Hb, Hs. by destruct rest. Qed.

Lemma tokens_of_escape current rest :
  tokens_of current (String BS (String BS rest))
  = tokens_of (current +:+ " ") rest.
Proof. done. Qed.

Lemma append_nil_r (s : string) : s +:+ "" = s.
Proof. induction s as [|c s IH]; [done|]. by rewrite append_cons, IH. Qed.

Lemma append_snoc (a : string) c (b : string) :
  (a +:+ String c "") +:+ b = a +:+ String c b.
Proof. by rewrite append_assoc. Qed.

Lemma tokens_of_escape_token t : ∀ current rest,
  contains BS t = false ->
  tokens_of current (escape_token t +:+ rest)
  = tokens_of (current +:+ t) rest.
Proof.
  induction t as [|c t IH]; intros current rest Ht.
  - by rewrite append_nil_l, append_nil_r.
  - cbn [contains] in Ht. apply orb_false_iff in Ht as [Hc Ht].
    cbn [escape_token]. destruct (Ascii.eqb c SP) eqn:Hs.
    + apply Ascii.eqb_eq in Hs as ->.
      rewrite !append_cons, tokens_of_escape, IH by done.
      by rewrite append_snoc.
    + rewrite append_cons, tokens_of_plain, IH by done.
      by rewrite append_snoc.
Qed.

Lemma write_tokens_cons t t' ts :
  write_tokens (t :: t' :: ts)
  = escape_token t +:+ String SP (write_tokens (t' :: ts)).
Proof. done. Qed.

Lemma tokens_of_write_tokens ts : ∀ t,
  (∀ t', t' ∈ t :: ts -> contains BS t' = false) ->
  last (t :: ts) ≠ Some "" ->
  tokens_of "" (write_tokens (t :: ts)) = t :: ts.
Proof.
  induction ts as [|t2 ts IH]; intros t Hbs Hlast.
  - unfold write_tokens. cbn [map String.concat].
    rewrite <- (append_nil_r (escape_token t)), tokens_of_escape_token
      by (apply Hbs; apply list_elem_of_here).
    rewrite append_nil_l, tokens_of_end.
    destruct (String.eqb_spec t "") as [->|_]; [by destruct Hlast|done].
  - rewrite write_tokens_cons, tokens_of_escape_token
      by (apply Hbs; apply list_elem_of_here).
    rewrite append_nil_l, tokens_of_space. f_equal. apply IH.
    + intros t' Ht'. apply Hbs. by apply list_elem_of_further.
    + exact Hlast.
Qed.

(** A list of tokens that have no backslash, the last of which is not
    empty, is read back from its text: the tokenizer undoes
    [write_tokens]. *)
Theorem tokenize_write_tokens (ts : list string) :
  (∀ t, t ∈ ts -> contains BS t = false) ->
  last ts ≠ Some "" ->
  tokenize (write_tokens ts) = ts.
Proof.
  intros Hbs Hlast. rewrite tokenize_tokens_of.
  destruct ts as [|t ts]; [done|]. by apply tokens_of_write_tokens.
Qed.

Lemma tokenize_write_tokens_witness :
  tokenize (write_tokens [""; "Gecko SDK Suite"; "7.4.0.0"])
  = [""; "Gecko SDK Suite"; "7.4.0.0"]
  ∧ write_tokens [""; "Gecko SDK Suite"; "7.4.0.0"]
    = " Gecko\\SDK\\Suite 7.4.0.0".
Proof.
  split; [|reflexivity].
  apply tokenize_write_tokens; [|done].
  intros t Ht. repeat (apply elem_of_cons in Ht as [->|Ht]; [done|]).
  by apply elem_of_nil in Ht.
Defined.

Lemma cons_head_app c (h : string) (l : list string) current :
  match cons_head c (h :: l) with
  | [] => []
  | x :: l' => (current +:+ x) :: l'
  end = (current +:+ String c "" +:+ h) :: l.
Proof. cbn [cons_head]. f_equal. Qed.

Lemma split_cons sep s : ∃ h l, split sep s = h :: l.
Proof.
  induction s as [|c s (h & l & IH)]; [by exists "", []|].
  cbn [split]. destruct (Ascii.eqb c sep); [by eexists _, _|].
  rewrite IH. by eexists _, _.
Qed.

Lemma tokens_of_split value : ∀ current,
  contains BS value = false ->
  tokens_of current value
  = drop_trailing_empty
      match split SP value with
      | [] => []
      | h :: l => (current +:+ h) :: l
      end.
Proof.
  induction value as [|c value IH]; intros current Hbs.
  - cbn [split drop_trailing_empty]. by rewrite append_nil_r.
  - cbn [contains] in Hbs. apply orb_false_iff in Hbs as [Hc Hbs].
    cbn [split]. destruct (Ascii.eqb c SP) eqn:Hs.
    + apply Ascii.eqb_eq in Hs as ->.
      rewrite tokens_of_space, append_nil_r, IH by done.
      destruct (split_cons SP value) as (h & l & ->).
      by rewrite append_nil_l.
    + rewrite tokens_of_plain, IH by done.
      destruct (split_cons SP value) as (h & l & ->).
      cbn [cons_head]. by rewrite append_assoc.
Qed.

(** On a value without backslash the tokenizer is [value.split(" ")]
    without its last item when that item is empty; so the value with
    nothing in it has no token, and a value that ends in a space has no
    empty token at its end. *)
Theorem tokenize_no_backslash (value : string) :
  contains BS value = false ->
  tokenize value = drop_trailing_empty (split SP value).
Proof.
  intros Hbs. rewrite tokenize_tokens_of, tokens_of_split by done.
  destruct (split_cons SP value) as (h & l & ->). by rewrite append_nil_l.
Qed.

Lemma tokenize_no_backslash_witness :
  tokenize "7.4.0.0  GA " = ["7.4.0.0"; ""; "GA"] ∧
  split SP "7.4.0.0  GA " = ["7.4.0.0"; ""; "GA"; ""].
Proof.
  split; [|reflexivity].
  by rewrite (tokenize_no_backslash "7.4.0.0  GA " eq_refl).
Defined.

(** *** Loops that fill a dictionary *)

Lemma for_each_ok_cons {A S} (f : S -> A -> result S) x l acc m :
  for_each f (x :: l) acc = Ok m ->
  ∃ acc', f acc x = Ok acc' ∧ for_each f l acc' = Ok m.
Proof.
  cbn [for_each]. destruct (f acc x) as [acc'|e]; [|done].
  cbn [Py.bind]. eauto.
Qed.

Lemma for_each_raise_inv {A S} (f : S -> A -> result S) l : ∀ acc e,
  for_each f l acc = Raise e ->
  ∃ pre x post acc', l = pre ++ x :: post ∧ f acc' x = Raise e.
Proof.
  induction l as [|x l IH]; intros acc e; [done|].
  cbn [for_each]. destruct (f acc x) as [acc'|e'] eqn:Hx; cbn [Py.bind].
  - intros (pre & y & post & acc2 & -> & Hy)%IH.
    by exists (x :: pre), y, post, acc2.
  - intros [= <-]. by exists [], x, l, acc.
Qed.

Section LastSets.
Context {L V : Type}.
Variable step : gmap string V -> L -> result (gmap string V).
Variable sets : L -> string -> V -> Prop.
Hypothesis sets_fun : ∀ l k v k' v',
  sets l k v -> sets l k' v' -> k = k' ∧ v = v'.
Hypothesis step_ok : ∀ acc l acc',
  step acc l = Ok acc' ->
  (∃ k v, sets l k v ∧ acc' = <[k := v]> acc)
  ∨ ((∀ k v, ¬ sets l k v) ∧ acc' = acc).

Lemma for_each_last_sets ls : ∀ acc m,
  for_each step ls acc = Ok m ->
  ∀ k v, m !! k = Some v ↔
    last_sets sets ls k v
    ∨ (acc !! k = Some v ∧ ∀ l' v', l' ∈ ls -> ¬ sets l' k v').
Proof.
  induction ls as [|l ls IH]; intros acc m Hrun k v.
  - injection Hrun as <-. split.
    + intros Hk. right. split; [done|]. intros l' v' Hin.
      by apply elem_of_nil in Hin.
    + intros [(pre & l & post & E & _)|[Hk _]]; [|done]. by destruct pre.
  - apply for_each_ok_cons in Hrun as (acc' & Hstep & Hrun).
    rewrite (IH _ _ Hrun). clear IH Hrun.
    destruct (step_ok _ _ _ Hstep) as [(k0 & v0 & Hset & ->)|[Hno ->]].
    + split.
      * intros [(pre & l1 & post & -> & Hl1 & Hpost)|[Hk Hnone]].
        { left. by exists (l :: pre), l1, post. }
        destruct (decide (k = k0)) as [->|Hne].
        { rewrite lookup_insert_eq in Hk. injection Hk as <-.
          left. by exists [], l, ls. }
        rewrite lookup_insert_ne in Hk by done. right. split; [done|].
        intros l' v' [->|Hin]%elem_of_cons; [|by apply Hnone].
        intros Hl. by destruct (sets_fun _ _ _ _ _ Hset Hl).
      * intros [(pre & l1 & post & E & Hl1 & Hpost)|[Hk Hnone]].
        { destruct pre as [|l0 pre]; injection E as <- ->.
          - destruct (sets_fun _ _ _ _ _ Hset Hl1) as [-> ->].
            right. split; [apply lookup_insert_eq|done].
          - left. by exists pre, l1, post. }
        right. split.
        { rewrite lookup_insert_ne; [done|]. intros ->.
          apply (Hnone l v0); [apply list_elem_of_here|done]. }
        intros l' v' Hin. apply Hnone. by apply list_elem_of_further.
    + split.
      * intros [(pre & l1 & post & -> & Hl1 & Hpost)|[Hk Hnone]].
        { left. by exists (l :: pre), l1, post. }
        right. split; [done|].
        intros l' v' [->|Hin]%elem_of_cons; [apply Hno|by apply Hnone].
      * intros [(pre & l1 & post & E & Hl1 & Hpost)|[Hk Hnone]].
        { destruct pre as [|l0 pre]; injection E as <- ->.
          - by destruct (Hno k v).
          - left. by exists pre, l1, post. }
        right. split; [done|].
        intros l' v' Hin. apply Hnone. by apply list_elem_of_further.
Qed.
End LastSets.

(** *** The properties parser as a whole *)

Lemma is_property_fun line k toks k' toks' :
  is_property line k toks -> is_property line k' toks' ->
  k = k' ∧ toks = toks'.
Proof.
  intros (_ & _ & a & b & E & Ha & -> & ->)
    (_ & _ & a' & b' & E' & Ha' & -> & ->).
  pose proof (split1_app EQ a b Ha) as S1.
  pose proof (split1_app EQ a' b' Ha') as S2.
  rewrite <- E in S1. rewrite <- E' in S2. rewrite S1 in S2.
  by injection S2 as -> ->.
Qed.

Lemma properties_line_ok props line props' :
  properties_line props line = Ok props' ->
  (∃ k toks, is_property line k toks ∧ props' = <[k := toks]> props)
  ∨ ((∀ k toks, ¬ is_property line k toks) ∧ props' = props).
Proof.
  unfold properties_line.
  destruct (String.eqb_spec (strip line) "") as [He|He].
  { intros [= <-]. right. split; [|done]. by intros k toks (Hne & _). }
  destruct (startswith "#" (strip line)) eqn:Hc.
  { intros [= <-]. right. split; [|done].
    intros k toks (_ & Hc' & _). congruence. }
  cbn [orb].
  destruct (contains EQ (strip line)) eqn:Hq.
  - destruct (contains_split _ _ Hq) as (a & b & E & Ha).
    rewrite E, (split1_app _ _ _ Ha). result_simpl. cbn [unpack2 Py.bind].
    intros [= <-]. left. exists (strip a), (tokenize b).
    split; [|done]. repeat split; try done. by exists a, b.
  - by rewrite (split1_no_sep _ _ Hq).
Qed.

Lemma properties_line_raise_inv props line e :
  properties_line props line = Raise e ->
  strip line ≠ "" ∧ startswith "#" (strip line) = false ∧
  contains EQ (strip line) = false.
Proof.
  unfold properties_line.
  destruct (String.eqb_spec (strip line) "") as [He|He]; [done|].
  destruct (startswith "#" (strip line)) eqn:Hc; [done|].
  cbn [orb].
  destruct (contains EQ (strip line)) eqn:Hq; [|done].
  destruct (contains_split _ _ Hq) as (a & b & E & Ha).
  by rewrite E, (split1_app _ _ _ Ha).
Qed.

Lemma parse_properties_file_lookup file_content props :
  parse_properties_file file_content = Ok props ->
  ∀ k toks, props !! k = Some toks ↔
            last_sets is_property (split NL file_content) k toks.
Proof.
  intros Hrun k toks.
  rewrite (for_each_last_sets properties_line is_property is_property_fun
             properties_line_ok _ _ _ Hrun).
  split; [|by left]. intros [?|[Hk _]]; [done|].
  by rewrite lookup_empty in Hk.
Qed.

(** The properties parser on any text: the only exception it raises is
    [ValueError], and it raises exactly when some line that is not blank
    and no comment has no [=]; otherwise the mapping it returns gives a
    key the tokens of the last line that sets the key: a later line
    replaces the list of an earlier one, it does not extend it. *)
Theorem parse_properties_file_outcome (file_content : string) :
  (∀ e, parse_properties_file file_content = Raise e -> e = ValueError) ∧
  ((∃ e, parse_properties_file file_content = Raise e) ↔
   ∃ line, line ∈ split NL file_content ∧ strip line ≠ "" ∧
           startswith "#" (strip line) = false ∧
           contains EQ (strip line) = false) ∧
  (∀ props, parse_properties_file file_content = Ok props ->
     ∀ k toks, props !! k = Some toks ↔
               last_sets is_property (split NL file_content) k toks).
Proof.
  split; [|split].
  - intros e He. unfold parse_properties_file in He.
    eapply (for_each_raises_only _ (λ e, e = ValueError)), He.
    intros ???. apply properties_line_raises.
  - split.
    + intros [e (pre & line & post & acc & E & Hline)%for_each_raise_inv].
      exists line. split.
      { rewrite E. apply elem_of_app. right. apply list_elem_of_here. }
      by apply properties_line_raise_inv in Hline.
    + intros (line & (pre & post & E)%list_elem_of_split & Hne & Hc & Hq).
      exists ValueError. by apply parse_properties_file_no_eq with pre line post.
  - apply parse_properties_file_lookup.
Qed.

Lemma parse_properties_file_outcome_witness :
  ∃ props,
    parse_properties_file
      (lines ["# Zigbee"; "version=1.0 old"; ""; " version = 7.4.0.0 GA"])
    = Ok props ∧
    props !! "version" = Some [""; "7.4.0.0"; "GA"].
Proof.
  destruct (parse_properties_file_outcome
              (lines ["# Zigbee"; "version=1.0 old"; "";
                      " version = 7.4.0.0 GA"])) as (_ & _ & Hok).
  eexists. split; [reflexivity|].
  apply (Hok _ eq_refl).
  exists ["# Zigbee"; "version=1.0 old"; ""], " version = 7.4.0.0 GA", [].
  split; [reflexivity|]. split.
  - split; [done|]. split; [done|]. by exists "version ", " 7.4.0.0 GA".
  - intros l' v' Hin. by apply elem_of_nil in Hin.
Defined.

(** *** The first line that raises *)

Lemma for_each_ok_all {A S} (f : S -> A -> result S) (R : A -> exn -> Prop) :
  (∀ acc x e, R x e -> f acc x = Raise e) ->
  ∀ l acc m, for_each f l acc = Ok m -> ∀ x e, x ∈ l -> ¬ R x e.
Proof.
  intros HR. induction l as [|y l IH]; intros acc m Hrun x e Hin.
  { by apply elem_of_nil in Hin. }
  apply for_each_ok_cons in Hrun as (acc' & Hy & Hrun).
  apply elem_of_cons in Hin as [->|Hin].
  - intros Hx. by rewrite (HR _ _ _ Hx) in Hy.
  - by apply (IH _ _ Hrun).
Qed.

Lemma for_each_raise_first {A S} (f : S -> A -> result S)
    (R : A -> exn -> Prop) :
  (∀ acc x e, f acc x = Raise e ↔ R x e) ->
  ∀ l acc e, for_each f l acc = Raise e ↔
    ∃ pre x post, l = pre ++ x :: post ∧ R x e ∧
                  ∀ y e', y ∈ pre -> ¬ R y e'.
Proof.
  intros HR. induction l as [|x l IH]; intros acc e.
  { split; [done|]. intros (pre & x & post & E & _). by destruct pre. }
  cbn [for_each]. destruct (f acc x) as [acc'|e0] eqn:Hx; cbn [Py.bind].
  - rewrite IH. split.
    + intros (pre & y & post & -> & Hy & Hpre).
      exists (x :: pre), y, post. split; [done|]. split; [done|].
      intros z e' [->|Hin]%elem_of_cons; [|by apply Hpre].
      intros Hz. apply (HR acc) in Hz. by rewrite Hx in Hz.
    + intros (pre & y & post & E & Hy & Hpre).
      destruct pre as [|x' pre]; injection E as <- ->.
      * apply (HR acc) in Hy. by rewrite Hx in Hy.
      * exists pre, y, post. split; [done|]. split; [done|].
        intros z e' Hin. apply Hpre. by apply list_elem_of_further.
  - split.
    + intros [= <-]. exists [], x, l. split; [done|].
      split; [by apply (HR acc)|].
      intros y e' Hin. by apply elem_of_nil in Hin.
    + intros (pre & y & post & E & Hy & Hpre).
      destruct pre as [|x' pre]; injection E as <- ->.
      * apply (HR acc) in Hy. congruence.
      * destruct (Hpre x e0); [apply list_elem_of_here|by apply (HR acc)].
Qed.

(** *** The header parser as a whole *)

Lemma lstrip_nonspace c r : isspace c = false -> lstrip (String c r) = String c r.
Proof. intros Hc. cbn [lstrip]. by rewrite Hc. Qed.

Lemma startswith_define_cons line :
  startswith "#define" line = true -> ∃ r, line = String "#" r.
Proof.
  destruct line as [|c r]; [done|]. unfold startswith. cbn [String.prefix].
  destruct (Ascii.ascii_dec "#" c) as [<-|]; [eauto|done].
Qed.

Lemma split_ws_define line :
  startswith "#define" line = true ->
  ∃ first key_value, split_ws 2 line = first :: key_value.
Proof.
  intros (r & ->)%startswith_define_cons. cbn [split_ws].
  rewrite lstrip_nonspace by done. destruct (take_word (String "#" r)).
  eauto.
Qed.

Lemma split_ws_length n : ∀ s, (length (split_ws n s) <= S n)%nat.
Proof.
  induction n as [|n IH]; intros s; cbn [split_ws].
  - destruct (lstrip s); cbn [length]; lia.
  - destruct (lstrip s) as [|c r] eqn:Hs; [cbn [length]; lia|].
    destruct (take_word (String c r)) as [w rest]. cbn [length].
    specialize (IH rest). lia.
Qed.

Section HeaderOutcome.
Context `{LiteralEval}.

Lemma defines_fun line key v key' v' :
  defines line key v -> defines line key' v' -> key = key' ∧ v = v'.
Proof.
  intros (value & Hd & Hv) (value' & Hd' & Hv').
  rewrite Hd in Hd'. injection Hd' as <- <-.
  rewrite Hv in Hv'. by injection Hv' as <-.
Qed.

Lemma c_header_line_define config line :
  startswith "#define" line = true ->
  c_header_line config line =
  match define_of line with
  | Some (key, value) =>
      match literal_eval value with
      | Ok v => Ok (<[key := v]> config)
      | Raise ValueError | Raise SyntaxError => Ok config
      | Raise e => Raise e
      end
  | None => Raise ValueError
  end.
Proof.
  intros Hs. unfold c_header_line, define_of. rewrite Hs. cbn [negb].
  by destruct (split_ws 2 line) as [|first [|key [|value [|x l]]]].
Qed.

Lemma c_header_line_sets config line config' :
  c_header_line config line = Ok config' ->
  (∃ key v, defines line key v ∧ config' = <[key := v]> config)
  ∨ ((∀ key v, ¬ defines line key v) ∧ config' = config).
Proof.
  destruct (startswith "#define" line) eqn:Hs.
  - rewrite c_header_line_define by done.
    destruct (define_of line) as [[key value]|] eqn:Hd; [|done].
    destruct (literal_eval value) as [v|e] eqn:Hv.
    + intros [= <-]. left. exists key, v. split; [|done]. by exists value.
    + intros Hok. right. split.
      * intros key' v' (value' & Hd' & Hv'). congruence.
      * destruct e; try done; by injection Hok as <-.
  - rewrite c_header_line_other by done. intros [= <-]. right.
    split; [|done]. intros key v (value & Hd & _).
    unfold define_of in Hd. by rewrite Hs in Hd.
Qed.

(** A header that is parsed gives a key the value of the last
    [#define] of the key whose value text evaluates: a later
    definition replaces an earlier one, and a later definition whose
    value does not evaluate leaves the earlier value in place. *)
Theorem parse_c_header_defines_last file_content config :
  parse_c_header_defines file_content = Ok config ->
  ∀ key v, config !! key = Some v ↔
           last_sets defines (split NL file_content) key v.
Proof.
  intros Hrun key v.
  rewrite (for_each_last_sets c_header_line defines defines_fun
             c_header_line_sets _ _ _ Hrun).
  split; [|by left]. intros [?|[Hk _]]; [done|].
  by rewrite lookup_empty in Hk.
Qed.

Lemma define_of_none line :
  startswith "#define" line = true ->
  define_of line = None ↔ ∃ first, split_ws 2 line = [first].
Proof.
  intros Hs. unfold define_of. rewrite Hs.
  destruct (split_ws_define line Hs) as (first & key_value & Hw).
  pose proof (split_ws_length 2 line) as Hlen. rewrite Hw in *.
  destruct key_value as [|key [|value [|x l]]]; cbn [length] in Hlen.
  - split; [eauto|done].
  - split; [done|]. by intros [? [=]].
  - split; [done|]. by intros [? [=]].
  - lia.
Qed.

Lemma c_header_line_raise_iff config line e :
  c_header_line config line = Raise e ↔ define_raises line e.
Proof.
  unfold define_raises.
  destruct (startswith "#define" line) eqn:Hs.
  2:{ rewrite c_header_line_other by done. split; [done|]. by intros [? _]. }
  rewrite c_header_line_define by done.
  pose proof (define_of_none line Hs) as Hnone.
  destruct (define_of line) as [[key value]|] eqn:Hd.
  - assert (¬ ∃ first, split_ws 2 line = [first]) as Hfirst.
    { intros Hf. by apply Hnone in Hf. }
    destruct (literal_eval value) as [v|e'] eqn:Hv.
    + split; [done|]. intros [_ [[_ Hf]|(k & t & [= <- <-] & Ht & _)]];
        [done|congruence].
    + split.
      * intros He. split; [done|]. right. exists key, value.
        by destruct e'; simplify_eq.
      * intros [_ [[_ Hf]|(k & t & [= <- <-] & Ht & Hn1 & Hn2)]]; [done|].
        rewrite Hv in Ht. injection Ht as ->. by destruct e.
  - split.
    + intros [= <-]. split; [done|]. left. split; [done|]. by apply Hnone.
    + by intros [_ [[-> _]|(k & t & [=] & _)]].
Qed.

(** What the header parser raises, whatever [ast.literal_eval] does: it
    raises [e] exactly when the first line of the text that makes it
    raise makes it raise [e], where a line makes it raise [ValueError]
    when it starts with [#define] and has nothing after its first
    item, and makes it raise the exception of [ast.literal_eval] on its
    value when that exception is neither [ValueError] nor
    [SyntaxError]; and it returns exactly when no line is of these two
    kinds. *)
Theorem parse_c_header_defines_outcome file_content :
  (∀ e, parse_c_header_defines file_content = Raise e ↔
        ∃ pre line post,
          split NL file_content = pre ++ line :: post ∧
          define_raises line e ∧
          ∀ l e', l ∈ pre -> ¬ define_raises l e') ∧
  ((∃ config, parse_c_header_defines file_content = Ok config) ↔
   ∀ line e, line ∈ split NL file_content -> ¬ define_raises line e).
Proof.
  assert (∀ e, parse_c_header_defines file_content = Raise e ↔
               ∃ pre line post,
                 split NL file_content = pre ++ line :: post ∧
                 define_raises line e ∧
                 ∀ l e', l ∈ pre -> ¬ define_raises l e') as Hraise.
  { intros e. apply (for_each_raise_first c_header_line define_raises).
    apply c_header_line_raise_iff. }
  split; [done|]. split.
  - intros [config Hrun] line e.
    apply (for_each_ok_all c_header_line define_raises) with ∅ config;
      [|done].
    intros acc x e'. apply c_header_line_raise_iff.
  - intros Hnone.
    destruct (parse_c_header_defines file_content) as [config|e] eqn:Hrun;
      [by exists config|].
    destruct (proj1 (Hraise e) eq_refl) as (pre & line & post & E & Hline & _).
    destruct (Hnone line e); [|done].
    rewrite E. apply elem_of_app. right. apply list_elem_of_here.
Qed.

(** An exception of [ast.literal_eval] that is neither a [ValueError]
    nor a [SyntaxError] is not handled: the line raises it, and so does
    the parse of a text in which no line before it raises. *)
Theorem c_header_other_exception_raised file_content pre line post key
    value e config :
  split NL file_content = pre ++ line :: post ->
  for_each c_header_line pre ∅ = Ok config ->
  define_of line = Some (key, value) ->
  literal_eval value = Raise e ->
  e ≠ ValueError -> e ≠ SyntaxError ->
  parse_c_header_defines file_content = Raise e.
Proof.
  intros E Hpre Hd Hv Hne1 Hne2.
  assert (startswith "#define" line = true) as Hs.
  { unfold define_of in Hd. by destruct (startswith "#define" line). }
  unfold parse_c_header_defines. rewrite E, for_each_app, Hpre.
  cbn [Py.bind for_each]. rewrite c_header_line_define, Hd, Hv by done.
  by destruct e.
Qed.
End HeaderOutcome.

Lemma parse_c_header_defines_last_witness :
  @parse_c_header_defines Sample.literal_eval_sample
    (lines ["#define A 1"; "#define A 2"; "#define A two"; "#define A"])
  = Ok (<["A" := PyInt 2]> ∅) ∧
  (<["A" := PyInt 2]> ∅ : gmap string pyval) !! "A" = Some (PyInt 2).
Proof.
  split; [reflexivity|].
  apply (@parse_c_header_defines_last Sample.literal_eval_sample
           (lines ["#define A 1"; "#define A 2"; "#define A two";
                   "#define A"]) _ eq_refl).
  exists ["#define A 1"], "#define A 2", ["#define A two"; "#define A"].
  split; [reflexivity|]. split; [by exists (Some "2")|].
  intros l' v' Hin (value & Hd & Hv).
  repeat (apply elem_of_cons in Hin as [->|Hin];
          [injection Hd as <-; by vm_compute in Hv|]).
  by apply elem_of_nil in Hin.
Defined.

Lemma parse_c_header_defines_outcome_witness :
  @parse_c_header_defines Sample.literal_eval_sample
    (lines ["#define A 1"; "#define"; "#define B 2"]) = Raise ValueError.
Proof.
  destruct (@parse_c_header_defines_outcome Sample.literal_eval_sample
              (lines ["#define A 1"; "#define"; "#define B 2"]))
    as [Hraise _].
  apply Hraise. exists ["#define A 1"], "#define", ["#define B 2"].
  split; [reflexivity|]. split.
  - split; [done|]. left. split; [done|]. by exists "#define".
  - intros l e' ->%list_elem_of_singleton [_ [[_ [first Hf]]|Hv]]; [done|].
    destruct Hv as (key & value & [= <- <-] & Hv & _). by vm_compute in Hv.
Defined.

Lemma c_header_other_exception_raised_witness :
  @parse_c_header_defines
    (fun value => match value with
                  | Some "1" => Ok (PyInt 1)
                  | _ => Raise (OtherError "RecursionError")
                  end)
    (lines ["#define A 1"; "#define B ((((1))))"; "#define C 1"])
  = Raise (OtherError "RecursionError").
Proof.
  by apply (@c_header_other_exception_raised _ _ ["#define A 1"]
              "#define B ((((1))))" ["#define C 1"] "B" (Some "((((1))))")
              _ (<["A" := PyInt 1]> ∅)).
Defined.

(** *** The version of a properties file *)

Lemma last_sets_or_none {L V} (sets : L -> string -> V -> Prop) k
    (sets_dec : ∀ l, (∃ v, sets l k v) ∨ (∀ v, ¬ sets l k v)) ls :
  (∃ v, last_sets sets ls k v) ∨ (∀ l v, l ∈ ls -> ¬ sets l k v).
Proof.
  induction ls as [|l ls [(v & pre & l1 & post & -> & Hl1 & Hpost)|Hnone]].
  - right. intros l v Hin. by apply elem_of_nil in Hin.
  - left. exists v. by exists (l :: pre), l1, post.
  - destruct (sets_dec l) as [[v Hv]|Hno].
    + left. exists v. by exists [], l, ls.
    + right. intros l' v [->|Hin]%elem_of_cons; [apply Hno|by apply Hnone].
Qed.

Lemma is_property_dec line k :
  (∃ toks, is_property line k toks) ∨ (∀ toks, ¬ is_property line k toks).
Proof.
  destruct (String.eqb_spec (strip line) "") as [He|He].
  { right. by intros toks (Hne & _). }
  destruct (startswith "#" (strip line)) eqn:Hc.
  { right. intros toks (_ & Hc' & _). congruence. }
  destruct (contains EQ (strip line)) eqn:Hq.
  - destruct (contains_split _ _ Hq) as (a & b & E & Ha).
    assert (is_property line (strip a) (tokenize b)) as Hp.
    { repeat split; try done. by exists a, b. }
    destruct (decide (k = strip a)) as [->|Hne]; [by eauto|].
    right. intros toks Hp'.
    by destruct (is_property_fun _ _ _ _ _ Hp Hp').
  - right. intros toks (_ & _ & a & b & E & _).
    by rewrite E, contains_app in Hq.
Qed.

Lemma tokens_of_nil n : ∀ value current,
  (String.length value <= n)%nat ->
  tokens_of current value = [] -> current = "" ∧ value = "".
Proof.
  induction n as [|n IH]; intros value current Hlen.
  - destruct value; [|cbn in Hlen; lia]. rewrite tokens_of_end.
    by destruct (String.eqb_spec current "").
  - destruct value as [|c r].
    { rewrite tokens_of_end. by destruct (String.eqb_spec current ""). }
    cbn [String.length] in Hlen. cbn [tokens_of].
    assert (∀ s c', s +:+ String c' "" ≠ "") as Hsnoc.
    { intros [|??] ?; by rewrite ?append_nil_l, ?append_cons. }
    destruct r as [|c2 r2].
    + destruct (Ascii.eqb c SP); [done|].
      intros [? _]%IH; [|cbn; lia]. by destruct (Hsnoc current c).
    + destruct (Ascii.eqb c BS && Ascii.eqb c2 BS).
      * intros [? _]%IH; [|cbn in *; lia]. by destruct (Hsnoc current " "%char).
      * destruct (Ascii.eqb c SP); [done|].
        intros [? _]%IH; [|cbn in *; lia]. by destruct (Hsnoc current c).
Qed.

Lemma tokenize_nil value : tokenize value = [] ↔ value = "".
Proof.
  rewrite tokenize_tokens_of. split; [|by intros ->].
  intros Hnil. by apply (tokens_of_nil (String.length value) value "").
Qed.

(** The expression [parse_properties_file(text)["version"][0]] on a text
    that parses: it raises [KeyError] when no line sets [version],
    [IndexError] when the last line that sets it has no token, and is
    the first token of that line otherwise; a line has no token exactly
    when nothing follows its [=]. *)
Theorem esf_version_outcome fs p file_content props :
  fs_read_text fs p = Ok file_content ->
  parse_properties_file file_content = Ok props ->
  (run_result (esf_version fs p) = Raise KeyError ↔
   ∀ line toks, line ∈ split NL file_content ->
                ¬ is_property line "version" toks) ∧
  (run_result (esf_version fs p) = Raise IndexError ↔
   last_sets is_property (split NL file_content) "version" []) ∧
  (∀ v, run_result (esf_version fs p) = Ok v ↔
        ∃ toks, last_sets is_property (split NL file_content) "version"
                  (v :: toks)) ∧
  (∀ line k, is_property line k [] ↔
             strip line ≠ "" ∧ startswith "#" (strip line) = false ∧
             ∃ a, strip line = a +:+ String EQ "" ∧ contains EQ a = false ∧
                  k = strip a).
Proof.
  intros Hread Hparse.
  pose proof (parse_properties_file_lookup file_content props Hparse
                "version") as Hok.
  assert (∀ toks toks',
            last_sets is_property (split NL file_content) "version" toks ->
            last_sets is_property (split NL file_content) "version" toks' ->
            toks = toks') as Hfun.
  { intros toks toks' H1%Hok H2%Hok. congruence. }
  rewrite esf_version_result. unfold esf_version_of, getitem.
  rewrite Hread. result_simpl. rewrite Hparse. cbn [Py.bind].
  destruct (props !! "version") as [toks|] eqn:Hv; cbn [Py.bind].
  - pose proof (proj1 (Hok toks) eq_refl) as Hl0. clear Hv. rename Hl0 into Hv.
    split_and!.
    + split.
      * by destruct toks.
      * intros Hnone. destruct Hv as (pre & l & post & E & Hl & _).
        destruct (Hnone l toks); [|done].
        rewrite E. apply elem_of_app. right. apply list_elem_of_here.
    + split.
      * destruct toks; [done|]. intros [=].
      * intros Hnil. by rewrite (Hfun _ _ Hv Hnil).
    + intros v. split.
      * destruct toks as [|t toks]; [done|]. intros [= <-]. by exists toks.
      * intros [toks' Hv']. by rewrite (Hfun _ _ Hv Hv').
    + intros line k. split.
      * intros (Hne & Hc & a & b & E & Ha & -> & Hb).
        symmetry in Hb. apply tokenize_nil in Hb as ->. by eauto 10.
      * intros (Hne & Hc & a & E & Ha & ->). repeat split; try done.
        by exists a, "".
  - assert (∀ toks, ¬ last_sets is_property (split NL file_content)
                        "version" toks) as Hnone.
    { intros toks Hl%Hok. done. }
    split_and!.
    + split; [|done]. intros _.
      destruct (last_sets_or_none is_property "version"
                  (λ l, is_property_dec l "version")
                  (split NL file_content)) as [[toks Hl]|Hno]; [|done].
      by destruct (Hnone toks).
    + split; [done|]. intros Hl. by destruct (Hnone []).
    + intros v. split; [done|]. intros [toks Hl]. by destruct (Hnone (v :: toks)).
    + intros line k. split.
      * intros (Hne & Hc & a & b & E & Ha & -> & Hb).
        symmetry in Hb. apply tokenize_nil in Hb as ->. by eauto 10.
      * intros (Hne & Hc & a & E & Ha & ->). repeat split; try done.
        by exists a, "".
Qed.

Lemma esf_version_outcome_witness :
  run_result (esf_version (sample_fs None)
                ["sdk"; "protocol"; "zigbee"; "esf.properties"])
  = Ok "7.4.0.0".
Proof.
  destruct (esf_version_outcome (sample_fs None)
              ["sdk"; "protocol"; "zigbee"; "esf.properties"]
              (lines ["# Zigbee"; "id=zigbee"; "version=7.4.0.0 GA"])
              (<["version" := ["7.4.0.0"; "GA"] ]>
                 (<["id" := ["zigbee"] ]> ∅))
              eq_refl eq_refl) as (_ & _ & Hok & _).
  apply Hok. exists ["GA"].
  exists ["# Zigbee"; "id=zigbee"], "version=7.4.0.0 GA", [].
  split; [reflexivity|]. split.
  - split; [done|]. split; [done|]. by exists "version", "7.4.0.0 GA".
  - intros l' v' Hin. by apply elem_of_nil in Hin.
Defined.

(** *** The file locator, continued *)

Lemma parent_snoc (d : path) (f : string) : parent (d ++ [f]) = d.
Proof. apply removelast_last. Qed.

(** A path the locator returns exists, is the file name in its parent
    directory, and that directory is the starting directory or one
    above it; the locator started in that directory (a resolved path)
    returns the same path. *)
Theorem find_file_in_parent_dirs_found fs root filename p :
  find_file_in_parent_dirs fs root filename = Some (Ok p) ->
  fs_exists fs p = true ∧ p = parent p ++ [filename] ∧
  (∃ k, parent p = ancestor k (fs_resolve fs root)) ∧
  (fs_resolve fs (parent p) = parent p ->
   find_file_in_parent_dirs fs (parent p) filename = Some (Ok p)).
Proof.
  unfold find_file_in_parent_dirs.
  destruct (find_file_loop_nearest fs filename
              (S (length (fs_resolve fs root))) (fs_resolve fs root))
    as [(k & _ & Hex & _ & ->)|[_ ->]]; [lia| |done].
  intros [= <-]. rewrite parent_snoc. split_and!; [done|done|by exists k|].
  intros ->. cbn [find_file_loop]. by rewrite Hex.
Qed.

Lemma find_file_in_parent_dirs_found_witness :
  find_file_in_parent_dirs sample_tree ["a"] "proj.slcp"
  = Some (Ok ["a"; "proj.slcp"]).
Proof.
  destruct (find_file_in_parent_dirs_found sample_tree ["a"; "b"; "c"]
              "proj.slcp" ["a"; "proj.slcp"] eq_refl) as (_ & _ & _ & Hagain).
  exact (Hagain eq_refl).
Defined.

(** *** The reads of the metadata stage *)

Lemma run_bind_reads {A B} (m : run A) (f : A -> run B) :
  run_reads (m ≫= f) =
  run_reads m ++ match run_result m with
                 | Ok a => run_reads (f a)
                 | Raise _ => []
                 end.
Proof.
  unfold mbind, run_bind. destruct (run_result m); [done|].
  by rewrite app_nil_r.
Qed.

Lemma reads_within_ret {A} (a : A) : reads_within (mret a) [].
Proof. by split. Qed.

Lemma reads_within_pure {A} (r : result A) : reads_within (pure_step r) [].
Proof. by split. Qed.

Lemma reads_within_read fs p : reads_within (read_text fs p) [p].
Proof. by split. Qed.

Lemma reads_within_bind {A B} (m : run A) (f : A -> run B) files1 files2 :
  reads_within m files1 -> (∀ a, reads_within (f a) files2) ->
  reads_within (m ≫= f) (files1 ++ files2).
Proof.
  intros [Hpre1 Hall1] Hf. unfold reads_within.
  rewrite run_bind_reads, run_bind_result.
  destruct (run_result m) as [a|e].
  - destruct (Hf a) as [Hpre2 Hall2]. rewrite (Hall1 a) by done. split.
    + by apply prefix_app.
    + intros b Hb. by rewrite (Hall2 b).
  - rewrite app_nil_r. split; [by apply prefix_app_r|done].
Qed.

Lemma reads_within_bind_pure {A B} (m : run A) (f : A -> run B) files :
  reads_within m files -> (∀ a, reads_within (f a) []) ->
  reads_within (m ≫= f) files.
Proof.
  intros Hm Hf. rewrite <- (app_nil_r files). by apply reads_within_bind.
Qed.

Section Reads.
Context `{LiteralEval}.
Variable fs : filesystem.
Variable i : inputs.

Lemma reads_within_header p :
  reads_within (text ← read_text fs p;
                pure_step (parse_c_header_defines text)) [p].
Proof.
  apply reads_within_bind_pure; [apply reads_within_read|].
  intros text. apply reads_within_pure.
Qed.

Lemma reads_within_esf_version p : reads_within (esf_version fs p) [p].
Proof.
  unfold esf_version.
  apply reads_within_bind_pure; [apply reads_within_read|]. intros text.
  apply reads_within_bind_pure; [apply reads_within_pure|]. intros props.
  apply reads_within_bind_pure; [apply reads_within_pure|]. intros version.
  apply reads_within_pure.
Qed.

Lemma reads_within_base : reads_within (base_metadata i) [].
Proof.
  unfold base_metadata.
  apply (reads_within_bind_pure _ _ []); [apply reads_within_pure|].
  intros fw_type.
  apply (reads_within_bind_pure _ _ []); [apply reads_within_pure|].
  intros baudrate. apply reads_within_ret.
Qed.

Lemma reads_within_ezsp md :
  reads_within (ezsp_step fs i md)
    (if declared "ezsp_version" (gbl_dynamic i)
     then [gsdk_path i ++ zigbee_esf] else []).
Proof.
  unfold ezsp_step. destruct (declared _ _); [|apply reads_within_ret].
  apply reads_within_bind_pure; [apply reads_within_esf_version|].
  intros v. apply reads_within_ret.
Qed.

Lemma reads_within_zwave md :
  reads_within (zwave_step fs i md)
    (if declared "zwave_version" (gbl_dynamic i)
     then [gsdk_path i ++ zwave_esf] else []).
Proof.
  unfold zwave_step. destruct (declared _ _); [|apply reads_within_ret].
  apply reads_within_bind_pure; [apply reads_within_esf_version|].
  intros v. apply reads_within_ret.
Qed.

Lemma reads_within_ot_rcp md :
  reads_within (ot_rcp_step fs i md)
    (if declared "ot_rcp_version" (gbl_dynamic i)
     then [project_root i ++ openthread_config] else []).
Proof.
  unfold ot_rcp_step. destruct (declared _ _); [|apply reads_within_ret].
  apply reads_within_bind_pure; [apply reads_within_read|]. intros text.
  apply reads_within_bind_pure; [apply reads_within_pure|]. intros h.
  apply reads_within_bind_pure; [apply reads_within_pure|]. intros v.
  apply reads_within_ret.
Qed.

Lemma reads_within_gecko_bootloader md :
  reads_within (gecko_bootloader_step fs i md)
    (if declared "gecko_bootloader_version" (gbl_dynamic i)
     then [gsdk_path i ++ btl_config] else []).
Proof.
  unfold gecko_bootloader_step.
  destruct (declared _ _); [|apply reads_within_ret].
  apply reads_within_bind_pure; [apply reads_within_read|]. intros text.
  apply reads_within_bind_pure; [apply reads_within_pure|]. intros h.
  apply reads_within_bind_pure; [apply reads_within_pure|]. intros v.
  apply reads_within_ret.
Qed.

(** The guarded read of the secondary header reads that one file
    whatever comes of it. *)
Lemma reads_within_optional_header p :
  reads_within
    (except_FileNotFoundError
       (text ← read_text fs p; pure_step (parse_c_header_defines text))
       (mret ∅)) [p].
Proof.
  assert (run_reads (text ← read_text fs p;
                     pure_step (parse_c_header_defines text)) = [p])
    as Hreads.
  { rewrite run_bind_reads. cbn [read_text run_reads run_result].
    by destruct (fs_read_text fs p). }
  unfold except_FileNotFoundError, reads_within.
  destruct (run_result _) as [h|e] eqn:Hres.
  - by rewrite Hreads.
  - destruct e; cbn [run_reads run_result mret run_ret];
      rewrite ?Hreads, ?Hres; try done.
Qed.

Lemma reads_within_cpc md :
  reads_within (cpc_step fs i md)
    (if declared "cpc_version" (gbl_dynamic i)
     then [gsdk_path i ++ gsdk_version_h;
           project_root i ++ internal_app_config] else []).
Proof.
  unfold cpc_step. destruct (declared _ _); [|apply reads_within_ret].
  apply (reads_within_bind _ _ [_] [_]); [apply reads_within_read|].
  intros text.
  apply (reads_within_bind _ _ [] [_]); [apply reads_within_pure|].
  intros h.
  apply (reads_within_bind _ _ [] [_]); [apply reads_within_pure|].
  intros cpc.
  apply reads_within_bind_pure; [apply reads_within_optional_header|].
  intros internal. destruct (internal !! _).
  - apply (reads_within_bind_pure _ _ []); [apply reads_within_pure|].
    intros cpc'. apply reads_within_ret.
  - apply reads_within_ret.
Qed.

Lemma reads_within_resolve_metadata :
  reads_within (resolve_metadata fs i) (files_read i).
Proof.
  unfold resolve_metadata, files_read.
  apply (reads_within_bind _ _ []); [apply reads_within_base|]. intros md0.
  apply reads_within_bind; [apply reads_within_ezsp|]. intros md1.
  apply reads_within_bind; [apply reads_within_cpc|]. intros md2.
  apply reads_within_bind; [apply reads_within_zwave|]. intros md3.
  apply reads_within_bind; [apply reads_within_ot_rcp|]. intros md4.
  apply reads_within_gecko_bootloader.
Qed.
End Reads.

(** The metadata stage reads the files of the declared fields and no
    other, each once and in the order of the steps; it reads all of them
    when it produces a record, and when a step raises nothing after the
    file of that step is read.  With no known field declared it reads no
    file. *)
Theorem resolve_metadata_reads `{LiteralEval} fs i :
  run_reads (resolve_metadata fs i) `prefix_of` files_read i ∧
  (∀ md, run_result (resolve_metadata fs i) = Ok md ->
         run_reads (resolve_metadata fs i) = files_read i) ∧
  ((∀ name, name ∈ recognized_names ->
            declared name (gbl_dynamic i) = false) ->
   run_reads (resolve_metadata fs i) = []).
Proof.
  destruct (reads_within_resolve_metadata fs i) as [Hpre Hall].
  split_and!; [done|done|].
  intros Hnone. apply prefix_nil_inv. revert Hpre. unfold files_read.
  by rewrite !Hnone
    by (unfold recognized_names;
        repeat first [apply list_elem_of_here|apply list_elem_of_further]).
Qed.

Lemma resolve_metadata_reads_witness :
  run_reads (@resolve_metadata Sample.literal_eval_sample (sample_fs None)
               (sample_inputs [PyStr "zwave_version"; PyStr "cpc_version";
                               PyStr "bogus"]))
  = [ ["sdk"; "platform"; "common"; "inc"; "sl_gsdk_version.h"];
      ["proj"; "config"; "internal_app_config.h"];
      ["sdk"; "protocol"; "z-wave"; "esf.properties"] ]
  ∧ run_reads (@resolve_metadata Sample.literal_eval_sample (sample_fs None)
                 (sample_inputs [PyStr "ot_rcp_version";
                                 PyStr "gecko_bootloader_version"]))
    `prefix_of` [ ["proj"; "config"; "sl_openthread_generic_config.h"];
                  ["sdk"; "platform"; "bootloader"; "config"; "btl_config.h"] ].
Proof.
  split; [reflexivity|].
  by destruct (@resolve_metadata_reads Sample.literal_eval_sample
                 (sample_fs None)
                 (sample_inputs [PyStr "ot_rcp_version";
                                 PyStr "gecko_bootloader_version"]))
    as (Hpre & _).
Defined.

(** *** The settings of [gbl_metadata.yaml] *)

(** Without [fw_type] or without [baudrate] in the settings the run
    raises [KeyError] before any file is read, whatever is declared. *)
Theorem base_metadata_missing_key `{LiteralEval} `{JsonDumps} fs i gbl_file
    out_file device_part_id metadata_json :
  gbl_fields i !! "fw_type" = None ∨ gbl_fields i !! "baudrate" = None ->
  resolve_metadata fs i = Run [] (Raise KeyError) ∧
  create_gbl fs i gbl_file out_file device_part_id metadata_json
  = Run [] (Raise KeyError).
Proof.
  intros Hmissing.
  assert (base_metadata i = Run [] (Raise KeyError)) as Hbase.
  { unfold base_metadata, getitem, pure_step.
    destruct Hmissing as [-> | Hb]; [done|].
    destruct (gbl_fields i !! "fw_type"); [|done]. by rewrite Hb. }
  assert (resolve_metadata fs i = Run [] (Raise KeyError)) as Hrun.
  { unfold resolve_metadata. by rewrite Hbase. }
  split; [done|]. unfold create_gbl. by rewrite Hrun.
Qed.

Lemma base_metadata_missing_key_witness :
  @resolve_metadata Sample.literal_eval_sample (sample_fs None)
    {| sdk_version := PyStr "4.4.0";
       gbl_fields := <["fw_type" := PyStr "zigbee_ncp"]> ∅;
       gbl_dynamic_entry := Some [PyStr "cpc_version"];
       gsdk_path := ["sdk"];
       project_root := ["proj"];
       sys_platform := "linux";
       environ := ∅ |}
  = Run [] (Raise KeyError).
Proof.
  by destruct (@base_metadata_missing_key Sample.literal_eval_sample
                 sample_json_dumps (sample_fs None)
                 {| sdk_version := PyStr "4.4.0";
                    gbl_fields := <["fw_type" := PyStr "zigbee_ncp"]> ∅;
                    gbl_dynamic_entry := Some [PyStr "cpc_version"];
                    gsdk_path := ["sdk"];
                    project_root := ["proj"];
                    sys_platform := "linux";
                    environ := ∅ |} [] [] "" []
                 ltac:(by right)) as [Hrun _].
Defined.

(** *** After the metadata stage *)






(** *** The suffix of the CPC version *)

(** When the secondary header defines the suffix as anything but a
    string, [+=] on the version string raises [TypeError]: the CPC step
    raises it and no record is produced. *)
Theorem cpc_suffix_not_a_string `{LiteralEval} fs i h v h' suffix :
  declared "cpc_version" (gbl_dynamic i) = true ->
  header_of fs (gsdk_path i ++ gsdk_version_h) = Ok h ->
  dotted h "SL_GSDK_MAJOR_VERSION" "SL_GSDK_MINOR_VERSION"
    "SL_GSDK_PATCH_VERSION" = Ok v ->
  header_of fs (project_root i ++ internal_app_config) = Ok h' ->
  h' !! "CPC_SECONDARY_APP_VERSION_SUFFIX" = Some suffix ->
  (∀ s, suffix ≠ PyStr s) ->
  (∀ md, run_result (cpc_step fs i md) = Raise TypeError) ∧
  ∃ e, run_result (resolve_metadata fs i) = Raise e.
Proof.
  intros Hdecl Hh Hv Hh' Hsuffix Hne.
  assert (∀ md, run_result (cpc_step fs i md) = Raise TypeError) as Hstep.
  { intros md. rewrite (cpc_step_suffix_header fs i h v) by done.
    rewrite Hh', Hsuffix. destruct suffix; try done. by destruct (Hne s). }
  split; [done|]. apply raises_or_ok.
  intros md (md0 & md1 & md2 & md3 & md4 & _ & _ & H2 & _)%resolve_metadata_ok.
  by rewrite Hstep in H2.
Qed.

Lemma cpc_suffix_not_a_string_witness :
  run_result (@cpc_step Sample.literal_eval_sample
                (sample_fs (Some "#define CPC_SECONDARY_APP_VERSION_SUFFIX 1"))
                (sample_inputs [PyStr "cpc_version"]) ∅)
  = Raise TypeError.
Proof.
  pose (h := <["SL_GSDK_PATCH_VERSION" := PyInt 0]>
               (<["SL_GSDK_MINOR_VERSION" := PyInt 2]>
                 (<["SL_GSDK_MAJOR_VERSION" := PyInt 4]>
                   (∅ : gmap string pyval)))).
  destruct (@cpc_suffix_not_a_string Sample.literal_eval_sample
              (sample_fs (Some "#define CPC_SECONDARY_APP_VERSION_SUFFIX 1"))
              (sample_inputs [PyStr "cpc_version"]) h "4.2.0"
              (<["CPC_SECONDARY_APP_VERSION_SUFFIX" := PyInt 1]> ∅) (PyInt 1)
              eq_refl eq_refl eq_refl eq_refl eq_refl ltac:(done))
    as [Hstep _].
  apply Hstep.
Defined.

(** *** White space at the ends of a string *)

Lemma lstrip_length s : (String.length (lstrip s) <= String.length s)%nat.
Proof.
  induction s as [|c s IH]; [done|]. cbn [lstrip].
  destruct (isspace c); cbn [String.length] in *; lia.
Qed.

Lemma rstrip_length s : (String.length (rstrip s) <= String.length s)%nat.
Proof.
  induction s as [|c s IH]; [done|]. cbn [rstrip].
  destruct (rstrip s); [destruct (isspace c)|];
    cbn [String.length] in *; lia.
Qed.

Lemma lstrip_fixed s :
  lstrip s = s -> s = "" ∨ ∃ c r, s = String c r ∧ isspace c = false.
Proof.
  destruct s as [|c r]; [by left|]. cbn [lstrip].
  destruct (isspace c) eqn:Hc; [|by eauto].
  intros Hr. pose proof (lstrip_length r) as Hlen. rewrite Hr in Hlen.
  cbn [String.length] in Hlen. lia.
Qed.

Lemma lstrip_cons c r : isspace c = false -> lstrip (String c r) = String c r.
Proof. intros Hc. cbn [lstrip]. by rewrite Hc. Qed.

Lemma rstrip_cons_nonspace c r :
  isspace c = false -> ∃ r', rstrip (String c r) = String c r'.
Proof.
  intros Hc. cbn [rstrip]. rewrite Hc. destruct (rstrip r); eauto.
Qed.

Lemma rstrip_idem s : rstrip (rstrip s) = rstrip s.
Proof.
  induction s as [|c s IH]; [done|]. cbn [rstrip].
  destruct (rstrip s) as [|d r'] eqn:Hr.
  - destruct (isspace c) eqn:Hc; [done|]. cbn [rstrip]. by rewrite Hc.
  - cbn [rstrip] in *. by rewrite IH.
Qed.

Lemma strip_idem s : strip (strip s) = strip s.
Proof.
  unfold strip. destruct (lstrip s) as [|c r] eqn:Hs; [done|].
  assert (isspace c = false) as Hc.
  { clear -Hs. induction s as [|d s IH]; [done|]. cbn [lstrip] in Hs.
    destruct (isspace d) eqn:Hd; [by apply IH|]. by injection Hs as <- _. }
  destruct (rstrip_cons_nonspace c r Hc) as [r' Hr]. rewrite Hr.
  rewrite lstrip_cons by done. by rewrite <- Hr, rstrip_idem.
Qed.

Lemma strip_fixed s : strip s = s -> lstrip s = s ∧ rstrip s = s.
Proof.
  intros Hs. assert (lstrip s = s) as Hl.
  { pose proof (rstrip_length (lstrip s)) as H1.
    unfold strip in Hs. rewrite Hs in H1.
    destruct s as [|c r]; [done|]. cbn [lstrip] in *.
    destruct (isspace c); [|done].
    pose proof (lstrip_length r) as H2. cbn [String.length] in H1. lia. }
  split; [done|]. unfold strip in Hs. by rewrite Hl in Hs.
Qed.

Lemma rstrip_app b :
  rstrip b = b -> b ≠ "" -> ∀ a, rstrip (a +:+ b) = a +:+ b.
Proof.
  intros Hb Hne a. induction a as [|c a IH]; [by rewrite append_nil_l|].
  rewrite append_cons. cbn [rstrip]. rewrite IH.
  destruct (a +:+ b) eqn:Hab; [|done].
  destruct a; [by rewrite append_nil_l in Hab|by rewrite append_cons in Hab].
Qed.

Lemma rstrip_eq v : rstrip v = v -> rstrip (String EQ v) = String EQ v.
Proof. intros Hv. cbn [rstrip]. rewrite Hv. by destruct v. Qed.

Lemma contains_append c a b :
  contains c (a +:+ b) = contains c a || contains c b.
Proof.
  induction a as [|d a IH]; [by rewrite append_nil_l|].
  rewrite append_cons. cbn [contains]. by rewrite IH, orb_assoc.
Qed.

Lemma contains_lstrip c s : contains c (lstrip s) = true -> contains c s = true.
Proof.
  induction s as [|d s IH]; [done|]. cbn [lstrip].
  destruct (isspace d); [|done]. intros Hs%IH. cbn [contains].
  by rewrite Hs, orb_true_r.
Qed.

Lemma contains_rstrip c s : contains c (rstrip s) = true -> contains c s = true.
Proof.
  induction s as [|d s IH]; [done|]. cbn [rstrip contains].
  destruct (rstrip s) as [|e r'] eqn:Hr.
  - destruct (isspace d); [done|]. cbn [contains].
    rewrite orb_false_r. by intros ->.
  - change (contains c (String d (String e r')))
      with (Ascii.eqb d c || contains c (String e r')).
    intros [->|Hs%IH]%orb_true_iff; [done|]. by rewrite Hs, orb_true_r.
Qed.

Lemma contains_strip c s : contains c s = false -> contains c (strip s) = false.
Proof.
  intros Hs. destruct (contains c (strip s)) eqn:Hc; [|done].
  apply contains_rstrip, contains_lstrip in Hc. congruence.
Qed.

(** *** Lines *)

Lemma split_app_sep c a b :
  contains c a = false -> split c (a +:+ String c b) = a :: split c b.
Proof.
  induction a as [|d a IH]; intros Ha.
  - rewrite append_nil_l. cbn [split]. by rewrite Ascii.eqb_refl.
  - cbn [contains] in Ha. apply orb_false_iff in Ha as [Hd Ha].
    rewrite append_cons. cbn [split]. by rewrite Hd, IH.
Qed.

Lemma split_lines l ls :
  (∀ l', l' ∈ l :: ls -> contains NL l' = false) ->
  split NL (lines (l :: ls)) = l :: ls.
Proof.
  revert l. induction ls as [|l2 ls IH]; intros l Hnl.
  - apply split_no_sep, Hnl, list_elem_of_here.
  - change (lines (l :: l2 :: ls)) with (l +:+ String NL (lines (l2 :: ls))).
    rewrite split_app_sep by (apply Hnl, list_elem_of_here).
    f_equal. apply IH. intros l' Hl'. by apply Hnl, list_elem_of_further.
Qed.

Lemma split_no_newline c s l : l ∈ split c s -> contains c l = false.
Proof.
  revert l. induction s as [|d s IH]; intros l.
  - by intros ->%list_elem_of_singleton.
  - cbn [split]. destruct (Ascii.eqb d c) eqn:Hd.
    + intros [->|Hl]%elem_of_cons; [done|by apply IH].
    + destruct (split_cons c s) as (h & t & Hs). rewrite Hs in *.
      cbn [cons_head]. intros [->|Hl]%elem_of_cons.
      * cbn [contains]. rewrite Hd. apply IH, list_elem_of_here.
      * by apply IH, list_elem_of_further.
Qed.

(** *** What [parse_simple_config] returns, and writing it back *)

Lemma is_entry_plain line k v :
  contains NL line = false -> is_entry line k v -> plain_key k ∧ plain_value v.
Proof.
  intros Hnl (Hne & Hc & a & b & E & Ha & -> & ->).
  pose proof (contains_strip NL line Hnl) as Hnl'. rewrite E in Hnl'.
  rewrite contains_append in Hnl'. apply orb_false_iff in Hnl' as [Hnla Hnlb].
  cbn [contains] in Hnlb. apply orb_false_iff in Hnlb as [_ Hnlb].
  split; [|split; [apply strip_idem|by apply contains_strip]].
  split_and!; [apply strip_idem|by apply contains_strip
              |by apply contains_strip|].
  pose proof (strip_idem line) as Hidem. apply strip_fixed in Hidem as [Hl _].
  rewrite E in Hl, Hc.
  destruct a as [|c a]; [done|]. rewrite append_cons in Hl, Hc.
  apply lstrip_fixed in Hl as [?|(c' & r' & [= <- <-] & Hsp)]; [done|].
  unfold strip. rewrite lstrip_cons by done.
  destruct (rstrip_cons_nonspace c a Hsp) as [r' ->].
  unfold startswith in *. cbn [String.prefix] in *.
  destruct (Ascii.ascii_dec "#" c); [|done]. by destruct a.
Qed.

Lemma simple_config_entry_plain file_content config k v :
  parse_simple_config file_content = Ok config ->
  config !! k = Some v ->
  plain_key k ∧ plain_value v.
Proof.
  intros Hrun Hk. unfold parse_simple_config in Hrun.
  destruct (simple_config_lines (split NL file_content) ∅)
    as (config' & Hrun' & Hspec).
  rewrite Hrun in Hrun'. injection Hrun' as <-.
  apply Hspec in Hk as [(pre & line & post & E & Hentry & _)|[Hk _]];
    [|by rewrite lookup_empty in Hk].
  apply (is_entry_plain line); [|done].
  apply (split_no_newline NL file_content). rewrite E.
  apply elem_of_app. right. apply list_elem_of_here.
Qed.

(** The keys and the values [parse_simple_config] returns are trimmed
    and have no line break; a key has no [=] and does not start with
    [#]. *)
Theorem parse_simple_config_plain file_content config k v :
  parse_simple_config file_content = Ok config ->
  config !! k = Some v ->
  plain_key k ∧ plain_value v.
Proof. apply simple_config_entry_plain. Qed.

Lemma parse_simple_config_plain_witness :
  plain_key "BASE_SDK_PATH" ∧ plain_value "/opt/gsdk=4.4".
Proof.
  by apply (parse_simple_config_plain sample_makefile
              (<["BASE_SDK_PATH" := "/opt/gsdk=4.4"]> ∅)
              "BASE_SDK_PATH" "/opt/gsdk=4.4").
Defined.

Lemma simple_config_line_write config k v :
  plain_key k -> plain_value v ->
  simple_config_line config (k +:+ String EQ v) = Ok (<[k := v]> config).
Proof.
  intros (Hk & Hknl & Hkeq & Hkc) (Hv & Hvnl).
  apply strip_fixed in Hk as [Hkl Hkr]. apply strip_fixed in Hv as [Hvl Hvr].
  assert (strip (k +:+ String EQ v) = k +:+ String EQ v) as Hline.
  { unfold strip.
    assert (lstrip (k +:+ String EQ v) = k +:+ String EQ v) as ->.
    { apply lstrip_fixed in Hkl as [->|(c & r & -> & Hc)].
      - by rewrite append_nil_l.
      - rewrite append_cons. by apply lstrip_cons. }
    apply rstrip_app; [by apply rstrip_eq|done]. }
  unfold simple_config_line. rewrite Hline.
  assert (String.eqb (k +:+ String EQ v) "" = false) as ->.
  { by destruct k. }
  assert (startswith "#" (k +:+ String EQ v) = false) as ->.
  { destruct k as [|c r]; [done|]. rewrite append_cons.
    unfold startswith in *. cbn [String.prefix] in *.
    destruct (Ascii.ascii_dec "#" c); [|done]. by destruct r. }
  rewrite contains_app. cbn [orb negb].
  rewrite (split1_app _ _ _ Hkeq). result_simpl. cbn [unpack2 Py.bind].
  unfold strip. by rewrite Hkl, Hkr, Hvl, Hvr.
Qed.

Lemma for_each_write kvs : ∀ config,
  (∀ k v, (k, v) ∈ kvs -> plain_key k ∧ plain_value v) ->
  for_each simple_config_line (map (fun kv => kv.1 +:+ String EQ kv.2) kvs)
    config
  = Ok (foldr (fun kv m => <[kv.1 := kv.2]> m) config (reverse kvs)).
Proof.
  induction kvs as [|[k v] kvs IH]; intros config Hplain; [done|].
  cbn [map for_each fst snd].
  destruct (Hplain k v ltac:(apply list_elem_of_here)) as [Hk Hv].
  rewrite simple_config_line_write by done. cbn [Py.bind].
  rewrite IH by (intros ???; by apply Hplain, list_elem_of_further).
  by rewrite reverse_cons, foldr_app.
Qed.

Lemma simple_config_write_entries (kvs : list (string * string)) :
  (∀ k v, (k, v) ∈ kvs -> plain_key k ∧ plain_value v) ->
  parse_simple_config (write_config kvs) = Ok (list_to_map (reverse kvs)).
Proof.
  intros Hplain. unfold parse_simple_config, write_config.
  destruct kvs as [|kv kvs]; [done|].
  change (map (fun kv => kv.1 +:+ String EQ kv.2) (kv :: kvs))
    with ((kv.1 +:+ String EQ kv.2)
          :: map (fun kv => kv.1 +:+ String EQ kv.2) kvs) at 1.
  rewrite (split_lines (kv.1 +:+ String EQ kv.2)
             (map (fun kv => kv.1 +:+ String EQ kv.2) kvs)).
  - etrans; [apply (for_each_write (kv :: kvs) ∅ Hplain)|done].
  - intros l' Hin.
    apply (list_elem_of_In
             (map (fun kv => kv.1 +:+ String EQ kv.2) (kv :: kvs))),
      in_map_iff in Hin as ([k v] & <- & Hin%list_elem_of_In).
    destruct (Hplain k v Hin) as [(_ & Hk & _) (_ & Hv)].
    cbn [fst snd]. rewrite contains_append, Hk. cbn [contains orb].
    by rewrite Hv.
Qed.

(** Writing entries with plain keys and values one per line and parsing
    the text gives back the entries, the last one of a key standing for
    the key. *)
Theorem parse_simple_config_write (kvs : list (string * string)) :
  (∀ k v, (k, v) ∈ kvs -> plain_key k ∧ plain_value v) ->
  parse_simple_config (write_config kvs) = Ok (list_to_map (reverse kvs)).
Proof. apply simple_config_write_entries. Qed.

Lemma parse_simple_config_write_witness :
  parse_simple_config
    (write_config [("A", "1"); ("BASE_SDK_PATH", "/opt/gsdk=4.4"); ("A", "")])
  = Ok (<["A" := ""]> (<["BASE_SDK_PATH" := "/opt/gsdk=4.4"]>
                         (<["A" := "1"]> ∅)))
  ∧ write_config [("A", "1"); ("BASE_SDK_PATH", "/opt/gsdk=4.4"); ("A", "")]
    = lines ["A=1"; "BASE_SDK_PATH=/opt/gsdk=4.4"; "A="].
Proof.
  split; [|reflexivity].
  apply (parse_simple_config_write
           [("A", "1"); ("BASE_SDK_PATH", "/opt/gsdk=4.4"); ("A", "")]).
  intros k v Hin.
  repeat (apply elem_of_cons in Hin as [[= -> ->]|Hin]; [done|]).
  by apply elem_of_nil in Hin.
Defined.

(** What [parse_simple_config] returns is a fixed point of writing and
    parsing: the entries of the result, written one per line in any
    order, parse to the same mapping. *)
Theorem parse_simple_config_reparse file_content config :
  parse_simple_config file_content = Ok config ->
  parse_simple_config (write_config (map_to_list config)) = Ok config.
Proof.
  intros Hrun. rewrite simple_config_write_entries.
  - f_equal. symmetry. apply list_to_map_flip.
    by rewrite reverse_Permutation.
  - intros k v Hin%elem_of_map_to_list.
    by apply (simple_config_entry_plain file_content config).
Qed.

Lemma parse_simple_config_reparse_witness :
  parse_simple_config
    (write_config (map_to_list (<["BASE_SDK_PATH" := "/opt/gsdk=4.4"]> ∅)))
  = Ok (<["BASE_SDK_PATH" := "/opt/gsdk=4.4"]> ∅).
Proof.
  by apply (parse_simple_config_reparse sample_makefile).
Defined.

(** *** The path of the SDK *)

Lemma prefix_append sep b : String.prefix sep (sep +:+ b) = true.
Proof.
  induction sep as [|c sep IH]; [by destruct b|].
  rewrite append_cons. cbn [String.prefix].
  by destruct (Ascii.ascii_dec c c).
Qed.

Lemma prefix_split sep s :
  String.prefix sep s = true -> ∃ b, s = sep +:+ b.
Proof.
  revert s. induction sep as [|c sep IH]; intros s.
  - exists s. by rewrite append_nil_l.
  - destruct s as [|d s]; [done|]. cbn [String.prefix].
    destruct (Ascii.ascii_dec c d) as [<-|]; [|done].
    intros [b ->]%IH. exists b. by rewrite append_cons.
Qed.

Lemma drop_chars_append sep b : drop_chars (String.length sep) (sep +:+ b) = b.
Proof.
  induction sep as [|c sep IH]; [by rewrite append_nil_l|].
  by rewrite append_cons.
Qed.

Lemma append_eq_nil (a b : string) : a +:+ b = "" -> a = "" ∧ b = "".
Proof.
  destruct a; [by rewrite append_nil_l|by rewrite append_cons].
Qed.

(** [split_str1] cuts at the first occurrence of the separator, and
    leaves a text without the separator whole. *)
Lemma split_str1_spec sep s :
  sep ≠ "" ->
  ((∀ a b, s ≠ a +:+ sep +:+ b) ∧ split_str1 sep s = [s])
  ∨ ∃ a b, s = a +:+ sep +:+ b ∧
           (∀ a' b', s = a' +:+ sep +:+ b' ->
                     (String.length a <= String.length a')%nat) ∧
           split_str1 sep s = [a; b].
Proof.
  intros Hsep. induction s as [|c r IH].
  - left. split.
    + intros a b Hab. symmetry in Hab.
      apply append_eq_nil in Hab as [_ Hab].
      by apply append_eq_nil in Hab as [? _].
    + cbn [split_str1]. destruct sep; [done|]. done.
  - cbn [split_str1].
    destruct (String.prefix sep (String c r)) eqn:Hpre.
    { right. apply prefix_split in Hpre as [b Hb]. exists "", b.
      rewrite append_nil_l. split; [done|]. split.
      - intros a' b' _. cbn [String.length]. lia.
      - by rewrite Hb, drop_chars_append. }
    assert (∀ b, String c r ≠ "" +:+ sep +:+ b) as Hfront.
    { intros b Hb. rewrite append_nil_l in Hb.
      by rewrite Hb, prefix_append in Hpre. }
    destruct IH as [[Hnone ->]|(a & b & -> & Hmin & ->)].
    + left. split; [|done]. intros [|d a] b Hab; [by apply (Hfront b)|].
      rewrite append_cons in Hab. injection Hab as _ Hab.
      by apply (Hnone a b).
    + right. exists (String c a), b. split; [by rewrite append_cons|].
      split; [|done]. intros [|d a'] b' Hab; [by destruct (Hfront b')|].
      rewrite append_cons in Hab. injection Hab as _ Hab.
      apply Hmin in Hab. cbn [String.length]. lia.
Qed.

(** The SDK path of a post-build run is the text between the first
    [set(SDK_PATH "] of the file and the next double quote, or the end
    of the file when no double quote follows; a file without
    [set(SDK_PATH "] raises [IndexError]. *)
Theorem cmake_sdk_path_outcome (text : string) :
  ((∀ a b, text ≠ a +:+ sdk_path_marker +:+ b) ∧
   cmake_sdk_path text = Raise IndexError)
  ∨ ∃ a p rest,
      text = a +:+ sdk_path_marker +:+ p +:+ rest ∧
      (∀ a' b', text = a' +:+ sdk_path_marker +:+ b' ->
                (String.length a <= String.length a')%nat) ∧
      contains DQUOTE p = false ∧
      (rest = "" ∨ ∃ r, rest = String DQUOTE r) ∧
      cmake_sdk_path text = Ok p.
Proof.
  unfold cmake_sdk_path.
  destruct (split_str1_spec sdk_path_marker text)
    as [[Hnone ->]|(a & after & -> & Hmin & ->)]; [done|by left|].
  right. unfold getindex. cbn [lookup list_lookup]. result_simpl.
  destruct (contains DQUOTE after) eqn:Hq.
  - destruct (contains_split _ _ Hq) as (p & r & -> & Hp).
    exists a, p, (String DQUOTE r). rewrite (split1_app _ _ _ Hp).
    split_and!; by eauto.
  - exists a, after, "". rewrite (split1_no_sep _ _ Hq), append_nil_r.
    split_and!; by eauto.
Qed.

Lemma cmake_sdk_path_outcome_witness :
  cmake_sdk_path
    (lines ["# generated";
            sdk_path_marker +:+ "/opt/gsdk" +:+ String DQUOTE ")";
            "set(X 1)"])
  = Ok "/opt/gsdk"
  ∧ cmake_sdk_path "set(SDK_PATH /opt/gsdk)" = Raise IndexError.
Proof.
  split; [reflexivity|].
  destruct (cmake_sdk_path_outcome "set(SDK_PATH /opt/gsdk)")
    as [[_ Hraise]|(a & p & rest & _ & _ & _ & _ & Hok)]; [done|].
  by vm_compute in Hok.
Defined.

Lemma is_entry_key_dec line k :
  (∃ v, is_entry line k v) ∨ (∀ v, ¬ is_entry line k v).
Proof.
  destruct (is_entry_dec line) as [(k0 & v0 & He)|Hno].
  - destruct (decide (k = k0)) as [->|Hne]; [by eauto|].
    right. intros v Hv. by destruct (is_entry_fun _ _ _ _ _ He Hv).
  - right. intros v. apply Hno.
Qed.

(** The SDK path of a manual run is the value of the last
    [BASE_SDK_PATH] entry of the makefile; a makefile without such an
    entry raises [KeyError], and nothing else is raised. *)
Theorem makefile_sdk_path_outcome (text : string) :
  (makefile_sdk_path text = Raise KeyError ↔
   ∀ line v, line ∈ split NL text -> ¬ is_entry line "BASE_SDK_PATH" v) ∧
  (∀ v, makefile_sdk_path text = Ok v ↔
        last_entry (split NL text) "BASE_SDK_PATH" v) ∧
  (∀ e, makefile_sdk_path text = Raise e -> e = KeyError).
Proof.
  unfold makefile_sdk_path, parse_simple_config, getitem.
  destruct (simple_config_lines (split NL text) ∅)
    as (config & -> & Hspec).
  result_simpl.
  assert (∀ v, config !! "BASE_SDK_PATH" = Some v ↔
               last_entry (split NL text) "BASE_SDK_PATH" v) as Hlast.
  { intros v. rewrite Hspec. split; [|by left].
    intros [?|[Hk _]]; [done|]. by rewrite lookup_empty in Hk. }
  destruct (config !! "BASE_SDK_PATH") as [v0|] eqn:Hv.
  - split_and!.
    + split; [done|]. intros Hnone.
      destruct (proj1 (Hlast v0) eq_refl) as (pre & l & post & E & Hl & _).
      destruct (Hnone l v0); [|done].
      rewrite E. apply elem_of_app. right. apply list_elem_of_here.
    + intros v. rewrite <- Hlast. split; by intros [= ->].
    + done.
  - split_and!.
    + split; [|done]. intros _.
      destruct (last_sets_or_none is_entry "BASE_SDK_PATH"
                  (λ l, is_entry_key_dec l "BASE_SDK_PATH")
                  (split NL text)) as [[v Hl]|Hno]; [|done].
      by apply Hlast in Hl.
    + intros v. rewrite <- Hlast. done.
    + by intros e [= <-].
Qed.

Lemma makefile_sdk_path_outcome_witness :
  makefile_sdk_path sample_makefile = Ok "/opt/gsdk=4.4" ∧
  makefile_sdk_path (lines ["# generated"; "no separator"]) = Raise KeyError.
Proof.
  split; [reflexivity|].
  apply (makefile_sdk_path_outcome (lines ["# generated"; "no separator"])).
  intros line v Hin Hentry.
  assert (split NL (lines ["# generated"; "no separator"])
          = ["# generated"; "no separator"]) as Hs by reflexivity.
  rewrite Hs in Hin. apply elem_of_cons in Hin as [->|Hin].
  - destruct Hentry as (_ & Hc & _). by vm_compute in Hc.
  - apply elem_of_cons in Hin as [->|Hin]; [|by apply elem_of_nil in Hin].
    destruct Hentry as (_ & _ & a & b & E & _).
    assert (contains EQ (strip "no separator") = true) as Hq
      by (rewrite E; apply contains_app).
    by vm_compute in Hq.
Defined.

(** *** The values of the record *)

Section Values.
Context `{LiteralEval}.
Variable fs : filesystem.
Variable i : inputs.

Lemma ezsp_step_value md md' :
  declared "ezsp_version" (gbl_dynamic i) = true ->
  run_result (ezsp_step fs i md) = Ok md' ->
  ∃ v, field_value fs i "ezsp_version" = Ok v ∧
       md' = <["ezsp_version" := v]> md.
Proof.
  intros Hdecl. rewrite ezsp_step_result, Hdecl.
  intros (v & Hv & [= <-])%bind_ok. exists (PyStr v). split; [|done].
  unfold field_value. cbn [String.eqb Ascii.eqb Bool.eqb]. by rewrite Hv.
Qed.

Lemma zwave_step_value md md' :
  declared "zwave_version" (gbl_dynamic i) = true ->
  run_result (zwave_step fs i md) = Ok md' ->
  ∃ v, field_value fs i "zwave_version" = Ok v ∧
       md' = <["zwave_version" := v]> md.
Proof.
  intros Hdecl. rewrite zwave_step_result, Hdecl.
  intros (v & Hv & [= <-])%bind_ok. exists (PyStr v). split; [|done].
  unfold field_value. cbn [String.eqb Ascii.eqb Bool.eqb]. by rewrite Hv.
Qed.

Lemma cpc_step_value md md' :
  declared "cpc_version" (gbl_dynamic i) = true ->
  run_result (cpc_step fs i md) = Ok md' ->
  ∃ v, field_value fs i "cpc_version" = Ok v ∧
       md' = <["cpc_version" := v]> md.
Proof.
  intros Hdecl. rewrite cpc_step_result, Hdecl.
  intros (h & Hh & (cpc & Hcpc & (internal & Hint & Hm)%bind_ok)%bind_ok)
    %bind_ok.
  unfold field_value. cbn [String.eqb Ascii.eqb Bool.eqb].
  rewrite Hh. result_simpl. rewrite Hcpc. cbn [Py.bind].
  rewrite Hint. cbn [Py.bind].
  destruct (internal !! _).
  - apply bind_ok in Hm as (c & Hc & [= <-]). result_simpl.
    rewrite Hc. cbn [Py.bind]. by eauto.
  - injection Hm as <-. by eauto.
Qed.

Lemma ot_rcp_step_value md md' :
  declared "ot_rcp_version" (gbl_dynamic i) = true ->
  run_result (ot_rcp_step fs i md) = Ok md' ->
  ∃ v, field_value fs i "ot_rcp_version" = Ok v ∧
       md' = <["ot_rcp_version" := v]> md.
Proof.
  intros Hdecl. rewrite ot_rcp_step_result, Hdecl.
  intros (h & Hh & (v & Hv & [= <-])%bind_ok)%bind_ok.
  exists v. split; [|done].
  unfold field_value. cbn [String.eqb Ascii.eqb Bool.eqb].
  rewrite Hh. result_simpl. by rewrite Hv.
Qed.

Lemma gecko_bootloader_step_value md md' :
  declared "gecko_bootloader_version" (gbl_dynamic i) = true ->
  run_result (gecko_bootloader_step fs i md) = Ok md' ->
  ∃ v, field_value fs i "gecko_bootloader_version" = Ok v ∧
       md' = <["gecko_bootloader_version" := v]> md.
Proof.
  intros Hdecl. rewrite gecko_bootloader_step_result, Hdecl.
  intros (h & Hh & (v & Hv & [= <-])%bind_ok)%bind_ok.
  exists (PyStr v). split; [|done].
  unfold field_value. cbn [String.eqb Ascii.eqb Bool.eqb].
  rewrite Hh. result_simpl. by rewrite Hv.
Qed.

(** In a record that is produced every declared known field has the
    value its own files give: no step changes the field of another
    one. *)
Lemma resolve_metadata_values md name :
  run_result (resolve_metadata fs i) = Ok md ->
  name ∈ recognized_names ->
  declared name (gbl_dynamic i) = true ->
  ∃ v, field_value fs i name = Ok v ∧ md !! name = Some v.
Proof.
  intros (md0 & md1 & md2 & md3 & md4 & _ & H1 & H2 & H3 & H4 & H5)
    %resolve_metadata_ok Hname Hdecl.
  pose proof (cpc_step_shape _ _ _ _ H2) as S2.
  pose proof (zwave_step_shape _ _ _ _ H3) as S3.
  pose proof (ot_rcp_step_shape _ _ _ _ H4) as S4.
  pose proof (gecko_bootloader_step_shape _ _ _ _ H5) as S5.
  unfold recognized_names in Hname.
  repeat (apply elem_of_cons in Hname as [->|Hname]).
  - destruct (ezsp_step_value _ _ Hdecl H1) as (v & Hv & ->).
    exists v. split; [done|].
    rewrite (step_shape_lookup _ _ _ _ S5), (step_shape_lookup _ _ _ _ S4),
      (step_shape_lookup _ _ _ _ S3), (step_shape_lookup _ _ _ _ S2) by done.
    apply lookup_insert_eq.
  - destruct (cpc_step_value _ _ Hdecl H2) as (v & Hv & ->).
    exists v. split; [done|].
    rewrite (step_shape_lookup _ _ _ _ S5), (step_shape_lookup _ _ _ _ S4),
      (step_shape_lookup _ _ _ _ S3) by done.
    apply lookup_insert_eq.
  - destruct (zwave_step_value _ _ Hdecl H3) as (v & Hv & ->).
    exists v. split; [done|].
    rewrite (step_shape_lookup _ _ _ _ S5), (step_shape_lookup _ _ _ _ S4)
      by done.
    apply lookup_insert_eq.
  - destruct (ot_rcp_step_value _ _ Hdecl H4) as (v & Hv & ->).
    exists v. split; [done|].
    rewrite (step_shape_lookup _ _ _ _ S5) by done.
    apply lookup_insert_eq.
  - destruct (gecko_bootloader_step_value _ _ Hdecl H5) as (v & Hv & ->).
    exists v. split; [done|]. apply lookup_insert_eq.
  - by apply elem_of_nil in Hname.
Qed.
End Values.

Lemma resolve_metadata_dom_cases `{LiteralEval} fs i md k :
  run_result (resolve_metadata fs i) = Ok md ->
  k ∈ dom md ->
  k ∈ base_names ∨
  (k ∈ recognized_names ∧ declared k (gbl_dynamic i) = true).
Proof.
  intros Hrun. rewrite (resolve_metadata_dom fs i md Hrun).
  intros [?|Hk]%elem_of_union; [by left|]. right.
  by apply elem_of_list_to_set, list_elem_of_In, filter_In in Hk
    as [?%list_elem_of_In ?].
Qed.

Lemma resolve_metadata_has `{LiteralEval} fs i md name :
  run_result (resolve_metadata fs i) = Ok md ->
  name ∈ recognized_names ->
  declared name (gbl_dynamic i) = true ->
  name ∈ dom md.
Proof.
  intros Hrun Hname Hdecl.
  destruct (resolve_metadata_values fs i md name Hrun Hname Hdecl)
    as (v & _ & Hv).
  by apply elem_of_dom.
Qed.

(** The fields are contributed independently: two runs on the same files
    and settings that differ in the declared list agree on every field
    both records have. *)
Theorem resolve_metadata_independent `{LiteralEval} fs i l md md' :
  run_result (resolve_metadata fs i) = Ok md ->
  run_result (resolve_metadata fs (with_dynamic i l)) = Ok md' ->
  ∀ k, k ∈ dom md -> k ∈ dom md' -> md !! k = md' !! k.
Proof.
  intros Hrun Hrun' k Hk Hk'.
  destruct (resolve_metadata_base fs i md Hrun) as (Hv & Hs & Hf & Hb).
  destruct (resolve_metadata_base fs (with_dynamic i l) md' Hrun')
    as (Hv' & Hs' & Hf' & Hb').
  cbn [with_dynamic sdk_version gbl_fields] in Hs', Hf', Hb'.
  destruct (decide (k ∈ base_names)) as [Hbase|Hnbase].
  { unfold base_names in Hbase.
    repeat (apply elem_of_union in Hbase as [Hbase|Hbase]);
      apply elem_of_singleton in Hbase as ->; congruence. }
  destruct (resolve_metadata_dom_cases fs i md k Hrun Hk)
    as [?|[Hname Hdecl]]; [done|].
  destruct (resolve_metadata_dom_cases fs (with_dynamic i l) md' k Hrun' Hk')
    as [?|[_ Hdecl']]; [done|].
  destruct (resolve_metadata_values fs i md k Hrun Hname Hdecl)
    as (v & Hval & ->).
  destruct (resolve_metadata_values fs (with_dynamic i l) md' k Hrun' Hname
              Hdecl') as (v' & Hval' & ->).
  change (field_value fs (with_dynamic i l) k) with (field_value fs i k)
    in Hval'.
  congruence.
Qed.

Lemma resolve_metadata_independent_witness :
  ∃ md md',
    run_result (@resolve_metadata Sample.literal_eval_sample
                  (sample_fs (Some beta_header))
                  (sample_inputs [PyStr "cpc_version"])) = Ok md ∧
    run_result (@resolve_metadata Sample.literal_eval_sample
                  (sample_fs (Some beta_header))
                  (with_dynamic (sample_inputs [PyStr "cpc_version"])
                     [PyStr "ezsp_version"; PyStr "cpc_version"])) = Ok md' ∧
    md !! "cpc_version" = md' !! "cpc_version" ∧
    md' !! "ezsp_version" = Some (PyStr "7.4.0.0").
Proof.
  assert (∃ md, run_result (@resolve_metadata Sample.literal_eval_sample
              (sample_fs (Some beta_header))
              (sample_inputs [PyStr "cpc_version"])) = Ok md) as [md Hrun].
  { destruct (run_result (@resolve_metadata Sample.literal_eval_sample
              (sample_fs (Some beta_header))
              (sample_inputs [PyStr "cpc_version"]))) as [md0|e] eqn:Hr;
      [by exists md0|by hnf in Hr]. }
  assert (∃ md, run_result (@resolve_metadata Sample.literal_eval_sample
              (sample_fs (Some beta_header))
              (with_dynamic (sample_inputs [PyStr "cpc_version"])
                 [PyStr "ezsp_version"; PyStr "cpc_version"])) = Ok md) as [md' Hrun'].
  { destruct (run_result (@resolve_metadata Sample.literal_eval_sample
              (sample_fs (Some beta_header))
              (with_dynamic (sample_inputs [PyStr "cpc_version"])
                 [PyStr "ezsp_version"; PyStr "cpc_version"]))) as [md0|e] eqn:Hr;
      [by exists md0|by hnf in Hr]. }
  exists md, md'. split; [done|]. split; [done|]. split.
  - apply (@resolve_metadata_independent Sample.literal_eval_sample
             _ _ _ _ _ Hrun Hrun').
    + by apply (@resolve_metadata_has Sample.literal_eval_sample _ _ _ _ Hrun);
        [apply list_elem_of_further, list_elem_of_here|].
    + by apply (@resolve_metadata_has Sample.literal_eval_sample _ _ _ _ Hrun');
        [apply list_elem_of_further, list_elem_of_here|].
  - destruct (@resolve_metadata_values Sample.literal_eval_sample _ _ _
                "ezsp_version" Hrun' ltac:(apply list_elem_of_here) eq_refl)
      as (v & Hv & ->).
    vm_compute in Hv. by injection Hv as <-.
Defined.
